(** * The planner / data / visualisation pipeline of [app/agent.py]

    A shallow embedding of the three stages of [run_multi_agent]:
    [planner] (the repair pipeline that follows [json.loads]),
    [data_agent] and [viz_agent], together with the part of the Python
    run time they rely on: JSON values, [int()], [float()], [bool()],
    [str.strip], [str.lower] and the backtracking matcher of [re.search].

    Text is modelled over 8-bit code points (Latin-1); the character
    classes [\d], [\s], [\w] and [str.lower] follow CPython's tables on
    that range. *)

From Stdlib Require Import ZArith String Ascii List Bool Lia SpecFloat.
From stdpp Require Import base option list list_numbers gmap strings sorting.

Local Open Scope string_scope.
Local Open Scope list_scope.
Local Open Scope Z_scope.

(** ** Python values as [json.loads] produces them *)

Local Set Warnings "-register-all".

Inductive value :=
| JNull
| JBool (b : bool)
| JInt (z : Z)
| JFloat (f : spec_float)
| JStr (s : string)
| JList (l : list value)
| JDict (kvs : list (string * value)).

(** A [dict] with string keys; nested objects keep their insertion order
    as association lists inside [JDict]. *)
Abbreviation dict := (gmap string value).

(** An f-string (or a message built by the run time) is kept as its
    parts: literal text and interpolated values. *)
Inductive fpart :=
| FLit (s : string)
| FVal (v : value).

Inductive exn :=
| KeyError (k : string)
| TypeError
| ValueError (msg : list fpart)
| OverflowError.

Inductive result (A : Type) :=
| Ok (a : A)
| Raise (e : exn).
Arguments Ok {A} a.
Arguments Raise {A} e.

Global Instance result_ret : MRet result := fun _ a => Ok a.
Global Instance result_bind : MBind result := fun _ _ f m =>
  match m with Ok a => f a | Raise e => Raise e end.

(** ** Characters *)

Module Char.

Definition code (c : ascii) : N := N_of_ascii c.

Definition between (lo hi : N) (c : ascii) : bool :=
  ((lo <=? code c) && (code c <=? hi))%N.

(** [\d] on a [str] pattern: the decimal digits (category Nd). *)
Definition is_digit (c : ascii) : bool := between 48 57 c.

(** [\s] and [str.isspace]: TAB..CR, FS..US, SPACE, NEL and NBSP. *)
Definition is_space (c : ascii) : bool :=
  between 9 13 c || between 28 32 c || (code c =? 133)%N || (code c =? 160)%N.

(** [str.isalnum] on Latin-1. *)
Definition is_alnum (c : ascii) : bool :=
  between 48 57 c || between 65 90 c || between 97 122 c
  || (code c =? 170)%N || between 178 179 c || (code c =? 181)%N
  || between 185 186 c || between 188 190 c
  || between 192 214 c || between 216 246 c || between 248 255 c.

(** The white space [int()] and [float()] skip around a literal: the
    C locale's, and NEL and NBSP. *)
Definition is_num_space (c : ascii) : bool :=
  between 9 13 c || (code c =? 32)%N || (code c =? 133)%N || (code c =? 160)%N.

(** [\w]: alphanumeric or the underscore. *)
Definition is_word (c : ascii) : bool := is_alnum c || (code c =? 95)%N.

(** [str.lower], one character. *)
Definition lower (c : ascii) : ascii :=
  if between 65 90 c || (between 192 222 c && negb (code c =? 215)%N)
  then ascii_of_N (code c + 32) else c.

Definition digit_val (c : ascii) : Z := Z.of_N (code c) - 48.

End Char.

(** ** Strings *)

Abbreviation chars := (list ascii).

Definition py_lower (t : string) : chars := map Char.lower (list_ascii_of_string t).

Fixpoint drop_while (p : ascii -> bool) (s : chars) : chars :=
  match s with
  | c :: s' => if p c then drop_while p s' else s
  | [] => []
  end.

Definition strip_with (p : ascii -> bool) (s : chars) : chars :=
  rev (drop_while p (rev (drop_while p s))).

(** [str.strip()] *)
Definition py_strip (s : chars) : chars := strip_with Char.is_space s.

(** The literal [int()] and [float()] read, without the surrounding white space. *)
Definition num_strip (s : chars) : chars := strip_with Char.is_num_space s.

(** [isinstance(x, str) and not x.strip()] *)
Definition _is_empty_str (x : value) : bool :=
  match x with
  | JStr s => match py_strip (list_ascii_of_string s) with [] => true | _ => false end
  | _ => false
  end.

(** ** [int()] and [float()] *)

(** A run of digits in which single underscores may separate digits. *)
Fixpoint digits_us (need_digit : bool) (s : chars) : option chars :=
  match s with
  | [] => if need_digit then None else Some []
  | c :: s' =>
      if Char.is_digit c then cons c <$> digits_us false s'
      else if Ascii.eqb c "_" && negb need_digit then digits_us true s'
      else None
  end.

Definition int_of_digits (ds : chars) : Z :=
  fold_left (fun acc c => acc * 10 + Char.digit_val c) ds 0.

Definition split_sign (s : chars) : bool * chars :=
  match s with
  | "-"%char :: b => (true, b)
  | "+"%char :: b => (false, b)
  | _ => (false, s)
  end.

(** [int(s)] for a string in base 10: surrounding white space, a sign,
    digits with underscores.  The interpreter's limit on the number of
    digits is not modelled. *)
Definition int_of_str (s : string) : option Z :=
  let '(neg, body) := split_sign (num_strip (list_ascii_of_string s)) in
  ds ← digits_us true body;
  Some (if neg then - int_of_digits ds else int_of_digits ds).

Definition float_trunc (s : bool) (m : positive) (e : Z) : Z :=
  let a := if 0 <=? e then Z.pos m * 2 ^ e else Z.pos m / 2 ^ (- e) in
  if s then - a else a.

Definition invalid_literal (what : string) (x : value) : exn :=
  ValueError [FLit "invalid literal for "; FLit what; FLit ": "; FVal x].

Definition py_int (x : value) : result Z :=
  match x with
  | JInt z => Ok z
  | JBool b => Ok (if b then 1 else 0)
  | JFloat S754_nan => Raise (ValueError [FLit "cannot convert float NaN to integer"])
  | JFloat (S754_infinity _) => Raise OverflowError
  | JFloat (S754_zero _) => Ok 0
  | JFloat (S754_finite s m e) => Ok (float_trunc s m e)
  | JStr s =>
      match int_of_str s with
      | Some z => Ok z
      | None => Raise (invalid_literal "int() with base 10" x)
      end
  | JNull | JList _ | JDict _ => Raise TypeError
  end.

(** Binary64. *)
Definition prec : Z := 53.
Definition emax : Z := 1024.

Definition float_of_Z (z : Z) : spec_float := binary_normalize prec emax z 0 false.

(** The double nearest to [m * 10 ^ e10], for [m > 0]. *)
Definition float_of_decimal (neg : bool) (m : positive) (e10 : Z) : spec_float :=
  if 0 <=? e10
  then binary_round prec emax neg (m * Z.to_pos (10 ^ e10)) 0
  else SFdiv prec emax (S754_finite neg m 0) (S754_finite false (Z.to_pos (10 ^ (- e10))) 0).

Definition is_digit_or_us (c : ascii) : bool := Char.is_digit c || Ascii.eqb c "_".

Fixpoint span (p : ascii -> bool) (s : chars) : chars * chars :=
  match s with
  | c :: s' => if p c then let '(a, b) := span p s' in (c :: a, b) else ([], s)
  | [] => ([], [])
  end.

(** A digit group that may be empty. *)
Definition digits_opt (s : chars) : option chars :=
  match s with [] => Some [] | _ => digits_us true s end.

(** The exponent part: nothing, or [e], a sign and digits up to the end. *)
Definition parse_exponent (s : chars) : option Z :=
  match s with
  | [] => Some 0
  | c :: s' =>
      if Ascii.eqb (Char.lower c) "e" then
        let '(neg, body) := split_sign s' in
        ds ← digits_us true body;
        Some (if neg then - int_of_digits ds else int_of_digits ds)
      else None
  end.

(** A decimal literal: digits, an optional fraction, an optional exponent. *)
Definition parse_decimal (neg : bool) (s : chars) : option spec_float :=
  let '(ip, r1) := span is_digit_or_us s in
  let '(fp, r2) :=
    match r1 with
    | "."%char :: r => span is_digit_or_us r
    | _ => ([], r1)
    end in
  ids ← digits_opt ip;
  fds ← digits_opt fp;
  ex ← parse_exponent r2;
  match ids ++ fds with
  | [] => None
  | ds =>
      match int_of_digits ds with
      | Z.pos m => Some (float_of_decimal neg m (ex - Z.of_nat (length fds)))
      | _ => Some (S754_zero neg)
      end
  end.

Definition parse_special (neg : bool) (s : chars) : option spec_float :=
  let w := string_of_list_ascii (map Char.lower s) in
  if String.eqb w "inf" || String.eqb w "infinity" then Some (S754_infinity neg)
  else if String.eqb w "nan" then Some S754_nan
  else None.

(** [float(s)] for a string. *)
Definition float_of_str (s : string) : option spec_float :=
  let '(neg, body) := split_sign (num_strip (list_ascii_of_string s)) in
  match parse_decimal neg body with
  | Some f => Some f
  | None => parse_special neg body
  end.

Definition py_float (x : value) : result spec_float :=
  match x with
  | JFloat f => Ok f
  | JInt z =>
      match float_of_Z z with
      | S754_infinity _ => Raise OverflowError
      | f => Ok f
      end
  | JBool b => Ok (float_of_Z (if b then 1 else 0))
  | JStr s =>
      match float_of_str s with
      | Some f => Ok f
      | None => Raise (ValueError [FLit "could not convert string to float: "; FVal x])
      end
  | JNull | JList _ | JDict _ => Raise TypeError
  end.

(** [bool(x)] *)
Definition py_bool (x : value) : bool :=
  match x with
  | JNull => false
  | JBool b => b
  | JInt z => negb (z =? 0)
  | JFloat (S754_zero _) => false
  | JFloat _ => true
  | JStr s => negb (String.eqb s "")
  | JList l => match l with [] => false | _ => true end
  | JDict kvs => match kvs with [] => false | _ => true end
  end.

(** [x == s] for a string [s] *)
Definition py_eq_str (x : value) (s : string) : bool :=
  match x with JStr s' => String.eqb s' s | _ => false end.

(** [x is None] *)
Definition is_none (x : value) : bool :=
  match x with JNull => true | _ => false end.

(** [x or None] *)
Definition or_none (x : value) : value := if py_bool x then x else JNull.

(** [d.get(k)], [d.get(k, default)] and [d[k]] *)
Definition py_get (d : dict) (k : string) : value := default JNull (d !! k).
Definition py_get_default (d : dict) (k : string) (dflt : value) : value := default dflt (d !! k).
Definition py_getitem (d : dict) (k : string) : result value :=
  match d !! k with Some v => Ok v | None => Raise (KeyError k) end.

(** [d.setdefault(k, v)] *)
Definition setdefault (k : string) (v : value) (d : dict) : dict :=
  match d !! k with Some _ => d | None => <[k := v]> d end.

(** ** The matcher of [re.search]

    A backtracking matcher in continuation-passing style: alternatives
    are tried in order, a greedy quantifier tries the longer match first
    and a lazy one the shorter, and the first complete match wins.  The
    quantifiers of the patterns below all range over one-character
    atoms, so [Rep] takes a character class. *)

Module Re.

Inductive cls :=
| CDigit                (* \d *)
| CSpace                (* \s *)
| CAny                  (* .  *)
| COneOf (cs : chars)   (* [...] *)
| CUnion (a b : cls).

Fixpoint cls_match (p : cls) (c : ascii) : bool :=
  match p with
  | CDigit => Char.is_digit c
  | CSpace => Char.is_space c
  | CAny => negb (Ascii.eqb c "010")
  | COneOf cs => existsb (Ascii.eqb c) cs
  | CUnion a b => cls_match a c || cls_match b c
  end.

Inductive regex :=
| Lit (w : string)
| Seq (r1 r2 : regex)
| Alt (r1 r2 : regex)
| Rep (p : cls) (lo : nat) (hi : option nat) (greedy : bool)
| Opt (r : regex)
| WordB
| Group (i : nat) (r : regex).

(** The groups matched so far, the latest first. *)
Abbreviation captures := (list (nat * chars)).

Fixpoint cap_get (c : captures) (i : nat) : option chars :=
  match c with
  | [] => None
  | (j, w) :: c' => if Nat.eqb i j then Some w else cap_get c' i
  end.

Record mstate := MState {
  prev : option ascii;       (* the character before the position *)
  rest : chars;              (* the text from the position on *)
  caps : captures
}.

Definition word_char (o : option ascii) : bool := from_option Char.is_word false o.

(** [\b] *)
Definition at_boundary (pv : option ascii) (s : chars) : bool :=
  xorb (word_char pv) (word_char (head s)).

Fixpoint strip_prefix (w s : chars) : option chars :=
  match w, s with
  | [], _ => Some s
  | a :: w', c :: s' => if Ascii.eqb a c then strip_prefix w' s' else None
  | _ :: _, [] => None
  end.

Definition last_of (pv : option ascii) (w : chars) : option ascii :=
  match last w with Some c => Some c | None => pv end.

(** The continuation receives the characters the expression matched. *)
Section Run.
Context {R : Type}.

(** [p*], [p+] and [p{lo,}]: at least [lo] characters of the class. *)
Fixpoint rep_any (p : cls) (greedy : bool) (lo : nat)
    (pv : option ascii) (s : chars)
    (k : chars -> option ascii -> chars -> option R) : option R :=
  let more (_ : unit) :=
    match s with
    | c :: s' =>
        if cls_match p c
        then rep_any p greedy (Nat.pred lo) (Some c) s' (fun w => k (c :: w))
        else None
    | [] => None
    end in
  match lo with
  | S _ => more ()
  | O =>
      if greedy
      then match more () with Some x => Some x | None => k [] pv s end
      else match k [] pv s with Some x => Some x | None => more () end
  end.

(** [p?] and [p{lo,hi}]: at least [lo] and at most [hi] characters. *)
Fixpoint rep_upto (p : cls) (greedy : bool) (lo hi : nat)
    (pv : option ascii) (s : chars)
    (k : chars -> option ascii -> chars -> option R) : option R :=
  let more (_ : unit) :=
    match hi with
    | S hi' =>
        match s with
        | c :: s' =>
            if cls_match p c
            then rep_upto p greedy (Nat.pred lo) hi' (Some c) s' (fun w => k (c :: w))
            else None
        | [] => None
        end
    | O => None
    end in
  match lo with
  | S _ => more ()
  | O =>
      if greedy
      then match more () with Some x => Some x | None => k [] pv s end
      else match k [] pv s with Some x => Some x | None => more () end
  end.

Definition rep (p : cls) (greedy : bool) (lo : nat) (hi : option nat) :=
  match hi with
  | Some h => rep_upto p greedy lo h
  | None => rep_any p greedy lo
  end.

Fixpoint run (r : regex) (st : mstate) (k : chars -> mstate -> option R) : option R :=
  match r with
  | Lit w =>
      let w := list_ascii_of_string w in
      match strip_prefix w (rest st) with
      | Some s' => k w (MState (last_of (prev st) w) s' (caps st))
      | None => None
      end
  | Seq r1 r2 => run r1 st (fun w1 st1 => run r2 st1 (fun w2 => k (w1 ++ w2)))
  | Alt r1 r2 =>
      match run r1 st k with Some x => Some x | None => run r2 st k end
  | Rep p lo hi greedy =>
      rep p greedy lo hi (prev st) (rest st) (fun w pv s => k w (MState pv s (caps st)))
  | Opt r =>
      match run r st k with Some x => Some x | None => k [] st end
  | WordB => if at_boundary (prev st) (rest st) then k [] st else None
  | Group i r =>
      run r st (fun w st' => k w (MState (prev st') (rest st') ((i, w) :: caps st')))
  end.

End Run.

(** [re.search]: the leftmost position at which the pattern matches. *)
Fixpoint search_at (r : regex) (pv : option ascii) (s : chars) : option mstate :=
  match run r (MState pv s []) (fun _ m => Some m) with
  | Some m => Some m
  | None =>
      match s with
      | c :: s' => search_at r (Some c) s'
      | [] => None
      end
  end.

Definition search (r : regex) (t : chars) : option mstate := search_at r None t.

(** [m.group(i)] *)
Definition group (m : mstate) (i : nat) : value :=
  match cap_get (caps m) i with
  | Some w => JStr (string_of_list_ascii w)
  | None => JNull
  end.

Declare Scope re_scope.
Delimit Scope re_scope with re.
Infix ">>" := Seq (at level 60, right associativity) : re_scope.
Infix "<|>" := Alt (at level 65, right associativity) : re_scope.

Definition digits (lo : nat) (hi : option nat) : regex := Rep CDigit lo hi true.
Definition spaces : regex := Rep CSpace 0 None true.             (* \s* *)
Definition lazy_any : regex := Rep CAny 0 None false.            (* .*? *)
Definition seps : regex :=                                       (* [_\s-]* *)
  Rep (CUnion (COneOf ["_"%char; "-"%char]) CSpace) 0 None true.
Definition opt_assign : regex :=                                 (* [:=]? *)
  Rep (COneOf [":"%char; "="%char]) 0 (Some 1%nat) true.

End Re.

Import Re.
Local Open Scope re_scope.

(** [(\d{4})\s*-\s*(\d{4}).*?\b(vs|versus|compare)\b.*?(\d{4})\s*-\s*(\d{4})] *)
Definition re_compare_ranges : regex :=
  Group 1 (digits 4 (Some 4%nat)) >> spaces >> Lit "-" >> spaces >>
  Group 2 (digits 4 (Some 4%nat)) >> lazy_any >> WordB >>
  Group 3 (Lit "vs" <|> Lit "versus" <|> Lit "compare") >> WordB >> lazy_any >>
  Group 4 (digits 4 (Some 4%nat)) >> spaces >> Lit "-" >> spaces >>
  Group 5 (digits 4 (Some 4%nat)).

(** [\btop[_\s-]*k\s*[:=]?\s*(\d{1,4})\b] *)
Definition re_top_k : regex :=
  WordB >> Lit "top" >> seps >> Lit "k" >> spaces >> opt_assign >> spaces >>
  Group 1 (digits 1 (Some 4%nat)) >> WordB.

(** [\b(field[_\s-]*score[_\s-]*min|threshold|score)\s*[:=]?\s*(0?\.\d+|\d+(\.\d+)?)\b] *)
Definition re_field_score_min : regex :=
  WordB >>
  Group 1 ((Lit "field" >> seps >> Lit "score" >> seps >> Lit "min")
           <|> Lit "threshold" <|> Lit "score") >>
  spaces >> opt_assign >> spaces >>
  Group 2 ((Rep (COneOf ["0"%char]) 0 (Some 1%nat) true >> Lit "." >> digits 1 None)
           <|> (digits 1 None >> Opt (Group 3 (Lit "." >> digits 1 None)))) >>
  WordB.

(** [\b(field[_\s-]*level|level)\s*[:=]?\s*(\d{1,2})\b] *)
Definition re_field_level : regex :=
  WordB >> Group 1 ((Lit "field" >> seps >> Lit "level") <|> Lit "level") >>
  spaces >> opt_assign >> spaces >> Group 2 (digits 1 (Some 2%nat)) >> WordB.

(** [\b{k}\b] *)
Definition re_word (k : string) : regex := WordB >> Lit k >> WordB.

(** ** The pattern matchers of the planner *)

Definition _parse_compare_ranges (text : string) : result (option (Z * Z * Z * Z)) :=
  let t := py_lower text in
  match search re_compare_ranges t with
  | None => Ok None
  | Some m =>
      a1 ← py_int (group m 1);
      a2 ← py_int (group m 2);
      b1 ← py_int (group m 4);
      b2 ← py_int (group m 5);
      Ok (Some (a1, a2, b1, b2))
  end.

Definition _parse_top_k (text : string) : result (option Z) :=
  let t := py_lower text in
  match search re_top_k t with
  | Some m => n ← py_int (group m 1); Ok (Some n)
  | None => Ok None
  end.

Definition _parse_field_score_min (text : string) : result (option spec_float) :=
  let t := py_lower text in
  match search re_field_score_min t with
  | Some m => f ← py_float (group m 2); Ok (Some f)
  | None => Ok None
  end.

Definition _parse_field_level (text : string) : result (option Z) :=
  let t := py_lower text in
  match search re_field_level t with
  | Some m => n ← py_int (group m 2); Ok (Some n)
  | None => Ok None
  end.

Definition doctype_words : list string :=
  ["article"; "preprint"; "conference"; "journal"; "proceedings"].

Definition _parse_doctype (text : string) : option string :=
  let t := py_lower text in
  find (fun k => bool_decide (is_Some (search (re_word k) t))) doctype_words.

(** ** [planner]

    The call to the interpretation service and [json.loads] happen
    before the code modelled here; [interp] is the object they return.
    The dictionary [plan] is updated in place by the source and threaded
    through the blocks below, which follow the source's comments. *)

Definition py_contains (d : dict) (k : string) : bool := bool_decide (is_Some (d !! k)).

(** Truth value of an [Optional[Dict]]: [None] and the empty dictionary are false. *)
Definition truthy_dict (o : option dict) : option dict :=
  match o with
  | Some d => if Nat.eqb (size d) 0 then None else Some d
  | None => None
  end.

Fixpoint for_each {A S : Type} (f : S -> A -> result S) (l : list A) (s : S) : result S :=
  match l with
  | [] => Ok s
  | a :: l' => s' ← f s a; for_each f l' s'
  end.

(** Ensure chart_type exists *)
Definition ensure_chart_type (prev_plan : option dict) (plan : dict) : dict :=
  if negb (py_bool (py_get plan "chart_type"))
  then <["chart_type" :=
          match truthy_dict prev_plan with
          | Some p => py_get p "chart_type"
          | None => JStr "papers_by_year"
          end]> plan
  else plan.

Definition inherit_keys : list string :=
  ["year_from"; "year_to"; "doctype"; "field_level"; "field_score_min"; "top_k";
   "color"; "mark"; "compare"; "compare_year_from"; "compare_year_to"].

(** [if k not in plan or plan[k] is None: plan[k] = prev_plan.get(k)] *)
Definition inherit_key (p : dict) (plan : dict) (k : string) : result dict :=
  missing ← (if negb (py_contains plan k) then Ok true
             else v ← py_getitem plan k; Ok (is_none v));
  Ok (if missing : bool then <[k := py_get p k]> plan else plan).

(** Inherit missing keys from prev_plan (including compare) *)
Definition inherit_missing (prev_plan : option dict) (plan : dict) : result dict :=
  match truthy_dict prev_plan with
  | Some p => for_each (inherit_key p) inherit_keys plan
  | None => Ok plan
  end.

Definition default_score : spec_float := S754_finite false 5404319552844595 (-54).   (* 0.3 *)

(** Fill defaults *)
Definition fill_defaults (plan : dict) : dict :=
  let plan := setdefault "year_from" (JInt 2020) plan in
  let plan := setdefault "year_to" (JInt 2024) plan in
  let plan := setdefault "doctype" JNull plan in
  let plan := setdefault "field_level" (JInt 1) plan in
  let plan := setdefault "field_score_min" (JFloat default_score) plan in
  let plan := setdefault "top_k" (JInt 25) plan in
  let plan := setdefault "color" JNull plan in
  let plan := setdefault "mark" (JStr "bar") plan in
  let plan := setdefault "compare" (JBool false) plan in
  let plan := setdefault "compare_year_from" JNull plan in
  setdefault "compare_year_to" JNull plan.

Definition set_opt (k : string) (o : option value) (plan : dict) : dict :=
  match o with Some v => <[k := v]> plan | None => plan end.

(** Regex fallback for compare & filters (stabilizes behavior) *)
Definition regex_fallback (user_text : string) (plan : dict) : result dict :=
  cmp ← _parse_compare_ranges user_text;
  let plan :=
    match cmp with
    | Some (a1, a2, b1, b2) =>
        let plan := <["compare" := JBool true]> plan in
        let plan := <["year_from" := JInt a1]> plan in
        let plan := <["year_to" := JInt a2]> plan in
        let plan := <["compare_year_from" := JInt b1]> plan in
        <["compare_year_to" := JInt b2]> plan
    | None => plan
    end in
  tk ← _parse_top_k user_text;
  let plan := set_opt "top_k" (JInt <$> tk) plan in
  fs ← _parse_field_score_min user_text;
  let plan := set_opt "field_score_min" (JFloat <$> fs) plan in
  fl ← _parse_field_level user_text;
  let plan := set_opt "field_level" (JInt <$> fl) plan in
  let dt := _parse_doctype user_text in
  Ok (set_opt "doctype" (JStr <$> dt) plan).

(** Normalize empty strings *)
Definition normalize_empty_strings (plan : dict) : dict :=
  let plan := if _is_empty_str (py_get plan "doctype") then <["doctype" := JNull]> plan else plan in
  let plan := if _is_empty_str (py_get plan "color") then <["color" := JNull]> plan else plan in
  if _is_empty_str (py_get plan "mark") then <["mark" := JStr "bar"]> plan else plan.

(** [try: return int(x) / except Exception: return default] *)
Definition _to_int (x : value) (dflt : value) : value :=
  match py_int x with Ok z => JInt z | Raise _ => dflt end.

Definition _to_float (x : value) (dflt : value) : value :=
  match py_float x with Ok f => JFloat f | Raise _ => dflt end.

(** Type normalize *)
Definition type_normalize (plan : dict) : dict :=
  let plan := <["year_from" := _to_int (py_get plan "year_from") (JInt 2020)]> plan in
  let plan := <["year_to" := _to_int (py_get plan "year_to") (JInt 2024)]> plan in
  let plan := <["field_level" := _to_int (py_get plan "field_level") (JInt 1)]> plan in
  let plan := <["field_score_min" :=
                 _to_float (py_get plan "field_score_min") (JFloat default_score)]> plan in
  <["top_k" := _to_int (py_get plan "top_k") (JInt 25)]> plan.

Definition is_mark (x : value) : bool :=
  py_eq_str x "bar" || py_eq_str x "line" || py_eq_str x "area".

(** Normalize mark *)
Definition normalize_mark (plan : dict) : dict :=
  if negb (is_mark (py_get plan "mark")) then <["mark" := JStr "bar"]> plan else plan.

Definition reset_compare (plan : dict) : dict :=
  let plan := <["compare" := JBool false]> plan in
  let plan := <["compare_year_from" := JNull]> plan in
  <["compare_year_to" := JNull]> plan.

(** Normalize compare *)
Definition normalize_compare (plan : dict) : result dict :=
  let plan := <["compare" := JBool (py_bool (py_get_default plan "compare" (JBool false)))]> plan in
  c ← py_getitem plan "compare";
  if py_bool c then
    if is_none (py_get plan "compare_year_from") || is_none (py_get plan "compare_year_to")
    then Ok (reset_compare plan)
    else
      let plan := <["compare_year_from" := _to_int (py_get plan "compare_year_from") JNull]> plan in
      let plan := <["compare_year_to" := _to_int (py_get plan "compare_year_to") JNull]> plan in
      f ← py_getitem plan "compare_year_from";
      t ← py_getitem plan "compare_year_to";
      if is_none f || is_none t then Ok (reset_compare plan) else Ok plan
  else
    let plan := <["compare_year_from" := JNull]> plan in
    Ok (<["compare_year_to" := JNull]> plan).

Definition planner (interp : dict) (user_text : string) (prev_plan : option dict) : result dict :=
  let plan := ensure_chart_type prev_plan interp in
  plan ← inherit_missing prev_plan plan;
  let plan := fill_defaults plan in
  plan ← regex_fallback user_text plan;
  let plan := normalize_empty_strings plan in
  let plan := type_normalize plan in
  let plan := normalize_mark plan in
  normalize_compare plan.

(** The value of a field of a planner result. *)
Definition field (r : result dict) (k : string) : option value :=
  match r with Ok p => p !! k | Raise _ => None end.

(** ** Insertion-ordered dictionaries (rows and the chart descriptor) *)

Abbreviation odict := (list (string * value)).

Fixpoint od_set (k : string) (v : value) (d : odict) : odict :=
  match d with
  | [] => [(k, v)]
  | (k', v') :: d' => if String.eqb k' k then (k, v) :: d' else (k', v') :: od_set k v d'
  end.

Fixpoint od_get (d : odict) (k : string) : option value :=
  match d with
  | [] => None
  | (k', v) :: d' => if String.eqb k' k then Some v else od_get d' k
  end.

(** [{**d, **r}] *)
Definition od_update (d r : odict) : odict :=
  fold_left (fun d kv => od_set kv.1 kv.2 d) r d.

(** [range(a, b)] *)
Definition py_range (a b : Z) : list Z := seqZ a (b - a).

(** [l[:k]] *)
Definition py_slice_to {A : Type} (l : list A) (k : Z) : list A :=
  if 0 <=? k then take (Z.to_nat k) l else take (length l - Z.to_nat (- k)) l.

(** [sorted(l, key=key, reverse=True)] for keys that are triples of
    integers: a stable sort, so equal keys keep their order in [l]. *)
Definition key_lt (a b : Z * Z * Z) : bool :=
  let '(a1, a2, a3) := a in
  let '(b1, b2, b3) := b in
  (a1 <? b1) || ((a1 =? b1) && ((a2 <? b2) || ((a2 =? b2) && (a3 <? b3)))).

Fixpoint insert_desc {A : Type} (key : A -> Z * Z * Z) (x : A) (l : list A) : list A :=
  match l with
  | [] => [x]
  | y :: l' => if key_lt (key x) (key y) then y :: insert_desc key x l' else x :: l
  end.

Definition py_sorted_desc {A : Type} (key : A -> Z * Z * Z) (l : list A) : list A :=
  foldr (insert_desc key) [] l.

(** [{k: v for k, v in rows}]: a later row replaces an earlier one. *)
Definition dict_of_rows `{Countable K} {V : Type} (rows : list (K * V)) : gmap K V :=
  fold_left (fun m kv => <[kv.1 := kv.2]> m) rows ∅.

Record payload := Payload {
  p_chart_type : value;
  p_plan : dict;
  p_data : list odict
}.

Record rendered := Rendered {
  answer : list fpart;
  r_plan : dict;
  r_data : list odict;
  vegaLiteSpec : odict
}.

Definition unsupported_chart_type (chart_type : value) : exn :=
  ValueError [FLit "Unsupported chart_type: "; FVal chart_type].

(** ** [data_agent] *)

Section Aggregator.

(** The aggregation backend of [app/queries.py] and the order in which
    a [set] of strings is iterated, which the language leaves open. *)
Variable papers_by_year : Z -> Z -> value -> result (list (Z * Z)).
Variable papers_by_field :
  Z -> Z -> Z -> spec_float -> value -> Z -> result (list (string * Z)).
Variable set_iter : gset string -> list string.

Definition year_row (m : gmap Z Z) (y : Z) : odict :=
  [("year", JInt y); ("n_papers", JInt (default 0 (m !! y)))].

Definition _year_rows (year_from year_to : Z) (doctype : value) : result (list odict) :=
  rows ← papers_by_year year_from year_to doctype;
  (* Ensure continuous years in [year_from, year_to] *)
  let m := dict_of_rows rows in
  Ok (year_row m <$> py_range year_from (year_to + 1)).

Definition field_row (fn : string * Z) : odict :=
  [("field", JStr fn.1); ("n_papers", JInt fn.2)].

(** The rows are [field_row <$> rows]; the caller reads them back with
    [r["field"]] and [int(r["n_papers"])], so the pairs are kept. *)
Definition _field_rows (year_from year_to : Z) (doctype : value)
    (field_level : Z) (field_score_min : spec_float) (top_k : Z) : result (list (string * Z)) :=
  papers_by_field year_from year_to field_level field_score_min doctype top_k.

Definition with_group (g : string) (r : odict) : odict := od_update [("group", JStr g)] r.

Definition count_of (m : gmap string Z) (f : string) : Z := default 0 (m !! f).

Definition rank_key (a_map b_map : gmap string Z) (f : string) : Z * Z * Z :=
  (count_of a_map f + count_of b_map f, count_of a_map f, count_of b_map f).

Definition group_field_row (g : string) (m : gmap string Z) (f : string) : odict :=
  [("group", JStr g); ("field", JStr f); ("n_papers", JInt (count_of m f))].

Definition data_agent (plan : dict) : result payload :=
  chart_type ← py_getitem plan "chart_type";
  year_from ← py_int (py_get_default plan "year_from" (JInt 2020));
  year_to ← py_int (py_get_default plan "year_to" (JInt 2024));
  let doctype := or_none (py_get plan "doctype") in
  let compare := py_bool (py_get_default plan "compare" (JBool false)) in
  let c_from := py_get plan "compare_year_from" in
  let c_to := py_get plan "compare_year_to" in
  if py_eq_str chart_type "papers_by_year" then
    if negb compare then
      data ← _year_rows year_from year_to doctype;
      Ok (Payload chart_type plan data)
    else
      a ← _year_rows year_from year_to doctype;
      cf ← py_int c_from;
      ct ← py_int c_to;
      b ← _year_rows cf ct doctype;
      Ok (Payload chart_type plan ((with_group "A" <$> a) ++ (with_group "B" <$> b)))
  else if py_eq_str chart_type "papers_by_field" then
    field_level ← py_int (py_get_default plan "field_level" (JInt 1));
    field_score_min ← py_float (py_get_default plan "field_score_min" (JFloat default_score));
    top_k ← py_int (py_get_default plan "top_k" (JInt 25));
    if negb compare then
      rows ← _field_rows year_from year_to doctype field_level field_score_min top_k;
      Ok (Payload chart_type plan (field_row <$> rows))
    else
      let pool := Z.max (top_k * 5) 200 in
      a_rows ← _field_rows year_from year_to doctype field_level field_score_min pool;
      cf ← py_int c_from;
      ct ← py_int c_to;
      b_rows ← _field_rows cf ct doctype field_level field_score_min pool;
      let a_map := dict_of_rows a_rows in
      let b_map := dict_of_rows b_rows in
      let fields := dom a_map ∪ dom b_map in
      let ranked := py_sorted_desc (rank_key a_map b_map) (set_iter fields) in
      let keep := py_slice_to ranked top_k in
      Ok (Payload chart_type plan
            ((group_field_row "A" a_map <$> keep) ++ (group_field_row "B" b_map <$> keep)))
  else Raise (unsupported_chart_type chart_type).

End Aggregator.

(** ** [viz_agent] *)

Definition opacity_dim : spec_float := Eval vm_compute in float_of_decimal false 35 (-2).  (* 0.35 *)

Definition fld (name : string) : value := JDict [("field", JStr name)].

Definition axis (name type title : string) : value :=
  JDict [("field", JStr name); ("type", JStr type); ("title", JStr title)].

Definition pick_param (fields : list string) : value :=
  JDict [("name", JStr "pick");
         ("select", JDict [("type", JStr "point"); ("fields", JList (JStr <$> fields))])].

Definition opacity_enc : value :=
  JDict [("condition", JDict [("param", JStr "pick"); ("value", JInt 1)]);
         ("value", JFloat opacity_dim)].

Definition group_color_enc : value := axis "group" "nominal" "Group".

Definition chart_spec (description : string) (data : list odict) (params : list value)
    (mark encoding : odict) : odict :=
  [("$schema", JStr "https://vega.github.io/schema/vega-lite/v5.json");
   ("description", JStr description);
   ("data", JDict [("values", JList (JDict <$> data))]);
   ("params", JList params);
   ("mark", JDict mark);
   ("encoding", JDict encoding)].

Definition viz_agent (pl : payload) : result rendered :=
  let chart_type := p_chart_type pl in
  let data := p_data pl in
  let plan := p_plan pl in
  let color := or_none (py_get plan "color") in
  let mark_type := if py_bool (py_get plan "mark") then py_get plan "mark" else JStr "bar" in
  let compare := py_bool (py_get_default plan "compare" (JBool false)) in
  let mark : odict := [("type", mark_type); ("tooltip", JBool true)] in
  let mark := if negb compare && py_bool color then od_set "color" color mark else mark in
  let pv k := FVal (py_get plan k) in
  if py_eq_str chart_type "papers_by_year" then
    let encoding : odict :=
      [("x", axis "year" "ordinal" "Year");
       ("y", axis "n_papers" "quantitative" "Papers")] in
    let '(params, encoding) :=
      if compare then
        ([pick_param ["group"; "year"]],
         od_set "tooltip" (JList [fld "group"; fld "year"; fld "n_papers"])
           (od_set "opacity" opacity_enc (od_set "color" group_color_enc encoding)))
      else
        ([pick_param ["year"]],
         od_set "tooltip" (JList [fld "year"; fld "n_papers"])
           (od_set "opacity" opacity_enc encoding)) in
    let spec := chart_spec "Number of Dartmouth papers by year" data params mark encoding in
    let answer :=
      if compare then
        [FLit "Papers by year (A="; pv "year_from"; FLit "–"; pv "year_to";
         FLit ", B="; pv "compare_year_from"; FLit "–"; pv "compare_year_to"; FLit ")."]
      else
        [FLit "Papers by year ("; pv "year_from"; FLit "–"; pv "year_to"; FLit ")."] in
    Ok (Rendered answer plan data spec)
  else if py_eq_str chart_type "papers_by_field" then
    let params := [pick_param ["field"]] in
    let encoding : odict :=
      [("x", JDict [("field", JStr "field"); ("type", JStr "nominal");
                    ("sort", JStr "-y"); ("title", JStr "Field")]);
       ("y", axis "n_papers" "quantitative" "Papers")] in
    let encoding :=
      if compare then
        od_set "tooltip" (JList [fld "group"; fld "field"; fld "n_papers"])
          (od_set "opacity" opacity_enc (od_set "color" group_color_enc encoding))
      else
        od_set "tooltip" (JList [fld "field"; fld "n_papers"])
          (od_set "opacity" opacity_enc encoding) in
    let spec := chart_spec "Number of Dartmouth papers by field" data params mark encoding in
    let tail :=
      [FLit ", level="; pv "field_level"; FLit ", score>="; pv "field_score_min";
       FLit ", top_k="; pv "top_k"; FLit ")."] in
    let answer :=
      if compare then
        [FLit "Papers by field (A="; pv "year_from"; FLit "–"; pv "year_to";
         FLit ", B="; pv "compare_year_from"; FLit "–"; pv "compare_year_to"] ++ tail
      else
        [FLit "Papers by field ("; pv "year_from"; FLit "–"; pv "year_to"] ++ tail in
    Ok (Rendered answer plan data spec)
  else Raise (unsupported_chart_type chart_type).

(** The [mark] and [encoding] objects of a chart descriptor. *)
Definition spec_mark (r : rendered) : odict :=
  match od_get (vegaLiteSpec r) "mark" with Some (JDict m) => m | _ => [] end.
Definition spec_encoding (r : rendered) : odict :=
  match od_get (vegaLiteSpec r) "encoding" with Some (JDict e) => e | _ => [] end.

(** ** [run_multi_agent] *)

Section Orchestrator.

Variable papers_by_year : Z -> Z -> value -> result (list (Z * Z)).
Variable papers_by_field :
  Z -> Z -> Z -> spec_float -> value -> Z -> result (list (string * Z)).
Variable set_iter : gset string -> list string.

Definition run_multi_agent (interp : dict) (user_text : string) (prev_plan : option dict)
    : result rendered :=
  plan ← planner interp user_text prev_plan;
  payload ← data_agent papers_by_year papers_by_field set_iter plan;
  viz_agent payload.

End Orchestrator.

(** ** [_safe_strip_fences] *)

(** [s.startswith(w)] *)
Fixpoint startswith (w s : chars) : bool :=
  match w, s with
  | [], _ => true
  | a :: w', c :: s' => Ascii.eqb a c && startswith w' s'
  | _ :: _, [] => false
  end.

Definition is_backtick (c : ascii) : bool := Ascii.eqb c "`".

Definition _safe_strip_fences (raw : string) : string :=
  let raw := py_strip (list_ascii_of_string raw) in
  if startswith (list_ascii_of_string "```") raw then
    let raw := py_strip (strip_with is_backtick raw) in
    if startswith (list_ascii_of_string "json") (map Char.lower raw)
    then string_of_list_ascii (py_strip (drop 4 raw))
    else string_of_list_ascii raw
  else string_of_list_ascii raw.

(** ** The chart endpoints of [app/main.py] *)

Record ChartRequest := {
  req_year_from : Z;
  req_year_to : Z;
  req_doctype : option string;
  req_field_level : Z;
  req_field_score_min : spec_float;
  req_top_k : Z
}.

(** The request a client gets when it sends no field. *)
Definition default_request : ChartRequest :=
  {| req_year_from := 2020; req_year_to := 2024; req_doctype := None;
     req_field_level := 1; req_field_score_min := default_score; req_top_k := 30 |}.

Record chart_response := ChartResponse {
  chart : string;
  c_data : list odict;
  c_spec : odict
}.

(** An [Optional[str]] as a value. *)
Definition opt_str (o : option string) : value :=
  match o with Some s => JStr s | None => JNull end.

Definition bar_spec (description : string) (data : list odict) (encoding : odict) : odict :=
  [("$schema", JStr "https://vega.github.io/schema/vega-lite/v5.json");
   ("description", JStr description);
   ("data", JDict [("values", JList (JDict <$> data))]);
   ("mark", JDict [("type", JStr "bar"); ("tooltip", JBool true)]);
   ("encoding", JDict encoding)].

Section Endpoints.

Variable papers_by_year : Z -> Z -> value -> result (list (Z * Z)).
Variable papers_by_field :
  Z -> Z -> Z -> spec_float -> value -> Z -> result (list (string * Z)).

Definition chart_papers_by_year (req : ChartRequest) : result chart_response :=
  rows ← papers_by_year (req_year_from req) (req_year_to req) (opt_str (req_doctype req));
  let data := (fun yn : Z * Z => [("year", JInt yn.1); ("n_papers", JInt yn.2)]) <$> rows in
  Ok (ChartResponse "papers_by_year" data
        (bar_spec "Number of Dartmouth papers by year" data
           [("x", axis "year" "ordinal" "Year");
            ("y", axis "n_papers" "quantitative" "Papers");
            ("tooltip", JList [fld "year"; fld "n_papers"])])).

Definition chart_papers_by_field (req : ChartRequest) : result chart_response :=
  rows ← papers_by_field (req_year_from req) (req_year_to req) (req_field_level req)
           (req_field_score_min req) (opt_str (req_doctype req)) (req_top_k req);
  let data := field_row <$> rows in
  Ok (ChartResponse "papers_by_field" data
        (bar_spec "Number of Dartmouth papers by field" data
           [("x", JDict [("field", JStr "field"); ("type", JStr "nominal");
                         ("sort", JStr "-y"); ("title", JStr "Field")]);
            ("y", axis "n_papers" "quantitative" "Papers");
            ("tooltip", JList [fld "field"; fld "n_papers"])])).

End Endpoints.

(** * Predicates and views used in the statements *)

(** A word made of decimal digits only. *)
Definition all_digits (w : chars) : Prop := Forall (fun c => Char.is_digit c = true) w.

(** A decimal literal without sign or exponent: [ds1], or [ds1.ds2]
    with [ds2] not empty. *)
Definition decimal_shape (w : chars) : Prop :=
  exists ds1 ds2, all_digits ds1 /\ all_digits ds2 /\
    ((ds2 = [] /\ ds1 <> [] /\ w = ds1) \/ (ds2 <> [] /\ w = ds1 ++ "."%char :: ds2)).

(** [n] respects the upper bound of a quantifier. *)
Definition within (hi : option nat) (n : nat) : Prop :=
  match hi with Some h => (n <= h)%nat | None => True end.

(** The words an expression can match ([\b] matches the empty word). *)
Fixpoint matched (r : regex) (w : chars) : Prop :=
  match r with
  | Lit s => w = list_ascii_of_string s
  | Seq r1 r2 => exists w1 w2, w = w1 ++ w2 /\ matched r1 w1 /\ matched r2 w2
  | Alt r1 r2 => matched r1 w \/ matched r2 w
  | Rep p lo hi _ =>
      Forall (fun c => cls_match p c = true) w /\ (lo <= length w)%nat /\ within hi (length w)
  | Opt r => w = [] \/ matched r w
  | WordB => w = []
  | Group _ r => matched r w
  end.

(** Every group of [r] only captures words that satisfy [P]. *)
Fixpoint groups_ok (P : nat -> chars -> Prop) (r : regex) : Prop :=
  match r with
  | Seq r1 r2 | Alt r1 r2 => groups_ok P r1 /\ groups_ok P r2
  | Opt r => groups_ok P r
  | Group i r => (forall w, matched r w -> P i w) /\ groups_ok P r
  | Lit _ | Rep _ _ _ _ | WordB => True
  end.

(** The groups every match of [r] goes through. *)
Fixpoint sure_groups (r : regex) : list nat :=
  match r with
  | Seq r1 r2 => sure_groups r1 ++ sure_groups r2
  | Group i r => i :: sure_groups r
  | _ => []
  end.

(** Every recorded group satisfies [P]. *)
Definition caps_ok (P : nat -> chars -> Prop) (c : captures) : Prop :=
  forall i w, cap_get c i = Some w -> P i w.

(** What one successful pass through [r] does: it consumes [w], a word
    of [r], keeps the invariant of the groups and records the groups
    of [sure_groups r]. *)
Record steps (r : regex) (w : chars) (st st' : mstate) : Prop := Steps {
  steps_rest : rest st = w ++ rest st';
  steps_word : matched r w;
  steps_caps : forall P, groups_ok P r -> caps_ok P (caps st) -> caps_ok P (caps st');
  steps_sets : forall i, i ∈ sure_groups r \/ is_Some (cap_get (caps st) i) ->
               is_Some (cap_get (caps st') i)
}.

(** A captured run of one to [n] digits. *)
Definition digit_group (n : nat) (w : chars) : Prop :=
  all_digits w /\ w <> [] /\ (length w <= n)%nat.

(** The value of key [j] after the updates [kvs] of a dictionary in
    which it was [base]. *)
Fixpoint pick (j : string) (kvs : list (string * option value)) (base : option value)
    : option value :=
  match kvs with
  | [] => base
  | (k, v) :: kvs' => if String.eqb j k then v else pick j kvs' base
  end.

(** What a key inherits: its previous value when it is absent or null. *)
Definition inherit (p : dict) (j : string) (o : option value) : option value :=
  match o with
  | None | Some JNull => Some (py_get p j)
  | _ => o
  end.

(** An optional override of an old value. *)
Definition over (o old : option value) : option value :=
  match o with Some v => Some v | None => old end.

(** The range override: the five keys it sets when the pattern matches. *)
Definition range_override (cmp : option (Z * Z * Z * Z)) (k : string) : option value :=
  match cmp with
  | Some (a1, a2, b1, b2) =>
      pick k [("compare", Some (JBool true)); ("year_from", Some (JInt a1));
              ("year_to", Some (JInt a2)); ("compare_year_from", Some (JInt b1));
              ("compare_year_to", Some (JInt b2))] None
  | None => None
  end.

(** The three compare fields after [normalize_compare]. *)
Definition resolve_compare (c f t : value) : value * value * value :=
  let f' := _to_int f JNull in
  let t' := _to_int t JNull in
  if py_bool c && negb (is_none f') && negb (is_none t')
  then (JBool true, f', t')
  else (JBool false, JNull, JNull).

(** The four normalisation blocks together, key by key. *)
Definition normal (plan : dict) (j : string) : option value :=
  let '(c, f, t) := resolve_compare (py_get plan "compare")
                      (py_get plan "compare_year_from") (py_get plan "compare_year_to") in
  pick j [("compare", Some c); ("compare_year_from", Some f); ("compare_year_to", Some t);
          ("mark", Some (if is_mark (py_get plan "mark") then py_get plan "mark"
                         else JStr "bar"));
          ("year_from", Some (_to_int (py_get plan "year_from") (JInt 2020)));
          ("year_to", Some (_to_int (py_get plan "year_to") (JInt 2024)));
          ("field_level", Some (_to_int (py_get plan "field_level") (JInt 1)));
          ("field_score_min",
           Some (_to_float (py_get plan "field_score_min") (JFloat default_score)));
          ("top_k", Some (_to_int (py_get plan "top_k") (JInt 25)));
          ("doctype", if _is_empty_str (py_get plan "doctype") then Some JNull
                      else plan !! "doctype");
          ("color", if _is_empty_str (py_get plan "color") then Some JNull
                    else plan !! "color")] (plan !! j).

(** The dictionary after inheritance, key by key. *)
Definition inherited (interp : dict) (prev_plan : option dict) (j : string) : option value :=
  let plan := ensure_chart_type prev_plan interp in
  match truthy_dict prev_plan with
  | Some p => if bool_decide (j ∈ inherit_keys) then inherit p j (plan !! j) else plan !! j
  | None => plan !! j
  end.

(** The dictionary after the pattern overrides, key by key. *)
Definition overridden (text : string) (cmp : option (Z * Z * Z * Z)) (tk : option Z)
    (fs : option spec_float) (fl : option Z) (plan : dict) (j : string) : option value :=
  pick j [("doctype", over (JStr <$> _parse_doctype text) (plan !! "doctype"));
          ("field_level", over (JInt <$> fl) (plan !! "field_level"));
          ("field_score_min", over (JFloat <$> fs) (plan !! "field_score_min"));
          ("top_k", over (JInt <$> tk) (plan !! "top_k"));
          ("compare", over (range_override cmp "compare") (plan !! "compare"));
          ("year_from", over (range_override cmp "year_from") (plan !! "year_from"));
          ("year_to", over (range_override cmp "year_to") (plan !! "year_to"));
          ("compare_year_from",
           over (range_override cmp "compare_year_from") (plan !! "compare_year_from"));
          ("compare_year_to",
           over (range_override cmp "compare_year_to") (plan !! "compare_year_to"))]
    (plan !! j).

(** The text has no decimal digit. *)
Definition no_digit (s : string) : Prop :=
  Forall (fun c => Char.is_digit c = false) (list_ascii_of_string s).

(** The phrase of the override example. *)
Definition range_text : string := "2020-2022 vs 2023-2024".

(** [k] occurs in [t] as a whole word. *)
Definition occurs_as_word (k t : chars) : Prop :=
  exists pre post, t = pre ++ k ++ post /\
    word_char (last pre) = false /\ word_char (head post) = false.

(** The text mentions the word [k], in any letter case. *)
Definition contains_word (k text : string) : Prop :=
  occurs_as_word (list_ascii_of_string k) (py_lower text).

(** A word that begins and ends with a word character. *)
Definition proper_word (k : chars) : Prop :=
  word_char (head k) = true /\ word_char (last k) = true.

(** The twelve fields of a plan. *)
Definition plan_keys : list string := "chart_type" :: inherit_keys.

(** What every plan returned by the planner satisfies. *)
Record resolved (P : dict) : Prop := Resolved {
  res_chart_type : is_Some (P !! "chart_type");
  res_year_from : exists z, P !! "year_from" = Some (JInt z);
  res_year_to : exists z, P !! "year_to" = Some (JInt z);
  res_field_level : exists z, P !! "field_level" = Some (JInt z);
  res_top_k : exists z, P !! "top_k" = Some (JInt z);
  res_field_score_min : exists f, P !! "field_score_min" = Some (JFloat f);
  res_mark : exists m, P !! "mark" = Some m /\ is_mark m = true;
  res_doctype : exists d, P !! "doctype" = Some d /\ _is_empty_str d = false;
  res_color : exists d, P !! "color" = Some d /\ _is_empty_str d = false;
  res_compare :
    (P !! "compare" = Some (JBool true) /\
     exists a b, P !! "compare_year_from" = Some (JInt a) /\
                 P !! "compare_year_to" = Some (JInt b)) \/
    (P !! "compare" = Some (JBool false) /\
     P !! "compare_year_from" = Some JNull /\ P !! "compare_year_to" = Some JNull)
}.

(** Lexicographic [>=] on triples: what "descending by the tuple" asks
    of an element placed before another. *)
Definition lex_ge (a b : Z * Z * Z) : Prop :=
  a.1.1 > b.1.1 \/ (a.1.1 = b.1.1 /\ (a.1.2 > b.1.2 \/ (a.1.2 = b.1.2 /\ a.2 >= b.2))).

(** [x] may stand before [y] in a list sorted descending by [key]. *)
Definition before {A : Type} (key : A -> Z * Z * Z) (x y : A) : Prop :=
  lex_ge (key x) (key y).

(** ** What goes in, and the rank of a label *)

(** The value a field takes into normalisation when the text does not
    override it: the interpreted value unless it is absent or null, else
    the previous plan's value when there is a previous plan that is not
    empty, else the field's default. *)
Definition incoming (interp : dict) (prev_plan : option dict) (k : string) (dflt : value)
    : value :=
  match interp !! k with
  | Some JNull | None =>
      match prev_plan with
      | Some p => if decide (p = ∅) then dflt else default JNull (p !! k)
      | None => dflt
      end
  | Some v => v
  end.

(** The rank of a label in compare mode: the combined count first, ties
    broken by the count in group A, further ties by the count in group B. *)
Definition label_rank (count_A count_B : string -> Z) (f : string) : Z * Z * Z :=
  (count_A f + count_B f, count_A f, count_B f).

(** ** Views used in the further properties *)

(** The text triggers none of the five pattern overrides. *)
Definition no_override (text : string) : Prop :=
  _parse_compare_ranges text = Ok None /\ _parse_top_k text = Ok None /\
  _parse_field_score_min text = Ok None /\ _parse_field_level text = Ok None /\
  _parse_doctype text = None.

(** The fixed defaults of the planner. *)
Definition default_plan : list (string * value) :=
  [("chart_type", JStr "papers_by_year"); ("year_from", JInt 2020); ("year_to", JInt 2024);
   ("doctype", JNull); ("field_level", JInt 1); ("field_score_min", JFloat default_score);
   ("top_k", JInt 25); ("color", JNull); ("mark", JStr "bar"); ("compare", JBool false);
   ("compare_year_from", JNull); ("compare_year_to", JNull)].

(** The field is absent from the dictionary, or null. *)
Definition unset (d : dict) (k : string) : Prop := d !! k = None \/ d !! k = Some JNull.

(** No previous plan: [None] or the empty dictionary. *)
Definition no_prev (prev_plan : option dict) : Prop := prev_plan = None \/ prev_plan = Some ∅.

(** The style fields of a plan. *)
Definition style_keys : list string := ["color"; "mark"].

(** One of the two chart types the aggregator and the renderer know. *)
Definition supported (chart_type : value) : bool :=
  py_eq_str chart_type "papers_by_year" || py_eq_str chart_type "papers_by_field".

(** Every word of the expression has a decimal digit. *)
Fixpoint needs_digit (r : regex) : bool :=
  match r with
  | Rep CDigit (S _) _ _ => true
  | Seq r1 r2 => needs_digit r1 || needs_digit r2
  | Alt r1 r2 => needs_digit r1 && needs_digit r2
  | Group _ r => needs_digit r
  | _ => false
  end.

(** The integer fields of a plan and their defaults. *)
Definition int_fields : list (string * Z) :=
  [("year_from", 2020); ("year_to", 2024); ("field_level", 1); ("top_k", 25)].

(** The chart type the planner settles on: the interpreted one when it
    is true-ish, else the previous plan's, else ["papers_by_year"]. *)
Definition chart_type_of (interp : dict) (prev_plan : option dict) : value :=
  if py_bool (py_get interp "chart_type") then py_get interp "chart_type"
  else match prev_plan with
       | Some p => if decide (p = ∅) then JStr "papers_by_year" else py_get p "chart_type"
       | None => JStr "papers_by_year"
       end.

(** One of the two aggregation queries raises [e]. *)
Definition backend_raises (papers_by_year : Z -> Z -> value -> result (list (Z * Z)))
    (papers_by_field : Z -> Z -> Z -> spec_float -> value -> Z -> result (list (string * Z)))
    (e : exn) : Prop :=
  (exists a b d, papers_by_year a b d = Raise e) \/
  (exists a b l s d k, papers_by_field a b l s d k = Raise e).

(** Both aggregation queries answer every request. *)
Definition backend_total (papers_by_year : Z -> Z -> value -> result (list (Z * Z)))
    (papers_by_field : Z -> Z -> Z -> spec_float -> value -> Z -> result (list (string * Z)))
    : Prop :=
  (forall a b d, exists rows, papers_by_year a b d = Ok rows) /\
  (forall a b l s d k, exists rows, papers_by_field a b l s d k = Ok rows).

(** A by-year row of compare mode. *)
Definition group_year_row (g : string) (m : gmap Z Z) (y : Z) : odict :=
  [("group", JStr g); ("year", JInt y); ("n_papers", JInt (default 0 (m !! y)))].

(** The data fields a chart descriptor refers to: the fields of its
    [x], [y] and [color] channels, of its tooltip and of its selection
    parameters. *)
Definition field_of (v : value) : list string :=
  match v with
  | JDict kvs => match od_get kvs "field" with Some (JStr f) => [f] | _ => [] end
  | _ => []
  end.

Definition str_of (v : value) : list string :=
  match v with JStr s => [s] | _ => [] end.

Definition select_fields (p : value) : list string :=
  match p with
  | JDict kvs =>
      match od_get kvs "select" with
      | Some (JDict s) =>
          match od_get s "fields" with
          | Some (JList fs) => concat (str_of <$> fs)
          | _ => []
          end
      | _ => []
      end
  | _ => []
  end.

Definition referenced_fields (spec : odict) : list string :=
  let enc := match od_get spec "encoding" with Some (JDict e) => e | _ => [] end in
  let channel k := match od_get enc k with Some v => field_of v | None => [] end in
  let tooltip := match od_get enc "tooltip" with
                 | Some (JList l) => concat (field_of <$> l)
                 | _ => []
                 end in
  let selection := match od_get spec "params" with
                   | Some (JList ps) => concat (select_fields <$> ps)
                   | _ => []
                   end in
  channel "x" ++ channel "y" ++ channel "color" ++ tooltip ++ selection.

(** A row whose count is not zero. *)
Definition nonzero_row (row : odict) : bool :=
  match od_get row "n_papers" with Some (JInt 0) => false | _ => true end.

(** The rows of a by-year query as the database returns them: one row
    per year with papers, in ascending order of year, inside the window. *)
Definition year_query_rows (year_from year_to : Z) (rows : list (Z * Z)) : Prop :=
  StronglySorted (fun a b : Z * Z => a.1 < b.1) rows /\
  Forall (fun r : Z * Z => year_from <= r.1 <= year_to /\ r.2 <> 0) rows.

(** [w] neither starts nor ends with a character of the class [p]. *)
Definition trimmed (p : ascii -> bool) (w : chars) : Prop :=
  from_option p false (head w) = false /\ from_option p false (last w) = false.

(** White space only. *)
Definition blank (w : chars) : Prop := Forall (fun c => Char.is_space c = true) w.

(** The fence of a code block. *)
Definition fence : chars := list_ascii_of_string "```".

(** * Properties *)

(** ** The model on concrete inputs *)

Example int_of_str_ex :
  int_of_str " 2_023 " = Some 2023 /\ int_of_str "-7" = Some (-7) /\
  int_of_str (String "028" "5") = None /\ _is_empty_str (JStr (String "028" " ")) = true /\
  int_of_str "1__0" = None /\ int_of_str "" = None /\ int_of_str "12a" = None.
Proof. vm_compute. repeat split. Qed.

Example float_of_str_ex :
  float_of_str "0.3" = Some (S754_finite false 5404319552844595 (-54)) /\
  float_of_str ".5" = Some (S754_finite false 4503599627370496 (-53)) /\
  float_of_str "1e3" = Some (S754_finite false 8796093022208000 (-43)) /\
  float_of_str "-Inf" = Some (S754_infinity true) /\
  float_of_str "." = None /\ float_of_str "1_.5" = None.
Proof. vm_compute. repeat split. Qed.

Example parse_ex :
  _parse_compare_ranges "Compare 2020-2022 vs 2023-2024" = Ok (Some (2020, 2022, 2023, 2024)) /\
  _parse_compare_ranges "2018 - 2019 versus 2020-2022 vs 2023-2024" = Ok (Some (2018, 2019, 2020, 2022)) /\
  _parse_compare_ranges "2020-2022 versusx 2023-2024" = Ok None /\
  _parse_top_k "show top-k = 15 fields" = Ok (Some 15) /\
  _parse_top_k "top k 12345" = Ok None /\
  _parse_top_k "stop k 5" = Ok None /\
  _parse_field_score_min "score .5" = Ok (Some (S754_finite false 4503599627370496 (-53))) /\
  _parse_field_level "field level: 2" = Ok (Some 2) /\
  _parse_doctype "Journal articles and one Article" = Some "article" /\
  _parse_doctype "journals" = None.
Proof. vm_compute. repeat split. Qed.

Example planner_ex1 :
  let r := planner ∅ "show papers from 2021 to 2023 as a line chart" None in
  field r "chart_type" = Some (JStr "papers_by_year") /\
  field r "year_from" = Some (JInt 2020) /\
  field r "mark" = Some (JStr "bar") /\
  field r "compare" = Some (JBool false) /\
  field r "top_k" = Some (JInt 25) /\
  field r "compare_year_to" = Some JNull.
Proof. vm_compute. repeat split. Qed.

Example planner_ex2 :
  let interp : dict := {[ "mark" := JStr "pie"; "compare" := JStr "yes";
                          "compare_year_from" := JStr "2023"; "year_to" := JList [] ]} in
  let prev : dict := {[ "chart_type" := JStr "papers_by_field"; "compare_year_to" := JFloat (S754_finite false 2025 0) ]} in
  let r := planner interp "top k 7 for preprint" (Some prev) in
  field r "chart_type" = Some (JStr "papers_by_field") /\
  field r "year_from" = Some (JInt 2020) /\
  field r "year_to" = Some (JInt 2024) /\
  field r "mark" = Some (JStr "bar") /\
  field r "compare" = Some (JBool true) /\
  field r "top_k" = Some (JInt 7) /\
  field r "doctype" = Some (JStr "preprint") /\
  field r "compare_year_from" = Some (JInt 2023) /\
  field r "compare_year_to" = Some (JInt 2025).
Proof. vm_compute. repeat split. Qed.

(** ** Characters and conversions *)

Lemma is_digit_lower c : Char.is_digit (Char.lower c) = Char.is_digit c.
Proof. by destruct c as [[] [] [] [] [] [] [] []]. Qed.

Lemma is_word_lower c : Char.is_word (Char.lower c) = Char.is_word c.
Proof. by destruct c as [[] [] [] [] [] [] [] []]. Qed.

Lemma digit_not_space c : Char.is_digit c = true -> Char.is_num_space c = false.
Proof. by destruct c as [[] [] [] [] [] [] [] []]. Qed.

Lemma digit_val_range c : Char.is_digit c = true -> 0 <= Char.digit_val c <= 9.
Proof. destruct c as [[] [] [] [] [] [] [] []]; try discriminate; intros _; vm_compute; split; discriminate. Qed.

Lemma chars_of_string_app (s1 s2 : string) :
  list_ascii_of_string (s1 +:+ s2) = list_ascii_of_string s1 ++ list_ascii_of_string s2.
Proof. induction s1 as [|c s1 IH]; simpl; [done | by rewrite IH]. Qed.

Lemma py_lower_app (s1 s2 : string) : py_lower (s1 +:+ s2) = py_lower s1 ++ py_lower s2.
Proof. unfold py_lower. by rewrite chars_of_string_app, map_app. Qed.

(** ** [int()] and [float()] on the literals the patterns capture *)

Lemma drop_while_id (p : ascii -> bool) (w : chars) :
  from_option p false (head w) = false -> drop_while p w = w.
Proof. destruct w as [|c w]; simpl; [done | by intros ->]. Qed.

Lemma num_strip_id (w : chars) :
  from_option Char.is_num_space false (head w) = false ->
  from_option Char.is_num_space false (last w) = false ->
  num_strip w = w.
Proof.
  intros Hh Hl. unfold num_strip, strip_with. rewrite (drop_while_id _ w Hh).
  rewrite drop_while_id; [apply rev_involutive |].
  rewrite rev_alt. change (rev_append w []) with (reverse w). by rewrite head_reverse.
Qed.

Lemma digits_us_digits (w : chars) b :
  all_digits w -> digits_us b w = if b && bool_decide (w = []) then None else Some w.
Proof.
  intros H. revert b. induction H as [|c w Hc _ IH]; intros b.
  - by destruct b.
  - simpl. rewrite Hc, IH. simpl. by rewrite andb_false_r.
Qed.

Lemma all_digits_head (w : chars) (p : ascii -> bool) :
  (forall c, Char.is_digit c = true -> p c = false) ->
  all_digits w -> from_option p false (head w) = false.
Proof. intros Hp [|c w' Hc _]; simpl; auto. Qed.

Lemma all_digits_last (w : chars) (p : ascii -> bool) :
  (forall c, Char.is_digit c = true -> p c = false) ->
  all_digits w -> from_option p false (last w) = false.
Proof.
  intros Hp H. destruct (last w) as [c|] eqn:E; [|done]. simpl.
  apply Hp. apply last_Some in E as [l' ->].
  apply Forall_app in H as [_ H]. by inversion H.
Qed.

Lemma split_sign_digits (w : chars) : all_digits w -> split_sign w = (false, w).
Proof.
  intros [|c w' Hc _]; [done|].
  by destruct c as [[] [] [] [] [] [] [] []].
Qed.

Lemma int_of_str_digits (w : chars) :
  all_digits w -> w <> [] ->
  int_of_str (string_of_list_ascii w) = Some (int_of_digits w).
Proof.
  intros H Hne. unfold int_of_str.
  rewrite list_ascii_of_string_of_list_ascii.
  rewrite num_strip_id;
    [| apply all_digits_head; auto using digit_not_space
     | apply all_digits_last; auto using digit_not_space].
  rewrite split_sign_digits by done.
  rewrite digits_us_digits by done. simpl.
  by rewrite bool_decide_eq_false_2.
Qed.

Lemma py_int_digits (w : chars) :
  all_digits w -> w <> [] ->
  py_int (JStr (string_of_list_ascii w)) = Ok (int_of_digits w).
Proof. intros. simpl. by rewrite int_of_str_digits. Qed.

Lemma int_of_digits_snoc (w : chars) c :
  int_of_digits (w ++ [c]) = int_of_digits w * 10 + Char.digit_val c.
Proof. unfold int_of_digits. by rewrite fold_left_app. Qed.

Lemma int_of_digits_bound (w : chars) :
  all_digits w -> 0 <= int_of_digits w < 10 ^ Z.of_nat (length w).
Proof.
  induction w as [|c w IH] using rev_ind; intros H.
  - by vm_compute.
  - apply Forall_app in H as [H Hc]. inversion Hc as [|? ? Hd _]; subst.
    rewrite int_of_digits_snoc, length_app. simpl length.
    replace (Z.of_nat (length w + 1)) with (Z.succ (Z.of_nat (length w))) by lia.
    rewrite Z.pow_succ_r by lia.
    specialize (IH H). pose proof (digit_val_range _ Hd). lia.
Qed.

Lemma span_digits (ds tl : chars) :
  all_digits ds -> from_option is_digit_or_us false (head tl) = false ->
  span is_digit_or_us (ds ++ tl) = (ds, tl).
Proof.
  intros H Htl. induction H as [|c ds Hc _ IH]; simpl.
  - destruct tl as [|c tl]; simpl in *; [done | by rewrite Htl].
  - unfold is_digit_or_us at 1. rewrite Hc. simpl. by rewrite IH.
Qed.

Lemma digits_opt_digits (ds : chars) : all_digits ds -> digits_opt ds = Some ds.
Proof.
  intros H. destruct ds as [|c ds]; [done|].
  unfold digits_opt. by rewrite digits_us_digits.
Qed.

Lemma parse_decimal_shape (w : chars) neg :
  decimal_shape w -> is_Some (parse_decimal neg w).
Proof.
  intros (ds1 & ds2 & H1 & H2 & Hw). unfold parse_decimal.
  destruct Hw as [(-> & Hne & ->) | (Hne & ->)].
  - rewrite <- (app_nil_r ds1) at 1. rewrite span_digits by done.
    rewrite (digits_opt_digits ds1) by done. simpl.
    rewrite app_nil_r. destruct ds1 as [|c ds1]; [done|].
    destruct (int_of_digits (c :: ds1)); eauto.
  - rewrite span_digits by done.
    rewrite <- (app_nil_r ds2) at 1. rewrite span_digits by done.
    rewrite (digits_opt_digits ds1), (digits_opt_digits ds2) by done. simpl.
    destruct (ds1 ++ ds2) as [|c l] eqn:E.
    { apply app_eq_nil in E as [_ ->]. done. }
    destruct (int_of_digits (c :: l)); eauto.
Qed.

Lemma decimal_shape_ends (w : chars) (p : ascii -> bool) :
  (forall c, Char.is_digit c = true -> p c = false) -> p "."%char = false ->
  decimal_shape w ->
  from_option p false (head w) = false /\ from_option p false (last w) = false.
Proof.
  intros Hp Hdot (ds1 & ds2 & H1 & H2 & Hw).
  destruct Hw as [(-> & Hne & ->) | (Hne & ->)].
  - split; [by apply all_digits_head | by apply all_digits_last].
  - split.
    + destruct H1 as [|c ds1 Hc _]; simpl; auto.
    + rewrite last_app. rewrite last_cons.
      pose proof (all_digits_last ds2 p Hp H2) as Hl.
      destruct (last ds2) eqn:E; [done|]. by apply last_None in E.
Qed.

Lemma float_of_str_decimal (w : chars) :
  decimal_shape w -> is_Some (float_of_str (string_of_list_ascii w)).
Proof.
  intros H. unfold float_of_str. rewrite list_ascii_of_string_of_list_ascii.
  destruct (decimal_shape_ends w Char.is_num_space) as [Hh Hl];
    [auto using digit_not_space | done | done |].
  rewrite num_strip_id by done.
  assert (split_sign w = (false, w)) as ->.
  { destruct (decimal_shape_ends w (fun c => bool_decide (c = "-"%char \/ c = "+"%char)))
      as [Hs _]; [| done | done |].
    - intros c. by destruct c as [[] [] [] [] [] [] [] []].
    - destruct w as [|c w]; [done|]. simpl in Hs.
      by destruct c as [[] [] [] [] [] [] [] []]. }
  destruct (parse_decimal_shape w false H) as [f ->]. eauto.
Qed.

Lemma py_float_decimal (w : chars) :
  decimal_shape w -> exists f, py_float (JStr (string_of_list_ascii w)) = Ok f.
Proof.
  intros H. destruct (float_of_str_decimal w H) as [f Hf].
  exists f. simpl. by rewrite Hf.
Qed.

(** ** Soundness of the matcher

    What a successful run tells about the matched characters and the
    groups, whatever the continuation does. *)

Lemma strip_prefix_Some (w s s' : chars) : strip_prefix w s = Some s' -> s = w ++ s'.
Proof.
  revert s. induction w as [|a w IH]; intros [|c s]; simpl; try congruence.
  destruct (Ascii.eqb_spec a c) as [->|]; [|done].
  intros H. by rewrite (IH _ H).
Qed.

Lemma strip_prefix_app (w s : chars) : strip_prefix w (w ++ s) = Some s.
Proof. induction w as [|a w IH]; simpl; [done | by rewrite Ascii.eqb_refl]. Qed.

Lemma rep_any_sound {R} p g (s : chars) :
  forall lo pv (k : chars -> option ascii -> chars -> option R) x,
  rep_any p g lo pv s k = Some x ->
  exists w pv' s', k w pv' s' = Some x /\ s = w ++ s' /\
    Forall (fun c => cls_match p c = true) w /\ (lo <= length w)%nat.
Proof.
  induction s as [|c s IH]; intros lo pv k x H.
  - simpl in H. destruct lo as [|lo]; [|done].
    assert (k [] pv [] = Some x) as Hk by (destruct g; by destruct (k [] pv [])).
    exists [], pv, []. repeat split; auto.
  - assert (Hmore : forall y,
      (if cls_match p c
       then rep_any p g (Nat.pred lo) (Some c) s (fun w => k (c :: w))
       else None) = Some y ->
      exists w pv' s', k w pv' s' = Some y /\ c :: s = w ++ s' /\
        Forall (fun c => cls_match p c = true) w /\ (lo <= length w)%nat).
    { intros y Hy. destruct (cls_match p c) eqn:Hc; [|done].
      apply IH in Hy as (w & pv' & s' & Hk & -> & Hw & Hlo).
      exists (c :: w), pv', s'. repeat split; auto. simpl. lia. }
    simpl in H. destruct lo as [|lo]; [|by apply Hmore].
    destruct g.
    + match type of H with match ?m with _ => _ end = _ => destruct m as [y|] eqn:Hy end.
      * injection H as ->. by apply Hmore.
      * exists [], pv, (c :: s). repeat split; auto.
    + destruct (k [] pv (c :: s)) as [y|] eqn:Hy.
      * injection H as ->. exists [], pv, (c :: s). repeat split; auto.
      * by apply Hmore.
Qed.

Lemma rep_upto_sound {R} p g (hi : nat) :
  forall lo pv s (k : chars -> option ascii -> chars -> option R) x,
  rep_upto p g lo hi pv s k = Some x ->
  exists w pv' s', k w pv' s' = Some x /\ s = w ++ s' /\
    Forall (fun c => cls_match p c = true) w /\ (lo <= length w <= hi)%nat.
Proof.
  induction hi as [|hi IH]; intros lo pv s k x H.
  - simpl in H. destruct lo as [|lo]; [|done].
    assert (k [] pv s = Some x) as Hk by (destruct g; by destruct (k [] pv s)).
    exists [], pv, s. repeat split; auto.
  - assert (Hmore : forall y,
      match s with
      | c :: s' =>
          if cls_match p c
          then rep_upto p g (Nat.pred lo) hi (Some c) s' (fun w => k (c :: w))
          else None
      | [] => None
      end = Some y ->
      exists w pv' s', k w pv' s' = Some y /\ s = w ++ s' /\
        Forall (fun c => cls_match p c = true) w /\ (lo <= length w <= S hi)%nat).
    { intros y Hy. destruct s as [|c s]; [done|].
      destruct (cls_match p c) eqn:Hc; [|done].
      apply IH in Hy as (w & pv' & s' & Hk & -> & Hw & Hlo).
      exists (c :: w), pv', s'. repeat split; auto; simpl; lia. }
    simpl in H. destruct lo as [|lo]; [|by apply Hmore].
    destruct g.
    + match type of H with match ?m with _ => _ end = _ => destruct m as [y|] eqn:Hy end.
      * injection H as ->. by apply Hmore.
      * exists [], pv, s. repeat split; auto. simpl. lia.
    + destruct (k [] pv s) as [y|] eqn:Hy.
      * injection H as ->. exists [], pv, s. repeat split; auto. simpl. lia.
      * by apply Hmore.
Qed.

Lemma rep_sound {R} p g (s : chars) :
  forall lo hi pv (k : chars -> option ascii -> chars -> option R) x,
  rep p g lo hi pv s k = Some x ->
  exists w pv' s', k w pv' s' = Some x /\ s = w ++ s' /\
    Forall (fun c => cls_match p c = true) w /\ (lo <= length w)%nat /\ within hi (length w).
Proof.
  intros lo [h|] pv k x H; simpl in H.
  - apply rep_upto_sound in H as (w & pv' & s' & ? & ? & ? & ? & ?).
    exists w, pv', s'. repeat split; auto.
  - apply rep_any_sound in H as (w & pv' & s' & ? & ? & ? & ?).
    exists w, pv', s'. repeat split; auto.
Qed.

Lemma run_sound {R} (r : regex) :
  forall st (k : chars -> mstate -> option R) x,
  run r st k = Some x -> exists w st', k w st' = Some x /\ steps r w st st'.
Proof.
  induction r as [s | r1 IH1 r2 IH2 | r1 IH1 r2 IH2 | p lo hi g | r IH | | i r IH];
    intros st k x H; simpl in H.
  - destruct (strip_prefix _ _) as [s'|] eqn:E; [|done].
    eexists _, _. split; [exact H|].
    split; simpl; auto. by apply strip_prefix_Some. intros i [Hi|Hi]; [by apply elem_of_nil in Hi | done].
  - apply IH1 in H as (w1 & st1 & H & S1).
    apply IH2 in H as (w2 & st2 & H & S2).
    exists (w1 ++ w2), st2. split; [done|]. split.
    + rewrite <- app_assoc, <- (steps_rest _ _ _ _ S2). apply S1.
    + simpl. exists w1, w2. repeat split; [apply S1 | apply S2].
    + intros P [G1 G2] HP. eapply S2; [done|]. by eapply S1.
    + intros i Hi. apply S2. simpl in Hi. rewrite elem_of_app in Hi.
      destruct Hi as [[Hi|Hi]|Hi]; auto; right; apply S1; auto.
  - destruct (run r1 st k) as [y|] eqn:E.
    + injection H as ->. apply IH1 in E as (w & st' & Hk & S1).
      exists w, st'. split; [done|]. split; try apply S1.
      * simpl. left. apply S1.
      * intros P [G1 _]. by apply S1.
      * intros i [Hi|Hi]; [by apply elem_of_nil in Hi|]. apply S1. auto.
    + apply IH2 in H as (w & st' & Hk & S2).
      exists w, st'. split; [done|]. split; try apply S2.
      * simpl. right. apply S2.
      * intros P [_ G2]. by apply S2.
      * intros i [Hi|Hi]; [by apply elem_of_nil in Hi|]. apply S2. auto.
  - apply rep_sound in H as (w & pv' & s' & Hk & Hs & Hw).
    eexists _, _. split; [exact Hk|]. split; simpl; auto.
    intros i [Hi|Hi]; [by apply elem_of_nil in Hi | done].
  - destruct (run r st k) as [y|] eqn:E.
    + injection H as ->. apply IH in E as (w & st' & Hk & S1).
      exists w, st'. split; [done|]. split; try apply S1.
      * simpl. right. apply S1.
      * intros i [Hi|Hi]; [by apply elem_of_nil in Hi|]. apply S1. auto.
    + exists [], st. split; [done|]. split; simpl; auto.
      intros i [Hi|Hi]; [by apply elem_of_nil in Hi | done].
  - destruct (at_boundary _ _); [|done].
    exists [], st. split; [done|]. split; simpl; auto.
    intros i [Hi|Hi]; [by apply elem_of_nil in Hi | done].
  - apply IH in H as (w & st' & Hk & S1).
    eexists _, _. split; [exact Hk|]. split; simpl.
    + apply S1.
    + apply S1.
    + intros P [Gi G] HP j u. cbn [cap_get].
      destruct (Nat.eqb_spec j i) as [->|Hne].
      * intros [= <-]. apply Gi, S1.
      * by apply (steps_caps _ _ _ _ S1 P G HP).
    + intros j Hj. cbn [cap_get]. destruct (Nat.eqb_spec j i) as [->|Hne]; [done|].
      apply S1. rewrite elem_of_cons in Hj. destruct Hj as [[Hj|Hj]|Hj]; auto. congruence.
Qed.

Lemma search_at_sound (r : regex) (s : chars) :
  forall pv m, search_at r pv s = Some m ->
  exists pv' s0 w, steps r w (MState pv' s0 []) m.
Proof.
  induction s as [|c s IH]; intros pv m H; simpl in H.
  - destruct (run r _ _) as [y|] eqn:E; [|done]. injection H as ->.
    apply run_sound in E as (w & st' & [= ->] & S). eauto.
  - destruct (run r _ _) as [y|] eqn:E.
    + injection H as ->. apply run_sound in E as (w & st' & [= ->] & S). eauto.
    + by apply IH in H.
Qed.

(** The groups of a match found by [search]. *)
Lemma search_groups (r : regex) (t : chars) (m : mstate) (P : nat -> chars -> Prop) :
  search r t = Some m -> groups_ok P r ->
  forall i, i ∈ sure_groups r -> exists w, cap_get (caps m) i = Some w /\ P i w.
Proof.
  intros H G i Hi. apply search_at_sound in H as (pv' & s0 & w & S).
  destruct (steps_sets _ _ _ _ S i (or_introl Hi)) as [u Hu].
  exists u. split; [done|].
  eapply (steps_caps _ _ _ _ S P G); [|done].
  by intros j v.
Qed.

(** ** The pattern matchers never raise *)

Ltac split_groups := simpl; repeat match goal with |- _ /\ _ => split end; try exact I.

Lemma matched_digits lo n w :
  Forall (fun c => Char.is_digit c = true) w /\ (S lo <= length w <= n)%nat ->
  digit_group n w.
Proof.
  intros (Hw & Hlo & Hhi). repeat split; [exact Hw | | exact Hhi].
  intros ->. simpl in Hlo. lia.
Qed.

Lemma digit_group_int n w :
  digit_group n w ->
  py_int (JStr (string_of_list_ascii w)) = Ok (int_of_digits w) /\
  0 <= int_of_digits w < 10 ^ Z.of_nat n.
Proof.
  intros (Hd & Hne & Hlen). split; [by apply py_int_digits|].
  pose proof (int_of_digits_bound w Hd) as [H0 H1]. split; [done|].
  eapply Z.lt_le_trans; [exact H1|]. apply Z.pow_le_mono_r; lia.
Qed.

Lemma group_int (m : mstate) (i n : nat) (w : chars) :
  cap_get (caps m) i = Some w -> digit_group n w ->
  py_int (group m i) = Ok (int_of_digits w) /\ 0 <= int_of_digits w < 10 ^ Z.of_nat n.
Proof. intros Hc Hw. unfold group. rewrite Hc. by apply digit_group_int. Qed.

Lemma _parse_compare_ranges_ok (text : string) :
  _parse_compare_ranges text = Ok None \/
  exists a1 a2 b1 b2, _parse_compare_ranges text = Ok (Some (a1, a2, b1, b2)) /\
    0 <= a1 < 10000 /\ 0 <= a2 < 10000 /\ 0 <= b1 < 10000 /\ 0 <= b2 < 10000.
Proof.
  unfold _parse_compare_ranges.
  destruct (search re_compare_ranges (py_lower text)) as [m|] eqn:E; [right | by left].
  pose (P := fun (i : nat) (w : chars) => i <> 3%nat -> digit_group 4 w).
  assert (G : groups_ok P re_compare_ranges).
  { split_groups; intros w Hw Hi; first [by apply (matched_digits 3) | by destruct Hi]. }
  assert (Hg : forall i, i ∈ sure_groups re_compare_ranges -> i <> 3%nat ->
             exists w, cap_get (caps m) i = Some w /\ digit_group 4 w).
  { intros i Hi Hne. destruct (search_groups _ _ _ P E G i Hi) as (w & Hc & Hw). eauto. }
  destruct (Hg 1%nat) as (w1 & C1 & D1); [simpl; rewrite !elem_of_cons; tauto | done |].
  destruct (Hg 2%nat) as (w2 & C2 & D2); [simpl; rewrite !elem_of_cons; tauto | done |].
  destruct (Hg 4%nat) as (w4 & C4 & D4); [simpl; rewrite !elem_of_cons; tauto | done |].
  destruct (Hg 5%nat) as (w5 & C5 & D5); [simpl; rewrite !elem_of_cons; tauto | done |].
  destruct (group_int m _ _ _ C1 D1) as [-> ?], (group_int m _ _ _ C2 D2) as [-> ?],
    (group_int m _ _ _ C4 D4) as [-> ?], (group_int m _ _ _ C5 D5) as [-> ?].
  simpl. eexists _, _, _, _. split; [reflexivity|]. auto.
Qed.

Lemma _parse_top_k_ok (text : string) :
  _parse_top_k text = Ok None \/
  exists n, _parse_top_k text = Ok (Some n) /\ 0 <= n < 10000.
Proof.
  unfold _parse_top_k.
  destruct (search re_top_k (py_lower text)) as [m|] eqn:E; [right | by left].
  pose (P := fun (i : nat) (w : chars) => digit_group 4 w).
  assert (G : groups_ok P re_top_k).
  { split_groups; intros w Hw; by apply (matched_digits 0). }
  destruct (search_groups _ _ _ P E G 1%nat) as (w & Hc & Hw); [simpl; rewrite !elem_of_cons; tauto|].
  destruct (group_int m _ _ _ Hc Hw) as [-> ?]. simpl. eauto.
Qed.

Lemma _parse_field_level_ok (text : string) :
  _parse_field_level text = Ok None \/
  exists n, _parse_field_level text = Ok (Some n) /\ 0 <= n < 100.
Proof.
  unfold _parse_field_level.
  destruct (search re_field_level (py_lower text)) as [m|] eqn:E; [right | by left].
  pose (P := fun (i : nat) (w : chars) => i = 2%nat -> digit_group 2 w).
  assert (G : groups_ok P re_field_level).
  { split_groups; try done. intros w Hw _. by apply (matched_digits 0). }
  destruct (search_groups _ _ _ P E G 2%nat) as (w & Hc & Hw); [simpl; rewrite !elem_of_cons; tauto|].
  destruct (group_int m _ _ _ Hc (Hw eq_refl)) as [-> ?]. simpl. eauto.
Qed.

Lemma matched_dot_digits w :
  matched (Lit "." >> digits 1 None) w ->
  exists ds, w = "."%char :: ds /\ all_digits ds /\ ds <> [].
Proof.
  intros (w1 & ds & -> & -> & Hd & Hlo & _). exists ds.
  split; [done|]. split; [done|]. intros ->. simpl in Hlo. lia.
Qed.

Lemma matched_score_literal w :
  matched ((Rep (COneOf ["0"%char]) 0 (Some 1%nat) true >> Lit "." >> digits 1 None)
           <|> (digits 1 None >> Opt (Group 3 (Lit "." >> digits 1 None)))) w ->
  decimal_shape w.
Proof.
  intros [(z & w' & -> & (Hz & _) & Hw') | (ds1 & w' & -> & (H1 & Hlo & _) & Hw')].
  - apply matched_dot_digits in Hw' as (ds & -> & Hd & Hne).
    exists z, ds. split; [|split; [done | by right]].
    eapply Forall_impl; [exact Hz|]. intros c Hc. simpl in Hc.
    rewrite orb_false_r in Hc. by apply Ascii.eqb_eq in Hc as ->.
  - assert (ds1 <> []) as Hne1 by (intros ->; simpl in Hlo; lia).
    destruct Hw' as [-> | Hw'].
    + exists ds1, []. split; [done|]. split; [constructor|].
      left. by rewrite app_nil_r.
    + apply matched_dot_digits in Hw' as (ds & -> & Hd & Hne).
      exists ds1, ds. split; [done|]. split; [done|]. by right.
Qed.

Lemma _parse_field_score_min_ok (text : string) :
  exists o, _parse_field_score_min text = Ok o.
Proof.
  unfold _parse_field_score_min.
  destruct (search re_field_score_min (py_lower text)) as [m|] eqn:E; [|eauto].
  pose (P := fun (i : nat) (w : chars) => i = 2%nat -> decimal_shape w).
  assert (G : groups_ok P re_field_score_min).
  { split_groups; try done. intros w Hw _. by apply matched_score_literal. }
  destruct (search_groups _ _ _ P E G 2%nat) as (w & Hc & Hw); [simpl; rewrite !elem_of_cons; tauto|].
  unfold group. rewrite Hc.
  destruct (py_float_decimal w (Hw eq_refl)) as [f ->]. simpl. eauto.
Qed.

(** ** The planner, block by block

    Each block changes a fixed set of keys; [pick] reads a key off the
    list of the changes, and off the old dictionary for any other key. *)

Lemma lookup_insert_eqb (m : dict) (k j : string) (v : value) :
  <[k := v]> m !! j = if String.eqb j k then Some v else m !! j.
Proof.
  destruct (String.eqb_spec j k) as [->|Hne].
  - apply lookup_insert_eq.
  - by apply lookup_insert_ne.
Qed.

Lemma py_get_insert (m : dict) (k j : string) (v : value) :
  py_get (<[k := v]> m) j = if String.eqb j k then v else py_get m j.
Proof. unfold py_get. rewrite lookup_insert_eqb. by destruct (String.eqb j k). Qed.

Lemma py_get_default_bool (m : dict) (k : string) :
  py_bool (py_get_default m k (JBool false)) = py_bool (py_get m k).
Proof. unfold py_get_default, py_get. by destruct (m !! k). Qed.

Lemma lookup_setdefault (m : dict) (k j : string) (v : value) :
  setdefault k v m !! j =
  match m !! j with Some x => Some x | None => if String.eqb j k then Some v else None end.
Proof.
  unfold setdefault. destruct (m !! k) eqn:E.
  - destruct (m !! j) eqn:Ej; [done|].
    destruct (String.eqb_spec j k) as [->|]; [congruence | done].
  - rewrite lookup_insert_eqb.
    destruct (String.eqb_spec j k) as [->|]; [by rewrite E | by destruct (m !! j)].
Qed.

Ltac lookups :=
  repeat first
    [ rewrite lookup_insert_eqb | rewrite py_get_insert | progress simpl ].

Lemma lookup_ensure_chart_type (prev_plan : option dict) (plan : dict) (j : string) :
  ensure_chart_type prev_plan plan !! j =
  pick j [("chart_type",
           if py_bool (py_get plan "chart_type") then plan !! "chart_type"
           else Some (match truthy_dict prev_plan with
                      | Some p => py_get p "chart_type"
                      | None => JStr "papers_by_year"
                      end))] (plan !! j).
Proof.
  unfold ensure_chart_type. simpl.
  destruct (py_bool _); simpl; lookups;
    destruct (String.eqb_spec j "chart_type") as [->|]; done.
Qed.

Lemma inherit_key_ok (p plan : dict) (k : string) :
  exists plan', inherit_key p plan k = Ok plan' /\
    forall j, plan' !! j = if String.eqb j k then inherit p k (plan !! k) else plan !! j.
Proof.
  unfold inherit_key, py_contains, py_getitem.
  destruct (plan !! k) as [v|] eqn:E; simpl.
  - rewrite ?bool_decide_eq_true_2 by eauto. simpl.
    eexists. split; [reflexivity|]. intros j.
    destruct v; simpl; lookups;
      destruct (String.eqb_spec j k) as [->|]; by rewrite ?E.
  - rewrite ?bool_decide_eq_false_2 by (intros [? ?]; done). simpl.
    eexists. split; [reflexivity|]. intros j. by lookups.
Qed.

Lemma inherit_idem (p : dict) (j : string) (o : option value) :
  inherit p j (inherit p j o) = inherit p j o.
Proof.
  destruct o as [[]|]; simpl; try done; by destruct (py_get p j) eqn:E; rewrite ?E.
Qed.

Lemma for_each_inherit (p : dict) (ks : list string) :
  forall plan, exists plan', for_each (inherit_key p) ks plan = Ok plan' /\
    forall j, plan' !! j =
      if bool_decide (j ∈ ks) then inherit p j (plan !! j) else plan !! j.
Proof.
  induction ks as [|k ks IH]; intros plan; cbn [for_each].
  - exists plan. split; [done|]. intros j.
    case_bool_decide as H; [by apply elem_of_nil in H | done].
  - destruct (inherit_key_ok p plan k) as (plan1 & -> & H1). cbn [mbind result_bind].
    destruct (IH plan1) as (plan' & -> & H'). exists plan'. split; [done|].
    intros j. rewrite H', !H1.
    destruct (String.eqb_spec j k) as [->|Hne].
    + rewrite (bool_decide_eq_true_2 (k ∈ k :: ks)) by apply list_elem_of_here.
      case_bool_decide; [apply inherit_idem | done].
    + case_bool_decide as Hin.
      * by rewrite bool_decide_eq_true_2 by (by apply list_elem_of_further).
      * rewrite bool_decide_eq_false_2; [done|].
        intros [?|?]%elem_of_cons; done.
Qed.

Lemma inherit_missing_ok (prev_plan : option dict) (plan : dict) :
  exists plan', inherit_missing prev_plan plan = Ok plan' /\
    forall j, plan' !! j =
      match truthy_dict prev_plan with
      | Some p => if bool_decide (j ∈ inherit_keys) then inherit p j (plan !! j) else plan !! j
      | None => plan !! j
      end.
Proof.
  unfold inherit_missing. destruct (truthy_dict prev_plan) as [p|]; [|eauto].
  apply for_each_inherit.
Qed.

Lemma fill_defaults_keeps (plan : dict) (j : string) (v : value) :
  plan !! j = Some v -> fill_defaults plan !! j = Some v.
Proof.
  intros H. unfold fill_defaults. simpl. by rewrite !lookup_setdefault, H.
Qed.

Lemma fill_defaults_other (plan : dict) (j : string) :
  j ∉ inherit_keys -> fill_defaults plan !! j = plan !! j.
Proof.
  intros Hj. unfold fill_defaults. simpl. rewrite !lookup_setdefault.
  destruct (plan !! j); [done|].
  repeat match goal with
         | |- context [String.eqb j ?k] =>
             destruct (String.eqb_spec j k) as [->|_];
             [exfalso; apply Hj; unfold inherit_keys; rewrite !elem_of_cons; tauto|]
         end.
  done.
Qed.

Lemma lookup_set_opt (k j : string) (o : option value) (plan : dict) :
  set_opt k o plan !! j = if String.eqb j k then over o (plan !! k) else plan !! j.
Proof.
  destruct o; simpl; [apply lookup_insert_eqb|].
  by destruct (String.eqb_spec j k) as [->|].
Qed.

Ltac by_key k :=
  cbn [pick];
  lazymatch goal with
  | |- context [String.eqb ?j k] =>
      is_var j; destruct (String.eqb_spec j k) as [->|_];
      cbn [pick String.eqb Ascii.eqb Bool.eqb over]; try reflexivity
  | |- _ => idtac
  end.

Lemma regex_fallback_ok (text : string) (plan : dict) :
  exists cmp tk fs fl plan',
    _parse_compare_ranges text = Ok cmp /\ _parse_top_k text = Ok tk /\
    _parse_field_score_min text = Ok fs /\ _parse_field_level text = Ok fl /\
    regex_fallback text plan = Ok plan' /\
    forall j, plan' !! j =
      pick j [("doctype", over (JStr <$> _parse_doctype text) (plan !! "doctype"));
              ("field_level", over (JInt <$> fl) (plan !! "field_level"));
              ("field_score_min", over (JFloat <$> fs) (plan !! "field_score_min"));
              ("top_k", over (JInt <$> tk) (plan !! "top_k"));
              ("compare", over (range_override cmp "compare") (plan !! "compare"));
              ("year_from", over (range_override cmp "year_from") (plan !! "year_from"));
              ("year_to", over (range_override cmp "year_to") (plan !! "year_to"));
              ("compare_year_from",
               over (range_override cmp "compare_year_from") (plan !! "compare_year_from"));
              ("compare_year_to",
               over (range_override cmp "compare_year_to") (plan !! "compare_year_to"))]
        (plan !! j).
Proof.
  assert (exists cmp, _parse_compare_ranges text = Ok cmp) as [cmp Hc].
  { destruct (_parse_compare_ranges_ok text) as [?|(?&?&?&?&?&?)]; eauto. }
  assert (exists tk, _parse_top_k text = Ok tk) as [tk Ht].
  { destruct (_parse_top_k_ok text) as [?|(?&?&?)]; eauto. }
  destruct (_parse_field_score_min_ok text) as [fs Hs].
  assert (exists fl, _parse_field_level text = Ok fl) as [fl Hl].
  { destruct (_parse_field_level_ok text) as [?|(?&?&?)]; eauto. }
  exists cmp, tk, fs, fl. unfold regex_fallback. rewrite Hc, Ht, Hs, Hl.
  eexists. repeat (split; [reflexivity|]). intros j. cbn [mbind result_bind].
  rewrite !lookup_set_opt.
  destruct cmp as [[[[a1 a2] b1] b2]|]; simpl; lookups;
    by_key "doctype"; by_key "field_level"; by_key "field_score_min";
    by_key "top_k"; by_key "compare_year_to"; by_key "compare_year_from";
    by_key "year_to"; by_key "year_from"; by_key "compare".
Qed.

Lemma lookup_normalize_empty_strings (plan : dict) (j : string) :
  normalize_empty_strings plan !! j =
  pick j [("doctype", if _is_empty_str (py_get plan "doctype") then Some JNull
                      else plan !! "doctype");
          ("color", if _is_empty_str (py_get plan "color") then Some JNull
                    else plan !! "color");
          ("mark", if _is_empty_str (py_get plan "mark") then Some (JStr "bar")
                   else plan !! "mark")] (plan !! j).
Proof.
  unfold normalize_empty_strings. cbn zeta.
  destruct (_is_empty_str (py_get plan "doctype")) eqn:E1; lookups;
    destruct (_is_empty_str (py_get plan "color")) eqn:E2; lookups;
    destruct (_is_empty_str (py_get plan "mark")) eqn:E3; lookups;
    by_key "mark"; by_key "color"; by_key "doctype".
Qed.

Lemma lookup_type_normalize (plan : dict) (j : string) :
  type_normalize plan !! j =
  pick j [("year_from", Some (_to_int (py_get plan "year_from") (JInt 2020)));
          ("year_to", Some (_to_int (py_get plan "year_to") (JInt 2024)));
          ("field_level", Some (_to_int (py_get plan "field_level") (JInt 1)));
          ("field_score_min",
           Some (_to_float (py_get plan "field_score_min") (JFloat default_score)));
          ("top_k", Some (_to_int (py_get plan "top_k") (JInt 25)))] (plan !! j).
Proof.
  unfold type_normalize. cbn zeta. lookups.
  by_key "top_k"; by_key "field_score_min"; by_key "field_level";
    by_key "year_to"; by_key "year_from".
Qed.

Lemma lookup_normalize_mark (plan : dict) (j : string) :
  normalize_mark plan !! j =
  pick j [("mark", if is_mark (py_get plan "mark") then plan !! "mark"
                   else Some (JStr "bar"))] (plan !! j).
Proof.
  unfold normalize_mark. destruct (is_mark _); lookups; by_key "mark".
Qed.

Arguments _to_int : simpl never.
Arguments _to_float : simpl never.

Lemma normalize_compare_ok (plan : dict) :
  exists P, normalize_compare plan = Ok P /\
    forall j, P !! j =
      let '(c, f, t) := resolve_compare (py_get plan "compare")
                          (py_get plan "compare_year_from") (py_get plan "compare_year_to") in
      pick j [("compare", Some c); ("compare_year_from", Some f);
              ("compare_year_to", Some t)] (plan !! j).
Proof.
  unfold normalize_compare, resolve_compare, py_getitem, reset_compare. cbn zeta.
  rewrite py_get_default_bool, !py_get_insert, !lookup_insert_eqb.
  cbn [String.eqb Ascii.eqb Bool.eqb mbind result_bind py_bool].
  set (c := py_bool (py_get plan "compare")).
  set (f := py_get plan "compare_year_from").
  set (t := py_get plan "compare_year_to").
  assert (Hnone : forall x, is_none x = true -> _to_int x JNull = JNull)
    by (by intros []).
  destruct c; cbn [andb].
  - destruct (is_none f) eqn:Hf; [rewrite (Hnone f Hf) | destruct (is_none t) eqn:Ht];
      [ | rewrite (Hnone t Ht), andb_false_r
        | destruct (is_none (_to_int f JNull)), (is_none (_to_int t JNull)) ];
      cbn [orb andb negb];
      (eexists; split; [reflexivity|]); intros j; rewrite !lookup_insert_eqb;
      by_key "compare_year_to"; by_key "compare_year_from"; by_key "compare".
  - eexists. split; [reflexivity|]. intros j. rewrite !lookup_insert_eqb.
    by_key "compare_year_to"; by_key "compare_year_from"; by_key "compare".
Qed.

Lemma empty_str_not_mark (m : value) : _is_empty_str m = true -> is_mark m = false.
Proof.
  destruct m as [| | | |s| |]; try done. unfold is_mark, py_eq_str. intros H.
  destruct (String.eqb_spec s "bar") as [->|_]; [done|].
  destruct (String.eqb_spec s "line") as [->|_]; [done|].
  by destruct (String.eqb_spec s "area") as [->|_].
Qed.

Ltac stage_lookups :=
  repeat first
    [ rewrite lookup_normalize_mark | rewrite lookup_type_normalize
    | rewrite lookup_normalize_empty_strings
    | progress cbn [pick String.eqb Ascii.eqb Bool.eqb] ].

Lemma normalize_ok (plan : dict) :
  exists P,
    normalize_compare (normalize_mark (type_normalize (normalize_empty_strings plan))) = Ok P /\
    forall j, P !! j = normal plan j.
Proof.
  destruct (normalize_compare_ok
              (normalize_mark (type_normalize (normalize_empty_strings plan))))
    as (P & HP & HL).
  exists P. split; [done|]. intros j. rewrite HL. clear HL HP. unfold normal.
  repeat (unfold py_get; stage_lookups).
  destruct (resolve_compare _ _ _) as [[c f] t].
  fold (py_get plan "mark").
  assert (Hm : (if is_mark (default JNull
                              (if _is_empty_str (py_get plan "mark") then Some (JStr "bar")
                               else plan !! "mark"))
                then if _is_empty_str (py_get plan "mark") then Some (JStr "bar")
                     else plan !! "mark"
                else Some (JStr "bar")) =
               Some (if is_mark (py_get plan "mark") then py_get plan "mark" else JStr "bar")).
  { destruct (_is_empty_str (py_get plan "mark")) eqn:Em.
    - by rewrite (empty_str_not_mark _ Em).
    - unfold py_get. destruct (plan !! "mark") as [m|]; simpl; [by destruct (is_mark m) | done]. }
  by_key "compare"; by_key "compare_year_from"; by_key "compare_year_to";
    by_key "mark"; by_key "year_from"; by_key "year_to"; by_key "field_level";
    by_key "field_score_min"; by_key "top_k"; by_key "doctype"; by_key "color".
  exact Hm.
Qed.

(** One run of the planner: it returns, and every block is accounted for. *)
Lemma planner_run (interp : dict) (text : string) (prev_plan : option dict) :
  exists plan1 cmp tk fs fl plan2 P,
    (forall j, plan1 !! j = inherited interp prev_plan j) /\
    _parse_compare_ranges text = Ok cmp /\ _parse_top_k text = Ok tk /\
    _parse_field_score_min text = Ok fs /\ _parse_field_level text = Ok fl /\
    (forall j, plan2 !! j = overridden text cmp tk fs fl (fill_defaults plan1) j) /\
    planner interp text prev_plan = Ok P /\
    (forall j, P !! j = normal plan2 j).
Proof.
  destruct (inherit_missing_ok prev_plan (ensure_chart_type prev_plan interp))
    as (plan1 & H1 & L1).
  destruct (regex_fallback_ok text (fill_defaults plan1))
    as (cmp & tk & fs & fl & plan2 & Hc & Ht & Hs & Hl & H2 & L2).
  destruct (normalize_ok plan2) as (P & HP & HL).
  exists plan1, cmp, tk, fs, fl, plan2, P. repeat (split; [done|]).
  split; [|done]. unfold planner. rewrite H1. cbn [mbind result_bind]. rewrite H2.
  exact HP.
Qed.

Lemma to_int_cases (x dflt : value) :
  (exists z, _to_int x dflt = JInt z) \/ _to_int x dflt = dflt.
Proof. unfold _to_int. destruct (py_int x); eauto. Qed.

Lemma to_float_cases (x dflt : value) :
  (exists f, _to_float x dflt = JFloat f) \/ _to_float x dflt = dflt.
Proof. unfold _to_float. destruct (py_float x); eauto. Qed.

Lemma resolve_compare_cases (c f t : value) :
  (exists a b, resolve_compare c f t = (JBool true, JInt a, JInt b)) \/
  resolve_compare c f t = (JBool false, JNull, JNull).
Proof.
  unfold resolve_compare.
  destruct (to_int_cases f JNull) as [[a ->]| ->], (to_int_cases t JNull) as [[b ->]| ->],
    (py_bool c); simpl; eauto.
Qed.

Ltac key_eval :=
  cbn [pick String.eqb Ascii.eqb Bool.eqb over range_override fmap option_fmap option_map].
Ltac key_eval_in H :=
  cbn [pick String.eqb Ascii.eqb Bool.eqb over range_override fmap option_fmap option_map] in H.

(** ** What goes into normalisation *)

Lemma incoming_fill (interp : dict) (prev_plan : option dict) (plan1 : dict) (k : string)
    (d : value) :
  (forall j, plan1 !! j = inherited interp prev_plan j) ->
  (k, d) ∈ [("compare", JBool false); ("compare_year_from", JNull);
            ("compare_year_to", JNull); ("top_k", JInt 25)] ->
  py_get (fill_defaults plan1) k = incoming interp prev_plan k d \/
  (py_get (fill_defaults plan1) k = JNull /\ incoming interp prev_plan k d = d).
Proof.
  intros L1 Hin.
  assert (Hk : k ∈ inherit_keys /\ k <> "chart_type").
  { unfold inherit_keys. rewrite !elem_of_cons, elem_of_nil in Hin. rewrite !elem_of_cons.
    repeat destruct Hin as [Hin|Hin]; try done; injection Hin as -> _;
      (split; [repeat first [left; reflexivity | right] | done]). }
  destruct Hk as [Hk Hne].
  assert (H1 : plan1 !! k =
               match truthy_dict prev_plan with
               | Some p => inherit p k (interp !! k)
               | None => interp !! k
               end).
  { rewrite L1. unfold inherited. rewrite lookup_ensure_chart_type. cbn [pick].
    destruct (String.eqb_spec k "chart_type") as [->|_]; [done|].
    destruct (truthy_dict prev_plan); [|done]. by rewrite bool_decide_eq_true_2. }
  assert (Ht : truthy_dict prev_plan =
               match prev_plan with
               | Some p => if decide (p = ∅) then None else Some p
               | None => None
               end).
  { destruct prev_plan as [p|]; [|done]. simpl.
    destruct (decide (p = ∅)) as [->|Hp]; [done|].
    destruct (Nat.eqb_spec (size p) 0) as [E|_]; [|done]. by apply map_size_empty_iff in E. }
  rewrite Ht in H1. clear Ht L1. unfold incoming, py_get.
  destruct prev_plan as [p|]; [destruct (decide (p = ∅)) as [->|Hp]|].
  - destruct (interp !! k) as [v|] eqn:E.
    + rewrite (fill_defaults_keeps plan1 k v H1). destruct v; simpl; auto.
    + left. unfold fill_defaults. cbn zeta. rewrite !lookup_setdefault, H1.
      rewrite !elem_of_cons, elem_of_nil in Hin.
      repeat destruct Hin as [Hin|Hin]; try done; by injection Hin as -> ->.
  - left. unfold inherit in H1.
    destruct (interp !! k) as [v|] eqn:E;
      [destruct v|]; by rewrite (fill_defaults_keeps plan1 k _ H1).
  - destruct (interp !! k) as [v|] eqn:E.
    + rewrite (fill_defaults_keeps plan1 k v H1). destruct v; simpl; auto.
    + left. unfold fill_defaults. cbn zeta. rewrite !lookup_setdefault, H1.
      rewrite !elem_of_cons, elem_of_nil in Hin.
      repeat destruct Hin as [Hin|Hin]; try done; by injection Hin as -> ->.
Qed.

Lemma resolve_compare_reads (c f t : value) :
  resolve_compare c f t =
  match py_bool c, py_int f, py_int t with
  | true, Ok a, Ok b => (JBool true, JInt a, JInt b)
  | _, _, _ => (JBool false, JNull, JNull)
  end.
Proof.
  unfold resolve_compare, _to_int.
  destruct (py_bool c), (py_int f), (py_int t); reflexivity.
Qed.

Lemma normal_compare (plan : dict) :
  (normal plan "compare", normal plan "compare_year_from", normal plan "compare_year_to") =
  let r := resolve_compare (py_get plan "compare") (py_get plan "compare_year_from")
             (py_get plan "compare_year_to") in
  (Some r.1.1, Some r.1.2, Some r.2).
Proof. unfold normal. by destruct (resolve_compare _ _ _) as [[c f] t]. Qed.

(** The three compare fields of the plan the planner returns, from the
    values that went in. *)
Lemma compare_run (interp : dict) (text : string) (prev_plan : option dict) :
  exists P cmp,
    planner interp text prev_plan = Ok P /\
    _parse_compare_ranges text = Ok cmp /\
    (P !! "compare", P !! "compare_year_from", P !! "compare_year_to") =
    match cmp with
    | Some (_, _, b1, b2) => (Some (JBool true), Some (JInt b1), Some (JInt b2))
    | None =>
        match py_bool (incoming interp prev_plan "compare" (JBool false)),
              py_int (incoming interp prev_plan "compare_year_from" JNull),
              py_int (incoming interp prev_plan "compare_year_to" JNull) with
        | true, Ok a, Ok b => (Some (JBool true), Some (JInt a), Some (JInt b))
        | _, _, _ => (Some (JBool false), Some JNull, Some JNull)
        end
    end.
Proof.
  destruct (planner_run interp text prev_plan)
    as (plan1 & cmp & tk & fs & fl & plan2 & P & L1 & Hc & _ & _ & _ & L2 & HP & HL).
  exists P, cmp. split; [done|]. split; [done|].
  rewrite !HL, normal_compare, resolve_compare_reads. cbv zeta.
  assert (G : forall k v, overridden text cmp tk fs fl (fill_defaults plan1) k = Some v ->
                py_get plan2 k = v).
  { intros k v Hk. unfold py_get. by rewrite L2, Hk. }
  destruct cmp as [[[[a1 a2] b1] b2]|].
  - rewrite (G "compare" (JBool true)), (G "compare_year_from" (JInt b1)),
      (G "compare_year_to" (JInt b2)) by done. reflexivity.
  - assert (G' : forall k, k ∈ ["compare"; "compare_year_from"; "compare_year_to"] ->
                   py_get plan2 k = py_get (fill_defaults plan1) k).
    { intros k Hk. unfold py_get. rewrite L2. unfold overridden.
      rewrite !elem_of_cons, elem_of_nil in Hk.
      destruct Hk as [-> | [-> | [-> | []]]]; reflexivity. }
    rewrite !G' by (rewrite !elem_of_cons; auto).
    destruct (incoming_fill interp prev_plan plan1 "compare" (JBool false) L1)
      as [-> | [-> Ec]]; [rewrite !elem_of_cons; auto | |];
    (destruct (incoming_fill interp prev_plan plan1 "compare_year_from" JNull L1)
       as [-> | [-> Ef]]; [rewrite !elem_of_cons; auto 6 | |]);
    (destruct (incoming_fill interp prev_plan plan1 "compare_year_to" JNull L1)
       as [-> | [-> Et]]; [rewrite !elem_of_cons; auto 6 | |]);
    rewrite ?Ec, ?Ef, ?Et; cbn [py_bool py_int];
    repeat match goal with
           | |- context [py_bool ?x] => destruct (py_bool x)
           | |- context [py_int ?x] => destruct (py_int x)
           end; reflexivity.
Qed.

(** [top_k] of the plan the planner returns, from the values that went in. *)
Lemma top_k_run (interp : dict) (text : string) (prev_plan : option dict) :
  exists P tk,
    planner interp text prev_plan = Ok P /\ _parse_top_k text = Ok tk /\
    P !! "top_k" =
    Some (JInt match tk with
               | Some n => n
               | None =>
                   match py_int (incoming interp prev_plan "top_k" (JInt 25)) with
                   | Ok i => i
                   | Raise _ => 25
                   end
               end).
Proof.
  destruct (planner_run interp text prev_plan)
    as (plan1 & cmp & tk & fs & fl & plan2 & P & L1 & _ & Ht & _ & _ & L2 & HP & HL).
  exists P, tk. split; [done|]. split; [done|].
  rewrite HL. unfold normal. destruct (resolve_compare _ _ _) as [[c f] t]. key_eval.
  unfold py_get at 1. rewrite L2. unfold overridden. key_eval.
  destruct tk as [n|]; key_eval; cbn [default from_option id]; [reflexivity|].
  fold (py_get (fill_defaults plan1) "top_k").
  destruct (incoming_fill interp prev_plan plan1 "top_k" (JInt 25) L1) as [-> | [-> ->]];
    [rewrite !elem_of_cons; auto 6 | |]; unfold _to_int; cbn [py_int]; [|done].
  by destruct (py_int _).
Qed.

(** * The claims *)

(** C3. Compare is all-or-nothing: in every plan the planner returns,
    [compare] is a boolean that is true exactly when both compare bounds
    are integers, and when it is false both bounds are null.  The plan
    follows from what went in: a range in the text gives compare with
    its second pair as bounds; otherwise compare holds exactly when the
    incoming compare value is true-ish and [int()] reads both incoming
    bounds, which are then the bounds, and in every other case (a
    false-ish compare, a bound that is missing, null or unreadable)
    compare is false and both bounds are null. *)
Theorem compare_all_or_nothing (interp : dict) (user_text : string) (prev_plan : option dict) :
  let c0 := incoming interp prev_plan "compare" (JBool false) in
  let f0 := incoming interp prev_plan "compare_year_from" JNull in
  let t0 := incoming interp prev_plan "compare_year_to" JNull in
  exists P c f t,
    planner interp user_text prev_plan = Ok P /\
    P !! "compare" = Some (JBool c) /\
    P !! "compare_year_from" = Some f /\ P !! "compare_year_to" = Some t /\
    (c = true <-> exists a b, f = JInt a /\ t = JInt b) /\
    (c = false -> f = JNull /\ t = JNull) /\
    (forall a1 a2 b1 b2, _parse_compare_ranges user_text = Ok (Some (a1, a2, b1, b2)) ->
       c = true /\ f = JInt b1 /\ t = JInt b2) /\
    (_parse_compare_ranges user_text = Ok None ->
       (forall a b, py_bool c0 = true -> py_int f0 = Ok a -> py_int t0 = Ok b ->
          c = true /\ f = JInt a /\ t = JInt b) /\
       (py_bool c0 = false \/ (exists e, py_int f0 = Raise e) \/ (exists e, py_int t0 = Raise e) ->
          c = false /\ f = JNull /\ t = JNull)).
Proof.
  intros c0 f0 t0.
  destruct (compare_run interp user_text prev_plan) as (P & cmp & HP & Hcmp & H).
  fold c0 f0 t0 in H.
  destruct cmp as [[[[a1 a2] b1] b2]|].
  - injection H as Hc Hf Ht. exists P, true, (JInt b1), (JInt b2).
    repeat (split; [done|]). split; [split; eauto|]. split; [done|]. split.
    + intros ? ? ? ? E. rewrite Hcmp in E. by injection E as _ _ <- <-.
    + intros E. by rewrite Hcmp in E.
  - assert (Hgood : forall a b, py_bool c0 = true -> py_int f0 = Ok a -> py_int t0 = Ok b ->
              P !! "compare" = Some (JBool true) /\
              P !! "compare_year_from" = Some (JInt a) /\
              P !! "compare_year_to" = Some (JInt b)).
    { intros a b Ec Ef Et. rewrite Ec, Ef, Et in H. by injection H as -> -> ->. }
    assert (Hbad : py_bool c0 = false \/ (exists e, py_int f0 = Raise e) \/
                   (exists e, py_int t0 = Raise e) ->
              P !! "compare" = Some (JBool false) /\
              P !! "compare_year_from" = Some JNull /\ P !! "compare_year_to" = Some JNull).
    { intros [Ec | [[e Ef] | [e Et]]].
      - rewrite Ec in H. by injection H as -> -> ->.
      - rewrite Ef in H. destruct (py_bool c0); by injection H as -> -> ->.
      - rewrite Et in H. destruct (py_bool c0), (py_int f0); by injection H as -> -> ->. }
    clear H.
    destruct (py_bool c0) eqn:Ec; [destruct (py_int f0) as [a|ef] eqn:Ef;
                                   [destruct (py_int t0) as [b|et] eqn:Et|]|].
    + destruct (Hgood a b eq_refl eq_refl eq_refl) as (Hc & Hf & Ht).
      exists P, true, (JInt a), (JInt b). repeat (split; [done|]).
      split; [split; eauto|]. split; [done|]. split.
      * intros ? ? ? ? E. by rewrite Hcmp in E.
      * intros _. split; [by intros ? ? _ [= <-] [= <-]|].
        intros [?|[[? ?]|[? ?]]]; done.
    + destruct Hbad as (Hc & Hf & Ht); [eauto|].
      exists P, false, JNull, JNull. repeat (split; [done|]).
      split; [split; [done | by intros (? & ? & ? & ?)]|]. split; [done|]. split.
      * intros ? ? ? ? E. by rewrite Hcmp in E.
      * intros _. split; [by intros ? ? _ _ [=]| done].
    + destruct Hbad as (Hc & Hf & Ht); [eauto|].
      exists P, false, JNull, JNull. repeat (split; [done|]).
      split; [split; [done | by intros (? & ? & ? & ?)]|]. split; [done|]. split.
      * intros ? ? ? ? E. by rewrite Hcmp in E.
      * intros _. split; [by intros ? ? _ [=]| done].
    + destruct Hbad as (Hc & Hf & Ht); [eauto|].
      exists P, false, JNull, JNull. repeat (split; [done|]).
      split; [split; [done | by intros (? & ? & ? & ?)]|]. split; [done|]. split.
      * intros ? ? ? ? E. by rewrite Hcmp in E.
      * intros _. split; [by intros ? ? [=]| done].
Qed.

Lemma compare_all_or_nothing_witness :
  exists P,
    planner {[ "compare" := JStr "yes"; "compare_year_from" := JStr "2023";
               "compare_year_to" := JStr "20x" ]} "compare these years" None = Ok P /\
    P !! "compare" = Some (JBool false) /\
    P !! "compare_year_from" = Some JNull /\ P !! "compare_year_to" = Some JNull.
Proof.
  pose proof (compare_all_or_nothing
                {[ "compare" := JStr "yes"; "compare_year_from" := JStr "2023";
                   "compare_year_to" := JStr "20x" ]} "compare these years" None) as H.
  cbv zeta in H. destruct H as (P & c & f & t & HP & Hc & Hf & Ht & _ & _ & _ & Hin).
  assert (Hno : _parse_compare_ranges "compare these years" = Ok None) by (by vm_compute).
  destruct (Hin Hno) as [_ Hbad].
  assert (Hx : exists e,
             py_int (incoming {[ "compare" := JStr "yes"; "compare_year_from" := JStr "2023";
                                 "compare_year_to" := JStr "20x" ]} None
                       "compare_year_to" JNull) = Raise e).
  { exists (invalid_literal "int() with base 10" (JStr "20x")). by vm_compute. }
  destruct (Hbad (or_intror (or_intror Hx))) as (Ec & Ef & Et).
  exists P. subst c f t. split; [exact HP|]. split; [exact Hc|]. split; [exact Hf | exact Ht].
Defined.

Lemma field_Some (r : result dict) (k : string) (v : value) :
  field r k = Some v -> exists P, r = Ok P /\ P !! k = Some v.
Proof. destruct r as [P|]; [eauto | done]. Qed.

(** C8, as stated, fails: the text override accepts [0], and an
    interpreted integer is kept whatever its sign. *)
Lemma top_k_positive_counterexample :
  (exists P, planner ∅ "top_k = 0" None = Ok P /\ P !! "top_k" = Some (JInt 0)) /\
  (exists P, planner {[ "top_k" := JInt (-5) ]} "" None = Ok P /\
             P !! "top_k" = Some (JInt (-5))) /\
  ~ (forall interp text prev P, planner interp text prev = Ok P ->
       exists z, P !! "top_k" = Some (JInt z) /\ 1 <= z).
Proof.
  assert (H0 : exists P, planner ∅ "top_k = 0" None = Ok P /\ P !! "top_k" = Some (JInt 0)).
  { apply field_Some. by vm_compute. }
  split; [exact H0|]. split.
  - apply field_Some. by vm_compute.
  - intros H. destruct H0 as (P & HP & Hk).
    destruct (H _ _ _ _ HP) as (z & Hz & Hpos). rewrite Hk in Hz.
    injection Hz as <-. lia.
Qed.

(** C8, amended. In every plan the planner returns, [top_k] is an
    integer.  When the text carries a [top_k] override it is the number
    written there, between 0 and 9999.  Otherwise it is what [int()]
    reads from the incoming value (the interpreted one, or the previous
    plan's when that is absent or null), and 25 when [int()] cannot read
    it; so an integer that comes in, interpreted or inherited, is kept
    whatever its sign. *)
Theorem top_k_integer (interp : dict) (user_text : string) (prev_plan : option dict) :
  let v := incoming interp prev_plan "top_k" (JInt 25) in
  exists P z,
    planner interp user_text prev_plan = Ok P /\
    P !! "top_k" = Some (JInt z) /\
    (forall n, _parse_top_k user_text = Ok (Some n) -> z = n /\ 0 <= n < 10000) /\
    (_parse_top_k user_text = Ok None ->
       (forall i, py_int v = Ok i -> z = i) /\
       ((exists e, py_int v = Raise e) -> z = 25) /\
       (forall i, v = JInt i -> z = i)).
Proof.
  intros v. destruct (top_k_run interp user_text prev_plan) as (P & tk & HP & Ht & Hk).
  fold v in Hk. eexists P, _. split; [done|]. split; [exact Hk|]. split.
  - intros n E. rewrite Ht in E. injection E as ->. split; [done|].
    destruct (_parse_top_k_ok user_text) as [E | (n' & E & Hn')]; congruence.
  - intros E. rewrite Ht in E. injection E as ->. split; [|split].
    + by intros i ->.
    + by intros [e ->].
    + by intros i ->.
Qed.

Lemma top_k_integer_witness :
  (exists P, planner {[ "top_k" := JStr "lots" ]} "show more"
               (Some {[ "chart_type" := JStr "papers_by_field"; "top_k" := JInt 40 ]}) = Ok P /\
     P !! "top_k" = Some (JInt 25)) /\
  (exists P, planner ∅ "show more"
               (Some {[ "chart_type" := JStr "papers_by_field"; "top_k" := JInt (-3) ]}) = Ok P /\
     P !! "top_k" = Some (JInt (-3))).
Proof.
  split.
  - pose proof (top_k_integer {[ "top_k" := JStr "lots" ]} "show more"
                  (Some {[ "chart_type" := JStr "papers_by_field"; "top_k" := JInt 40 ]})) as H.
    cbv zeta in H. destruct H as (P & z & HP & Hz & _ & Hin).
    assert (Hno : _parse_top_k "show more" = Ok None) by (by vm_compute).
    destruct (Hin Hno) as (_ & H25 & _).
    assert (Hx : exists e,
               py_int (incoming {[ "top_k" := JStr "lots" ]}
                         (Some {[ "chart_type" := JStr "papers_by_field";
                                  "top_k" := JInt 40 ]}) "top_k" (JInt 25)) = Raise e).
    { exists (invalid_literal "int() with base 10" (JStr "lots")). by vm_compute. }
    exists P. split; [exact HP|]. rewrite (H25 Hx) in Hz. exact Hz.
  - pose proof (top_k_integer ∅ "show more"
                  (Some {[ "chart_type" := JStr "papers_by_field"; "top_k" := JInt (-3) ]})) as H.
    cbv zeta in H. destruct H as (P & z & HP & Hz & _ & Hin).
    assert (Hno : _parse_top_k "show more" = Ok None) by (by vm_compute).
    destruct (Hin Hno) as (_ & _ & Hi).
    assert (Hx : incoming ∅ (Some {[ "chart_type" := JStr "papers_by_field";
                                     "top_k" := JInt (-3) ]}) "top_k" (JInt 25) = JInt (-3))
      by (by vm_compute).
    exists P. split; [exact HP|]. rewrite (Hi (-3) Hx) in Hz. exact Hz.
Defined.

(** ** The range override *)

Lemma to_int_int (z : Z) (dflt : value) : _to_int (JInt z) dflt = JInt z.
Proof. done. Qed.

(** When the pattern matches, its four numbers are the last word on the
    five fields, whatever was interpreted or inherited. *)
Lemma range_override_wins (interp : dict) (text : string) (prev_plan : option dict)
    (a1 a2 b1 b2 : Z) :
  _parse_compare_ranges text = Ok (Some (a1, a2, b1, b2)) ->
  exists P, planner interp text prev_plan = Ok P /\
    P !! "compare" = Some (JBool true) /\
    P !! "year_from" = Some (JInt a1) /\ P !! "year_to" = Some (JInt a2) /\
    P !! "compare_year_from" = Some (JInt b1) /\ P !! "compare_year_to" = Some (JInt b2).
Proof.
  intros Hcmp.
  destruct (planner_run interp text prev_plan)
    as (plan1 & cmp & tk & fs & fl & plan2 & P & _ & Hc & _ & _ & _ & L2 & HP & HL).
  rewrite Hcmp in Hc. injection Hc as <-.
  assert (G : forall k v, overridden text (Some (a1, a2, b1, b2)) tk fs fl
                            (fill_defaults plan1) k = Some v -> py_get plan2 k = v).
  { intros k v Hk. unfold py_get. by rewrite L2, Hk. }
  exists P. split; [done|]. rewrite !HL. unfold normal.
  rewrite (G "compare" (JBool true)), (G "compare_year_from" (JInt b1)),
    (G "compare_year_to" (JInt b2)), (G "year_from" (JInt a1)), (G "year_to" (JInt a2))
    by done.
  unfold resolve_compare. rewrite !to_int_int. done.
Qed.

Lemma run_compare_no_digit (c : ascii) (s : chars) (pv : option ascii)
    (k : chars -> mstate -> option mstate) :
  Char.is_digit c = false -> run re_compare_ranges (MState pv (c :: s) []) k = None.
Proof. intros Hc. cbn. by rewrite Hc. Qed.

Lemma search_compare_skip (pre : chars) :
  Forall (fun c => Char.is_digit c = false) pre ->
  forall pv s, exists pv',
    search_at re_compare_ranges pv (pre ++ s) = search_at re_compare_ranges pv' s.
Proof.
  induction 1 as [|c pre Hc _ IH]; intros pv s; [by exists pv|].
  destruct (IH (Some c) s) as [pv' E]. exists pv'. rewrite <- E.
  change ((c :: pre) ++ s) with (c :: (pre ++ s)).
  cbn [search_at]. by rewrite run_compare_no_digit.
Qed.

Lemma search_range_text (pv : option ascii) (post : chars) :
  exists m, search_at re_compare_ranges pv (py_lower range_text ++ post) = Some m /\
    group m 1 = JStr "2020" /\ group m 2 = JStr "2022" /\
    group m 4 = JStr "2023" /\ group m 5 = JStr "2024".
Proof. eexists. split; [vm_compute; reflexivity|]. by vm_compute. Qed.

Lemma parse_range_text (pre post : string) :
  no_digit pre ->
  _parse_compare_ranges (pre +:+ range_text +:+ post) = Ok (Some (2020, 2022, 2023, 2024)).
Proof.
  intros Hpre. unfold _parse_compare_ranges, search.
  rewrite !py_lower_app.
  destruct (search_compare_skip (py_lower pre)) with (pv := @None ascii)
    (s := py_lower range_text ++ py_lower post) as [pv' ->].
  { unfold py_lower. apply Forall_map. eapply Forall_impl; [exact Hpre|].
    intros c Hc. simpl. by rewrite is_digit_lower. }
  destruct (search_range_text pv' (py_lower post)) as (m & -> & -> & -> & -> & ->).
  by vm_compute.
Qed.

(** C4, as stated, fails: the search takes the leftmost match, so an
    earlier pair of years in the text wins over the quoted one. *)
Lemma range_override_counterexample :
  let r := planner ∅ ("2018-2019 vs " +:+ range_text) None in
  (field r "compare" = Some (JBool true) /\
   field r "year_from" = Some (JInt 2018) /\ field r "year_to" = Some (JInt 2019) /\
   field r "compare_year_from" = Some (JInt 2020) /\
   field r "compare_year_to" = Some (JInt 2022)) /\
  ~ (forall pre post interp prev,
       field (planner interp (pre +:+ range_text +:+ post) prev) "year_from"
       = Some (JInt 2020)).
Proof.
  assert (H : field (planner ∅ ("2018-2019 vs " +:+ range_text) None) "year_from"
              = Some (JInt 2018)) by (by vm_compute).
  cbv zeta. split.
  { repeat split; by vm_compute. }
  intros C. specialize (C "2018-2019 vs " "" ∅ None).
  assert (E : "2018-2019 vs " +:+ range_text +:+ "" = "2018-2019 vs " +:+ range_text)
    by reflexivity.
  rewrite E, H in C. discriminate.
Qed.

(** C4, amended. When no digit precedes ["2020-2022 vs 2023-2024"] in
    the text, the resolved plan has [compare = true] and the four bounds
    2020, 2022, 2023, 2024, for every interpreted object and previous
    plan; and on any text the pattern matches, the four numbers of its
    leftmost match are the resolved bounds. *)
Theorem range_override_precedence (interp : dict) (prev_plan : option dict)
    (pre post user_text : string) (a1 a2 b1 b2 : Z) :
  no_digit pre ->
  (exists P, planner interp (pre +:+ range_text +:+ post) prev_plan = Ok P /\
     P !! "compare" = Some (JBool true) /\
     P !! "year_from" = Some (JInt 2020) /\ P !! "year_to" = Some (JInt 2022) /\
     P !! "compare_year_from" = Some (JInt 2023) /\
     P !! "compare_year_to" = Some (JInt 2024)) /\
  (_parse_compare_ranges user_text = Ok (Some (a1, a2, b1, b2)) ->
   exists P, planner interp user_text prev_plan = Ok P /\
     P !! "compare" = Some (JBool true) /\
     P !! "year_from" = Some (JInt a1) /\ P !! "year_to" = Some (JInt a2) /\
     P !! "compare_year_from" = Some (JInt b1) /\
     P !! "compare_year_to" = Some (JInt b2)).
Proof.
  intros Hpre. split.
  - apply range_override_wins. by apply parse_range_text.
  - apply range_override_wins.
Qed.

Lemma range_override_precedence_witness :
  no_digit "please compare " /\
  (exists P, planner {[ "compare" := JBool false; "year_from" := JInt 1999 ]}
               ("please compare " +:+ range_text +:+ " as bars")
               (Some {[ "year_to" := JInt 2001 ]}) = Ok P /\
     P !! "compare" = Some (JBool true) /\
     P !! "year_from" = Some (JInt 2020) /\ P !! "year_to" = Some (JInt 2022) /\
     P !! "compare_year_from" = Some (JInt 2023) /\
     P !! "compare_year_to" = Some (JInt 2024)).
Proof.
  assert (H : no_digit "please compare ").
  { unfold no_digit. simpl. repeat constructor. }
  split; [exact H|].
  exact (proj1 (range_override_precedence
                  {[ "compare" := JBool false; "year_from" := JInt 1999 ]}
                  (Some {[ "year_to" := JInt 2001 ]})
                  "please compare " " as bars" "" 0 0 0 0 H)).
Defined.

(** ** The doctype override *)

Lemma last_of_proper (k : chars) (pv : option ascii) :
  proper_word k -> word_char (last_of pv k) = true.
Proof.
  intros [_ Hl]. unfold last_of. destruct (last k); [done|]. discriminate.
Qed.

Lemma run_word (k : string) (pv : option ascii) (s : chars) (c : captures) :
  proper_word (list_ascii_of_string k) ->
  is_Some (run (re_word k) (MState pv s c) (fun _ m => Some m)) <->
  exists post, s = list_ascii_of_string k ++ post /\
    word_char pv = false /\ word_char (head post) = false.
Proof.
  intros Hk. pose proof (last_of_proper _ pv Hk) as Hl. destruct Hk as [Hh _].
  cbn [re_word run rest prev caps]. unfold at_boundary. split.
  - destruct (xorb _ _) eqn:E1; [|by intros []].
    destruct (strip_prefix _ s) as [s'|] eqn:E2; [|by intros []].
    cbn [rest prev]. destruct (xorb _ (word_char (head s'))) eqn:E3; [|by intros []].
    intros _. apply strip_prefix_Some in E2 as ->. exists s'. split; [done|].
    rewrite Hl in E3. rewrite head_app in E1.
    destruct (head (list_ascii_of_string k)) eqn:Ek; [|done].
    simpl in E1, Hh. rewrite Hh in E1.
    split; [by destruct (word_char pv) | by destruct (word_char (head s'))].
  - intros (post & -> & Hpv & Hpost).
    rewrite head_app. destruct (head (list_ascii_of_string k)) eqn:Ek; [|done].
    simpl in Hh. simpl. rewrite Hpv, Hh. simpl.
    rewrite strip_prefix_app. cbn [rest prev]. rewrite Hl, Hpost. simpl. eauto.
Qed.

Lemma last_of_cons (pv : option ascii) (c : ascii) (pre : chars) :
  last_of pv (c :: pre) = last_of (Some c) pre.
Proof. unfold last_of. rewrite last_cons. by destruct (last pre). Qed.

Lemma search_word_iff (k : string) :
  proper_word (list_ascii_of_string k) ->
  forall s pv, is_Some (search_at (re_word k) pv s) <->
    exists pre post, s = pre ++ list_ascii_of_string k ++ post /\
      word_char (last_of pv pre) = false /\ word_char (head post) = false.
Proof.
  intros Hk s. induction s as [|c s IH]; intros pv; cbn [search_at].
  - destruct (run _ _ _) as [m|] eqn:E.
    + split; [intros _ | eauto].
      destruct (proj1 (run_word k pv [] [] Hk)) as (post & Hs & ? & ?); [by rewrite E|].
      exists [], post. by rewrite <- Hs.
    + split; [by intros [] |]. intros (pre & post & Hs & Hp & Hq).
      destruct pre as [|? ?]; [|done]. simpl in Hs.
      rewrite <- E. apply run_word; eauto.
  - destruct (run _ _ _) as [m|] eqn:E.
    + split; [intros _ | eauto].
      destruct (proj1 (run_word k pv (c :: s) [] Hk)) as (post & Hs & ? & ?);
        [by rewrite E|].
      exists [], post. by rewrite Hs.
    + rewrite IH. split.
      * intros (pre & post & -> & Hp & Hq). exists (c :: pre), post.
        by rewrite last_of_cons.
      * intros (pre & post & Hs & Hp & Hq). destruct pre as [|c' pre].
        { exfalso. assert (is_Some (@None mstate)) as []; [|done].
          rewrite <- E. apply run_word; eauto. }
        injection Hs as -> ->. rewrite last_of_cons in Hp. by exists pre, post.
Qed.

Lemma search_word (k text : string) :
  proper_word (list_ascii_of_string k) ->
  is_Some (search (re_word k) (py_lower text)) <-> contains_word k text.
Proof.
  intros Hk. unfold search. rewrite (search_word_iff k Hk). unfold contains_word, occurs_as_word.
  split; intros (pre & post & ? & Hp & ?); exists pre, post; repeat split; auto.
  - unfold last_of in Hp. by destruct (last pre).
  - unfold last_of. by destruct (last pre).
Qed.

Lemma doctype_words_proper (k : string) :
  k ∈ doctype_words ->
  proper_word (list_ascii_of_string k) /\ _is_empty_str (JStr k) = false.
Proof.
  unfold doctype_words. rewrite !elem_of_cons, elem_of_nil.
  intros [->|[->|[->|[->|[->|[]]]]]]; by vm_compute.
Qed.

Lemma find_first {A} (f : A -> bool) (l1 l2 : list A) (x : A) :
  f x = true -> (forall y, y ∈ l1 -> f y = false) -> find f (l1 ++ x :: l2) = Some x.
Proof.
  intros Hx. induction l1 as [|y l1 IH]; intros H; simpl.
  - by rewrite Hx.
  - rewrite (H y) by apply list_elem_of_here. apply IH.
    intros z Hz. apply H. by apply list_elem_of_further.
Qed.

Lemma _parse_doctype_first (text k : string) (before after : list string) :
  doctype_words = before ++ k :: after ->
  contains_word k text ->
  (forall k', k' ∈ before -> ~ contains_word k' text) ->
  _parse_doctype text = Some k.
Proof.
  intros Hw Hk Hb. unfold _parse_doctype. rewrite Hw. apply find_first.
  - apply bool_decide_eq_true_2. apply search_word; [|done].
    apply doctype_words_proper. rewrite Hw. apply elem_of_app. right. apply list_elem_of_here.
  - intros k' Hk'. apply bool_decide_eq_false_2. rewrite search_word; [by apply Hb|].
    apply doctype_words_proper. rewrite Hw. apply elem_of_app. by left.
Qed.

(** C10. The doctype override goes by the fixed order of the
    vocabulary, not by position in the text: of the vocabulary words the
    text mentions as whole words, the one that comes first in
    [doctype_words] is the resolved doctype. *)
Theorem doctype_priority (interp : dict) (user_text : string) (prev_plan : option dict)
    (k : string) (before after : list string) :
  doctype_words = before ++ k :: after ->
  contains_word k user_text ->
  (forall k', k' ∈ before -> ~ contains_word k' user_text) ->
  exists P, planner interp user_text prev_plan = Ok P /\ P !! "doctype" = Some (JStr k).
Proof.
  intros Hw Hk Hb.
  pose proof (_parse_doctype_first user_text k before after Hw Hk Hb) as Hd.
  destruct (planner_run interp user_text prev_plan)
    as (plan1 & cmp & tk & fs & fl & plan2 & P & _ & _ & _ & _ & _ & L2 & HP & HL).
  exists P. split; [done|]. rewrite HL. unfold normal.
  destruct (resolve_compare _ _ _) as [[c f] t]. key_eval.
  assert (H2 : plan2 !! "doctype" = Some (JStr k)).
  { rewrite L2. unfold overridden. key_eval. by rewrite Hd. }
  unfold py_get. rewrite H2. simpl default.
  destruct (doctype_words_proper k) as [_ ->]; [|done].
  rewrite Hw. apply elem_of_app. right. apply list_elem_of_here.
Qed.

Lemma doctype_priority_witness :
  contains_word "journal" "A journal article" /\
  exists P, planner {[ "doctype" := JStr "journal" ]} "A journal article" None = Ok P /\
            P !! "doctype" = Some (JStr "article").
Proof.
  split.
  - exists (py_lower "A "), (py_lower " article"). by vm_compute.
  - apply (doctype_priority _ "A journal article" None "article" []
             ["preprint"; "conference"; "journal"; "proceedings"]).
    + reflexivity.
    + exists (py_lower "A journal "), []. by vm_compute.
    + intros k' Hk'. by apply elem_of_nil in Hk'.
Defined.

(** ** Resolved plans *)

Lemma to_int_default_int (x : value) (z0 : Z) : exists z, _to_int x (JInt z0) = JInt z.
Proof. destruct (to_int_cases x (JInt z0)) as [?| ->]; eauto. Qed.

Lemma to_float_default_float (x : value) (f0 : spec_float) :
  exists f, _to_float x (JFloat f0) = JFloat f.
Proof. destruct (to_float_cases x (JFloat f0)) as [?| ->]; eauto. Qed.

Lemma fill_defaults_present (plan : dict) (k : string) :
  k ∈ inherit_keys -> is_Some (fill_defaults plan !! k).
Proof.
  unfold inherit_keys. rewrite !elem_of_cons, elem_of_nil.
  unfold fill_defaults. cbn zeta. rewrite !lookup_setdefault.
  intros H. destruct (plan !! k); [eauto|].
  repeat destruct H as [-> | H]; try (cbn; eauto). done.
Qed.

Lemma over_is_Some (o old : option value) : is_Some old -> is_Some (over o old).
Proof. destruct o; simpl; eauto. Qed.

Lemma not_empty_str_cases (plan : dict) (k : string) :
  is_Some (plan !! k) ->
  exists d, (if _is_empty_str (py_get plan k) then Some JNull else plan !! k) = Some d /\
            _is_empty_str d = false.
Proof.
  intros [v Hv]. unfold py_get. rewrite Hv. simpl.
  destruct (_is_empty_str v) eqn:E; eauto.
Qed.

Lemma planner_resolved (interp : dict) (text : string) (prev_plan : option dict) (P : dict) :
  planner interp text prev_plan = Ok P -> resolved P.
Proof.
  intros HP0.
  destruct (planner_run interp text prev_plan)
    as (plan1 & cmp & tk & fs & fl & plan2 & P' & L1 & _ & _ & _ & _ & L2 & HP & HL).
  rewrite HP0 in HP. injection HP as <-.
  assert (Hpres : forall k, k ∈ inherit_keys -> is_Some (plan2 !! k)).
  { intros k Hk. pose proof (fill_defaults_present plan1 k Hk) as Hf.
    rewrite L2. unfold overridden.
    by_key "doctype"; by_key "field_level"; by_key "field_score_min"; by_key "top_k";
      by_key "compare"; by_key "year_from"; by_key "year_to";
      by_key "compare_year_from"; by_key "compare_year_to";
      try by apply over_is_Some.
    exact Hf. }
  assert (Hin : forall k, In k inherit_keys -> k ∈ inherit_keys)
    by (intros k; apply list_elem_of_In).
  split; rewrite ?HL; unfold normal.
  - destruct (resolve_compare _ _ _) as [[c f] t]. key_eval.
    rewrite L2. unfold overridden. key_eval.
    rewrite fill_defaults_other
      by (unfold inherit_keys; rewrite !elem_of_cons, elem_of_nil; intros H;
          repeat destruct H as [H|H]; done).
    rewrite L1. unfold inherited.
    assert (is_Some (ensure_chart_type prev_plan interp !! "chart_type")) as He.
    { rewrite lookup_ensure_chart_type. key_eval. unfold py_get.
      destruct (interp !! "chart_type") as [v|]; simpl; [|eauto].
      destruct (py_bool v); eauto. }
    destruct (truthy_dict prev_plan); [|done].
    by rewrite bool_decide_eq_false_2
      by (unfold inherit_keys; rewrite !elem_of_cons, elem_of_nil; intros H;
          repeat destruct H as [H|H]; done).
  - destruct (resolve_compare _ _ _) as [[c f] t]. key_eval.
    destruct (to_int_default_int (py_get plan2 "year_from") 2020) as [z ->]. eauto.
  - destruct (resolve_compare _ _ _) as [[c f] t]. key_eval.
    destruct (to_int_default_int (py_get plan2 "year_to") 2024) as [z ->]. eauto.
  - destruct (resolve_compare _ _ _) as [[c f] t]. key_eval.
    destruct (to_int_default_int (py_get plan2 "field_level") 1) as [z ->]. eauto.
  - destruct (resolve_compare _ _ _) as [[c f] t]. key_eval.
    destruct (to_int_default_int (py_get plan2 "top_k") 25) as [z ->]. eauto.
  - destruct (resolve_compare _ _ _) as [[c f] t]. key_eval.
    destruct (to_float_default_float (py_get plan2 "field_score_min") default_score)
      as [z ->]. eauto.
  - destruct (resolve_compare _ _ _) as [[c f] t]. key_eval.
    eexists. split; [reflexivity|]. by destruct (is_mark (py_get plan2 "mark")) eqn:E.
  - destruct (resolve_compare _ _ _) as [[c f] t]. key_eval.
    apply not_empty_str_cases, Hpres, Hin. simpl. tauto.
  - destruct (resolve_compare _ _ _) as [[c f] t]. key_eval.
    apply not_empty_str_cases, Hpres, Hin. simpl. tauto.
  - destruct (resolve_compare_cases (py_get plan2 "compare")
                (py_get plan2 "compare_year_from") (py_get plan2 "compare_year_to"))
      as [(a & b & ->) | ->]; key_eval; [left | right]; eauto 6.
Qed.

(** C6. Once the interpreted object is a dictionary the planner never
    raises: for every user text, interpreted object and previous plan
    it returns a plan, and that plan is repaired field by field (the
    numeric fields are numbers, [mark] is one of the three tokens,
    [doctype] and [color] are not blank strings, [compare] agrees with
    its bounds). *)
Theorem planner_never_raises (interp : dict) (user_text : string) (prev_plan : option dict) :
  exists P, planner interp user_text prev_plan = Ok P /\ resolved P.
Proof.
  destruct (planner_run interp user_text prev_plan)
    as (plan1 & cmp & tk & fs & fl & plan2 & P & _ & _ & _ & _ & _ & _ & HP & _).
  exists P. split; [exact HP|]. by eapply planner_resolved.
Qed.

Lemma resolved_present (P : dict) (k : string) :
  resolved P -> k ∈ plan_keys -> is_Some (P !! k).
Proof.
  intros [Hc (?&Hyf) (?&Hyt) (?&Hfl) (?&Htk) (?&Hfs) (?&Hm&_) (?&Hd&_) (?&Hco&_) Hcmp].
  unfold plan_keys, inherit_keys. rewrite !elem_of_cons, elem_of_nil.
  intros H. repeat destruct H as [-> | H]; try done; eauto;
    destruct Hcmp as [(? & ? & ? & ? & ?) | (? & ? & ?)]; eauto.
Qed.

Lemma resolved_ext (P Q : dict) :
  (forall k, k ∈ plan_keys -> Q !! k = P !! k) -> resolved P -> resolved Q.
Proof.
  intros H [Hc Hyf Hyt Hfl Htk Hfs Hm Hd Hco Hcmp].
  assert (Hk : forall k, In k plan_keys -> Q !! k = P !! k)
    by (intros k Hk; by apply H, list_elem_of_In).
  split; rewrite ?Hk by (simpl; tauto); done.
Qed.

(** Normalising a resolved dictionary changes nothing. *)
Lemma normal_fixed (plan : dict) (j : string) : resolved plan -> normal plan j = plan !! j.
Proof.
  intros [Hc (yf&Hyf) (yt&Hyt) (lv&Hfl) (tk&Htk) (fs&Hfs) (m&Hm&Hmk) (d&Hd&Hde)
            (co&Hco&Hcoe) Hcmp].
  unfold normal, py_get.
  rewrite Hyf, Hyt, Hfl, Htk, Hfs, Hm, Hd, Hco. simpl default. rewrite Hmk, Hde, Hcoe.
  destruct Hcmp as [(Hcm & a & b & Ha & Hb) | (Hcm & Ha & Hb)];
    rewrite Hcm, Ha, Hb; simpl default;
    [change (resolve_compare (JBool true) (JInt a) (JInt b))
       with (JBool true, JInt a, JInt b)
    |change (resolve_compare (JBool false) JNull JNull) with (JBool false, JNull, JNull)];
    cbv beta iota;
    by_key "compare"; by_key "compare_year_from"; by_key "compare_year_to";
    by_key "mark"; by_key "year_from"; by_key "year_to"; by_key "field_level";
    by_key "field_score_min"; by_key "top_k"; by_key "doctype"; by_key "color";
    symmetry; assumption.
Qed.

Lemma parse_empty_text :
  _parse_compare_ranges "" = Ok None /\ _parse_top_k "" = Ok None /\
  _parse_field_score_min "" = Ok None /\ _parse_field_level "" = Ok None /\
  _parse_doctype "" = None.
Proof. by vm_compute. Qed.

Lemma chart_type_not_inherited : "chart_type" ∉ inherit_keys.
Proof.
  unfold inherit_keys. rewrite !elem_of_cons, elem_of_nil.
  intros H. repeat destruct H as [H|H]; done.
Qed.

(** Resolving again from a resolved plan, with empty text and nothing
    interpreted, gives the plan back. *)
Lemma re_resolve (P interp : dict) :
  resolved P ->
  (forall k, k ∈ plan_keys -> interp !! k = None \/ interp !! k = Some JNull) ->
  exists P', planner interp "" (Some P) = Ok P' /\
    (forall k, k ∈ plan_keys -> P' !! k = P !! k) /\
    (forall j, j ∉ plan_keys -> P' !! j = interp !! j).
Proof.
  intros HR Hnull.
  destruct (planner_run interp "" (Some P))
    as (plan1 & cmp & tk & fs & fl & plan2 & P' & L1 & Hc & Ht & Hs & Hl & L2 & HP & HL).
  destruct parse_empty_text as (Ec & Et & Es & El & Ed).
  rewrite Ec in Hc. rewrite Et in Ht. rewrite Es in Hs. rewrite El in Hl.
  injection Hc as <-. injection Ht as <-. injection Hs as <-. injection Hl as <-.
  assert (Htruthy : truthy_dict (Some P) = Some P).
  { unfold truthy_dict. destruct (Nat.eqb_spec (size P) 0) as [E|]; [|done].
    apply map_size_empty_iff in E. subst P.
    destruct (res_chart_type _ HR) as [? E]. by rewrite lookup_empty in E. }
  assert (Hget : forall k, k ∈ plan_keys -> py_get interp k = JNull).
  { intros k Hk. unfold py_get. by destruct (Hnull k Hk) as [-> | ->]. }
  assert (He : forall j, ensure_chart_type (Some P) interp !! j =
                 if String.eqb j "chart_type" then P !! "chart_type" else interp !! j).
  { intros j. rewrite lookup_ensure_chart_type, Htruthy.
    rewrite Hget by apply list_elem_of_here. simpl py_bool. cbn [pick].
    destruct (String.eqb j "chart_type"); [|done].
    destruct (res_chart_type _ HR) as [v Hv]. unfold py_get. by rewrite Hv. }
  assert (H1 : (forall k, k ∈ plan_keys -> plan1 !! k = P !! k) /\
               (forall j, j ∉ plan_keys -> plan1 !! j = interp !! j)).
  { split.
    - intros k Hk. rewrite L1. unfold inherited. rewrite Htruthy, He.
      apply elem_of_cons in Hk as [-> | Hk].
      + by rewrite bool_decide_eq_false_2 by apply chart_type_not_inherited.
      + rewrite bool_decide_eq_true_2 by done.
        destruct (String.eqb_spec k "chart_type") as [->|_];
          [by apply chart_type_not_inherited in Hk|].
        destruct (resolved_present P k HR) as [v Hv]; [by apply list_elem_of_further|].
        unfold inherit, py_get. rewrite Hv.
        by destruct (Hnull k) as [-> | ->]; [by apply list_elem_of_further | |].
    - intros j Hj. rewrite L1. unfold inherited. rewrite Htruthy, He.
      apply not_elem_of_cons in Hj as [Hne Hj].
      rewrite bool_decide_eq_false_2 by done.
      by destruct (String.eqb_spec j "chart_type"). }
  destruct H1 as [H1a H1b].
  assert (H2 : forall j, plan2 !! j = fill_defaults plan1 !! j).
  { intros j. rewrite L2. unfold overridden. rewrite Ed.
    by_key "doctype"; by_key "field_level"; by_key "field_score_min"; by_key "top_k";
      by_key "compare"; by_key "year_from"; by_key "year_to";
      by_key "compare_year_from"; by_key "compare_year_to". }
  assert (H2a : forall k, k ∈ plan_keys -> plan2 !! k = P !! k).
  { intros k Hk. rewrite H2. destruct (resolved_present P k HR Hk) as [v Hv].
    rewrite Hv. apply fill_defaults_keeps. by rewrite H1a. }
  assert (H2b : forall j, j ∉ plan_keys -> plan2 !! j = interp !! j).
  { intros j Hj. rewrite H2, fill_defaults_other, H1b; [done | done |].
    by apply not_elem_of_cons in Hj as [_ ?]. }
  pose proof (resolved_ext P plan2 H2a HR) as HR2.
  exists P'. split; [done|]. split.
  - intros k Hk. by rewrite HL, normal_fixed, H2a.
  - intros j Hj. by rewrite HL, normal_fixed, H2b.
Qed.

(** C5. Resolving is idempotent on its own output: resolving again with
    empty text, the resolved plan as previous plan and an interpreted
    object whose fields are all absent or null returns every field of
    the plan unchanged (and nothing else but what was interpreted). *)
Theorem planner_idempotent (interp0 : dict) (text0 : string) (prev0 : option dict)
    (interp : dict) :
  (forall k, k ∈ plan_keys -> interp !! k = None \/ interp !! k = Some JNull) ->
  exists P P',
    planner interp0 text0 prev0 = Ok P /\
    planner interp "" (Some P) = Ok P' /\
    (forall k, k ∈ plan_keys -> P' !! k = P !! k) /\
    (forall j, j ∉ plan_keys -> P' !! j = interp !! j) /\
    ((forall j, j ∉ plan_keys -> P !! j = interp !! j) -> P' = P).
Proof.
  intros Hnull.
  destruct (planner_run interp0 text0 prev0)
    as (_ & _ & _ & _ & _ & _ & P & _ & _ & _ & _ & _ & _ & HP & _).
  destruct (re_resolve P interp (planner_resolved _ _ _ _ HP) Hnull) as (P' & ? & Hk & Hj).
  exists P, P'. repeat (split; [done|]).
  intros Hextra. apply map_eq. intros j.
  destruct (decide (j ∈ plan_keys)); [by apply Hk|]. by rewrite Hj, Hextra.
Qed.

Lemma planner_idempotent_witness :
  exists P P',
    planner {[ "mark" := JStr "line"; "color" := JStr "  "; "top_k" := JStr "7" ]}
      "compare 2019-2020 vs 2021-2022 for journal articles" None = Ok P /\
    planner ∅ "" (Some P) = Ok P' /\
    (forall k, k ∈ plan_keys -> P' !! k = P !! k) /\
    (forall j, j ∉ plan_keys -> P' !! j = (∅ : dict) !! j) /\
    ((forall j, j ∉ plan_keys -> P !! j = (∅ : dict) !! j) -> P' = P).
Proof.
  apply (planner_idempotent
           {[ "mark" := JStr "line"; "color" := JStr "  "; "top_k" := JStr "7" ]}
           "compare 2019-2020 vs 2021-2022 for journal articles" None ∅).
  intros k _. left. apply lookup_empty.
Defined.

(** ** The aggregator *)

Section AggregatorFacts.

Variable papers_by_year : Z -> Z -> value -> result (list (Z * Z)).
Variable papers_by_field :
  Z -> Z -> Z -> spec_float -> value -> Z -> result (list (string * Z)).
Variable set_iter : gset string -> list string.

Lemma dict_of_rows_from `{Countable K} {V : Type} (rows : list (K * V)) (m0 : gmap K V) (y : K) :
  y ∉ rows.*1 ->
  fold_left (fun m kv => <[kv.1 := kv.2]> m) rows m0 !! y = m0 !! y.
Proof.
  revert m0. induction rows as [|[y' c'] rows IH]; intros m0 Hy; [done|].
  simpl in *. apply not_elem_of_cons in Hy as [Hne Hy].
  rewrite IH by done. by apply lookup_insert_ne.
Qed.

Lemma dict_of_rows_omitted `{Countable K} {V : Type} (rows : list (K * V)) (y : K) :
  y ∉ rows.*1 -> dict_of_rows rows !! y = None.
Proof. intros Hy. unfold dict_of_rows. by rewrite dict_of_rows_from. Qed.

Lemma dict_of_rows_unique `{Countable K} {V : Type} (rows : list (K * V)) (y : K) (c : V) :
  NoDup rows.*1 -> (y, c) ∈ rows -> dict_of_rows rows !! y = Some c.
Proof.
  unfold dict_of_rows. generalize (∅ : gmap K V).
  induction rows as [|[y' c'] rows IH]; intros m0 Hnd Hin.
  - by apply elem_of_nil in Hin.
  - simpl in *. apply NoDup_cons in Hnd as [Hy' Hnd].
    apply elem_of_cons in Hin as [[= -> ->] | Hin].
    + rewrite dict_of_rows_from by done. apply lookup_insert_eq.
    + by apply IH.
Qed.

(** C2. For a by-year plan without compare and [year_from <= year_to],
    whatever rows the backend returns, the data have exactly
    [year_to - year_from + 1] rows, the [i]-th one for the year
    [year_from + i], with count 0 for a year the backend omitted (and
    the backend's count for a year it reported). *)
Theorem year_rows_dense (plan : dict) (year_from year_to : Z) (rows : list (Z * Z)) :
  plan !! "chart_type" = Some (JStr "papers_by_year") ->
  py_bool (py_get_default plan "compare" (JBool false)) = false ->
  py_int (py_get_default plan "year_from" (JInt 2020)) = Ok year_from ->
  py_int (py_get_default plan "year_to" (JInt 2024)) = Ok year_to ->
  year_from <= year_to ->
  papers_by_year year_from year_to (or_none (py_get plan "doctype")) = Ok rows ->
  exists (data : list odict) (count : Z -> Z),
    data_agent papers_by_year papers_by_field set_iter plan
      = Ok (Payload (JStr "papers_by_year") plan data) /\
    length data = Z.to_nat (year_to - year_from + 1) /\
    (forall i, (i < length data)%nat ->
       data !! i = Some [("year", JInt (year_from + Z.of_nat i));
                         ("n_papers", JInt (count (year_from + Z.of_nat i)))]) /\
    (forall y, y ∉ rows.*1 -> count y = 0) /\
    (NoDup rows.*1 -> forall y c, (y, c) ∈ rows -> count y = c).
Proof.
  intros Hct Hcmp Hyf Hyt Hle Hrows.
  exists (year_row (dict_of_rows rows) <$> py_range year_from (year_to + 1)),
    (fun y => default 0 (dict_of_rows rows !! y)).
  split; [|split; [|split; [|split]]].
  - unfold data_agent, py_getitem, _year_rows. rewrite Hct. cbn [mbind result_bind].
    rewrite Hyf, Hyt. cbn [mbind result_bind py_eq_str]. rewrite Hcmp.
    change (String.eqb "papers_by_year" "papers_by_year") with true. cbn [negb].
    by rewrite Hrows.
  - rewrite length_fmap. unfold py_range. rewrite length_seqZ. f_equal. lia.
  - intros i Hi. rewrite length_fmap in Hi. unfold py_range in *.
    rewrite length_seqZ in Hi. rewrite list_lookup_fmap, lookup_seqZ_lt by lia. done.
  - intros y Hy. by rewrite dict_of_rows_omitted.
  - intros Hnd y c Hin. by rewrite (dict_of_rows_unique rows y c).
Qed.

(** C7. A plan whose chart type is neither of the two supported values
    makes both the aggregator and the renderer raise
    [ValueError("Unsupported chart_type: <value>")]; the backend is not
    consulted and no rows are produced. *)
Theorem unsupported_chart_type_raises (plan : dict) (chart_type : value)
    (year_from year_to : Z) (data : list odict) :
  plan !! "chart_type" = Some chart_type ->
  py_eq_str chart_type "papers_by_year" = false ->
  py_eq_str chart_type "papers_by_field" = false ->
  py_int (py_get_default plan "year_from" (JInt 2020)) = Ok year_from ->
  py_int (py_get_default plan "year_to" (JInt 2024)) = Ok year_to ->
  data_agent papers_by_year papers_by_field set_iter plan
    = Raise (ValueError [FLit "Unsupported chart_type: "; FVal chart_type]) /\
  viz_agent (Payload chart_type plan data)
    = Raise (ValueError [FLit "Unsupported chart_type: "; FVal chart_type]).
Proof.
  intros Hct Hy Hf Hyf Hyt. split.
  - unfold data_agent, py_getitem. rewrite Hct. cbn [mbind result_bind].
    rewrite Hyf, Hyt. cbn [mbind result_bind]. by rewrite Hy, Hf.
  - unfold viz_agent. cbn [p_chart_type]. by rewrite Hy, Hf.
Qed.

End AggregatorFacts.

Lemma year_rows_dense_witness :
  let backend := fun (_ _ : Z) (_ : value) => Ok [(2022, 7); (2020, 3)] in
  let plan : dict := {[ "chart_type" := JStr "papers_by_year"; "year_from" := JInt 2020;
                        "year_to" := JInt 2023; "compare" := JBool false ]} in
  exists (data : list odict) (count : Z -> Z),
    data_agent backend (fun _ _ _ _ _ _ => Ok []) elements plan
      = Ok (Payload (JStr "papers_by_year") plan data) /\
    length data = Z.to_nat (2023 - 2020 + 1) /\
    (forall i, (i < length data)%nat ->
       data !! i = Some [("year", JInt (2020 + Z.of_nat i));
                         ("n_papers", JInt (count (2020 + Z.of_nat i)))]) /\
    (forall y, y ∉ [(2022, 7); (2020, 3)].*1 -> count y = 0) /\
    (NoDup [(2022, 7); (2020, 3)].*1 ->
     forall y c, (y, c) ∈ [(2022, 7); (2020, 3)] -> count y = c).
Proof.
  intros backend plan.
  apply (year_rows_dense backend (fun _ _ _ _ _ _ => Ok []) elements plan 2020 2023
           [(2022, 7); (2020, 3)]); try (by vm_compute); lia.
Defined.

Lemma unsupported_chart_type_raises_witness :
  let plan : dict := {[ "chart_type" := JStr "pie"; "year_from" := JInt 2020;
                        "year_to" := JInt 2024 ]} in
  data_agent (fun _ _ _ => Ok []) (fun _ _ _ _ _ _ => Ok []) elements plan
    = Raise (ValueError [FLit "Unsupported chart_type: "; FVal (JStr "pie")]) /\
  viz_agent (Payload (JStr "pie") plan [])
    = Raise (ValueError [FLit "Unsupported chart_type: "; FVal (JStr "pie")]).
Proof.
  intros plan.
  apply (unsupported_chart_type_raises (fun _ _ _ => Ok []) (fun _ _ _ _ _ _ => Ok [])
           elements plan (JStr "pie") 2020 2024 []); by vm_compute.
Defined.

(** ** The renderer *)

Lemma result_ok_inv {A B : Type} (r : result A) (f : A -> B) (b : B) :
  match r with Ok a => Some (f a) | Raise _ => None end = Some b ->
  exists a, r = Ok a /\ f a = b.
Proof. destruct r as [a|]; [|done]. intros [= <-]. eauto. Qed.

(** C9, as stated, fails: a colour that is not null but false in a
    boolean context (here the JSON value [false], kept as is by the
    planner) is not applied although compare is off. *)
Lemma mark_color_counterexample :
  exists out,
    run_multi_agent (fun _ _ _ => Ok []) (fun _ _ _ _ _ _ => Ok []) elements
      {[ "color" := JBool false ]} "" None = Ok out /\
    r_plan out !! "color" = Some (JBool false) /\
    r_plan out !! "compare" = Some (JBool false) /\
    od_get (spec_mark out) "color" = None.
Proof.
  destruct (result_ok_inv
    (run_multi_agent (fun _ _ _ => Ok []) (fun _ _ _ _ _ _ => Ok []) elements
       {[ "color" := JBool false ]} "" None)
    (fun out => (r_plan out !! "color", r_plan out !! "compare",
                 od_get (spec_mark out) "color"))
    (Some (JBool false), Some (JBool false), None)) as (out & Hout & [= H1 H2 H3]).
  { by vm_compute. }
  exists out. split; [exact Hout|]. split; [exact H1|]. split; [exact H2 | exact H3].
Qed.

(** C9, amended. For a supported chart type the renderer returns a
    descriptor whose mark carries an explicit colour exactly when
    compare is off and the plan's colour is true in a boolean context
    (not null, and for a string not empty); the colour is then the
    plan's.  In compare mode the mark carries no colour and the colour
    channel of the encoding is bound to the group field. *)
Theorem mark_color_rule (chart_type : value) (plan : dict) (data : list odict) :
  py_eq_str chart_type "papers_by_year" = true \/
  py_eq_str chart_type "papers_by_field" = true ->
  let compare := py_bool (py_get_default plan "compare" (JBool false)) in
  let color := py_get plan "color" in
  exists out,
    viz_agent (Payload chart_type plan data) = Ok out /\
    (is_Some (od_get (spec_mark out) "color") <-> compare = false /\ py_bool color = true) /\
    (forall c, od_get (spec_mark out) "color" = Some c -> c = color) /\
    (compare = true ->
       od_get (spec_mark out) "color" = None /\
       od_get (spec_encoding out) "color"
         = Some (JDict [("field", JStr "group"); ("type", JStr "nominal");
                        ("title", JStr "Group")])) /\
    (compare = false -> od_get (spec_encoding out) "color" = None).
Proof.
  intros Hct compare color. subst compare color.
  unfold viz_agent, or_none. cbn [p_chart_type p_plan p_data].
  destruct (py_eq_str chart_type "papers_by_year") eqn:E1;
    [|destruct Hct as [|Hct]; [done|]; rewrite Hct];
    destruct (py_bool (py_get_default plan "compare" (JBool false))) eqn:Ec;
    destruct (py_bool (py_get plan "color")) eqn:Eb;
    cbn [negb andb py_bool]; rewrite ?Eb; cbn [negb andb];
    (eexists; split; [reflexivity|]);
    unfold spec_mark, spec_encoding; cbn;
    (split; [split; [intros [? ?]; done | intros [? ?]; eauto; done] |]);
    (split; [intros c [=]; done |]); split; intros; try done; eauto.
Qed.

Lemma mark_color_rule_witness :
  let plan : dict := {[ "color" := JStr "crimson"; "compare" := JBool true ]} in
  exists out,
    viz_agent (Payload (JStr "papers_by_field") plan []) = Ok out /\
    od_get (spec_mark out) "color" = None /\
    od_get (spec_encoding out) "color"
      = Some (JDict [("field", JStr "group"); ("type", JStr "nominal");
                     ("title", JStr "Group")]).
Proof.
  intros plan.
  destruct (mark_color_rule (JStr "papers_by_field") plan [] (or_intror eq_refl))
    as (out & Hout & _ & _ & Hcmp & _).
  exists out. split; [done|]. by apply Hcmp.
Defined.

(** ** The label ranking of compare mode *)

Lemma key_lt_false (a b : Z * Z * Z) : key_lt a b = false <-> lex_ge a b.
Proof.
  destruct a as [[a1 a2] a3], b as [[b1 b2] b3]. unfold key_lt, lex_ge. simpl.
  rewrite !orb_false_iff, !andb_false_iff, !orb_false_iff, !andb_false_iff,
    !Z.ltb_ge, !Z.eqb_neq. lia.
Qed.

Lemma key_lt_true (a b : Z * Z * Z) : key_lt a b = true -> lex_ge b a.
Proof.
  destruct a as [[a1 a2] a3], b as [[b1 b2] b3]. unfold key_lt, lex_ge. simpl.
  rewrite !orb_true_iff, !andb_true_iff, !orb_true_iff, !andb_true_iff,
    !Z.ltb_lt, !Z.eqb_eq. lia.
Qed.

Lemma lex_ge_trans (a b c : Z * Z * Z) : lex_ge a b -> lex_ge b c -> lex_ge a c.
Proof. unfold lex_ge. lia. Qed.

Section Sorted.
Context {A : Type} (key : A -> Z * Z * Z).

Lemma insert_desc_perm (x : A) (l : list A) : insert_desc key x l ≡ₚ x :: l.
Proof.
  induction l as [|y l IH]; simpl; [done|].
  destruct (key_lt (key x) (key y)); [|done].
  rewrite IH. apply perm_swap.
Qed.

Lemma py_sorted_desc_perm (l : list A) : py_sorted_desc key l ≡ₚ l.
Proof.
  induction l as [|x l IH]; simpl; [done|].
  rewrite insert_desc_perm. by rewrite IH.
Qed.

Lemma insert_desc_sorted (x : A) (l : list A) :
  StronglySorted (before key) l -> StronglySorted (before key) (insert_desc key x l).
Proof.
  induction 1 as [|y l Hs IH Hy]; simpl.
  - repeat constructor.
  - destruct (key_lt (key x) (key y)) eqn:E.
    + constructor; [done|]. rewrite insert_desc_perm. constructor; [|done].
      by apply key_lt_true.
    + apply key_lt_false in E. constructor; [by constructor|].
      constructor; [done|]. eapply Forall_impl; [exact Hy|].
      intros z Hz. by eapply lex_ge_trans.
Qed.

Lemma py_sorted_desc_sorted (l : list A) : StronglySorted (before key) (py_sorted_desc key l).
Proof.
  induction l as [|x l IH]; simpl; [constructor | by apply insert_desc_sorted].
Qed.

End Sorted.

Lemma perm3 {A : Type} (l : list A) (x y z : A) :
  l ≡ₚ [x; y; z] ->
  l = [x; y; z] \/ l = [x; z; y] \/ l = [y; x; z] \/
  l = [y; z; x] \/ l = [z; x; y] \/ l = [z; y; x].
Proof.
  intros H. pose proof (Permutation_length H) as Hlen.
  destruct l as [|a [|b [|c [|? ?]]]]; try done. clear Hlen.
  apply Permutation_cons_inv_l in H as (l1 & l2 & E & H).
  destruct l1 as [|? l1]; simpl in E.
  - injection E as <- <-. apply Permutation_length_2_inv in H as [[= -> ->] | [= -> ->]]; auto.
  - injection E as <- E. destruct l1 as [|? l1]; simpl in E.
    + injection E as <- <-. simpl in H.
      apply Permutation_length_2_inv in H as [[= -> ->] | [= -> ->]]; auto 7.
    + injection E as <- E. destruct l1 as [|? l1]; simpl in E; [|by destruct l1].
      injection E as <- <-. simpl in H.
      apply Permutation_length_2_inv in H as [[= -> ->] | [= -> ->]]; auto 7.
Qed.

Section RankingFacts.

Variable papers_by_year : Z -> Z -> value -> result (list (Z * Z)).
Variable papers_by_field :
  Z -> Z -> Z -> spec_float -> value -> Z -> result (list (string * Z)).
Variable set_iter : gset string -> list string.

Lemma py_slice_to_take {A : Type} (l : list A) (k : Z) :
  0 <= k -> py_slice_to l k = take (Z.to_nat k) l.
Proof. intros Hk. unfold py_slice_to. by rewrite (proj2 (Z.leb_le 0 k) Hk). Qed.

(** The iteration order of the three labels of the example does not matter. *)
Lemma example_ranking (order : list string) :
  let a_map := dict_of_rows [("x", 10); ("y", 5)] in
  let b_map := dict_of_rows [("x", 1); ("z", 8)] in
  order ≡ₚ elements (dom a_map ∪ dom b_map) ->
  py_sorted_desc (rank_key a_map b_map) order = ["x"; "z"; "y"].
Proof.
  intros a_map b_map Hperm.
  assert (Hxyz : order ≡ₚ ["x"; "y"; "z"]).
  { rewrite Hperm. apply NoDup_Permutation.
    - apply NoDup_elements.
    - repeat (constructor; [rewrite ?elem_of_cons, elem_of_nil; intros H;
                            repeat destruct H as [H|H]; done|]). constructor.
    - intros e. rewrite elem_of_elements. unfold a_map, b_map, dict_of_rows. simpl.
      rewrite !dom_insert_L, dom_empty_L.
      rewrite !elem_of_union, !elem_of_singleton, elem_of_empty, !elem_of_cons, elem_of_nil.
      tauto. }
  apply perm3 in Hxyz as [->|[->|[->|[->|[->| ->]]]]]; by vm_compute.
Qed.

(** Two labels with the same combined count: the count in group A
    decides, whatever the iteration order. *)
Lemma example_tie (order : list string) :
  let a_map := dict_of_rows [("p", 1); ("q", 9)] in
  let b_map := dict_of_rows [("p", 9); ("q", 1)] in
  order ≡ₚ elements (dom a_map ∪ dom b_map) ->
  py_sorted_desc (rank_key a_map b_map) order = ["q"; "p"].
Proof.
  intros a_map b_map Hperm.
  assert (Hpq : order ≡ₚ ["p"; "q"]).
  { rewrite Hperm. apply NoDup_Permutation.
    - apply NoDup_elements.
    - repeat (constructor; [rewrite ?elem_of_cons, elem_of_nil; intros H;
                            repeat destruct H as [H|H]; done|]). constructor.
    - intros e. rewrite elem_of_elements. unfold a_map, b_map, dict_of_rows. simpl.
      rewrite !dom_insert_L, dom_empty_L.
      rewrite !elem_of_union, !elem_of_singleton, elem_of_empty, !elem_of_cons, elem_of_nil.
      tauto. }
  symmetry in Hpq. apply Permutation_length_2_inv in Hpq as [-> | ->]; by vm_compute.
Qed.

(** C1. In compare mode for label charts the aggregator ranks the union
    of the two groups' labels descending by
    [(count_A + count_B, count_A, count_B)], keeps the first [top_k] of
    them, and emits the kept labels once for group A and once more, in
    the same order, for group B, a label missing from a group counting
    0.  With A = {x:10, y:5}, B = {x:1, z:8} and [top_k = 2] the kept
    labels are [x, z]; with A = {p:1, q:9}, B = {p:9, q:1} and
    [top_k = 1], where the combined counts tie, the kept label is [q]. *)
Theorem label_compare_ranking (plan : dict) (year_from year_to c_from c_to : Z)
    (field_level top_k : Z) (field_score_min : spec_float)
    (a_rows b_rows : list (string * Z)) :
  let doctype := or_none (py_get plan "doctype") in
  let pool := Z.max (top_k * 5) 200 in
  let a_map := dict_of_rows a_rows in
  let b_map := dict_of_rows b_rows in
  let fields := dom a_map ∪ dom b_map in
  let count_A := fun f => default 0 (a_map !! f) in
  let count_B := fun f => default 0 (b_map !! f) in
  plan !! "chart_type" = Some (JStr "papers_by_field") ->
  py_bool (py_get_default plan "compare" (JBool false)) = true ->
  py_int (py_get_default plan "year_from" (JInt 2020)) = Ok year_from ->
  py_int (py_get_default plan "year_to" (JInt 2024)) = Ok year_to ->
  py_int (py_get plan "compare_year_from") = Ok c_from ->
  py_int (py_get plan "compare_year_to") = Ok c_to ->
  py_int (py_get_default plan "field_level" (JInt 1)) = Ok field_level ->
  py_float (py_get_default plan "field_score_min" (JFloat default_score))
    = Ok field_score_min ->
  py_int (py_get_default plan "top_k" (JInt 25)) = Ok top_k ->
  0 <= top_k ->
  papers_by_field year_from year_to field_level field_score_min doctype pool = Ok a_rows ->
  papers_by_field c_from c_to field_level field_score_min doctype pool = Ok b_rows ->
  set_iter fields ≡ₚ elements fields ->
  exists ranked keep : list string,
    ranked ≡ₚ elements fields /\
    StronglySorted (fun f g => lex_ge (label_rank count_A count_B f)
                                      (label_rank count_A count_B g)) ranked /\
    keep = take (Z.to_nat top_k) ranked /\
    data_agent papers_by_year papers_by_field set_iter plan
      = Ok (Payload (JStr "papers_by_field") plan
              (((fun f => [("group", JStr "A"); ("field", JStr f);
                           ("n_papers", JInt (count_A f))]) <$> keep) ++
               ((fun f => [("group", JStr "B"); ("field", JStr f);
                           ("n_papers", JInt (count_B f))]) <$> keep))) /\
    (a_rows = [("x", 10); ("y", 5)] -> b_rows = [("x", 1); ("z", 8)] -> top_k = 2 ->
     keep = ["x"; "z"] /\ ("y" ∉ keep) /\ count_A "z" = 0) /\
    (a_rows = [("p", 1); ("q", 9)] -> b_rows = [("p", 9); ("q", 1)] -> top_k = 1 ->
     keep = ["q"]).
Proof.
  intros doctype pool a_map b_map fields count_A count_B
    Hct Hcmp Hyf Hyt Hcf Hcto Hlv Hsc Hk Hk0 Ha Hb Hiter.
  exists (py_sorted_desc (rank_key a_map b_map) (set_iter fields)),
    (take (Z.to_nat top_k) (py_sorted_desc (rank_key a_map b_map) (set_iter fields))).
  split; [by rewrite py_sorted_desc_perm|].
  split; [exact (py_sorted_desc_sorted (rank_key a_map b_map) (set_iter fields))|].
  split; [done|]. split; [|split].
  - unfold data_agent, py_getitem, _field_rows. rewrite Hct. cbn [mbind result_bind].
    rewrite Hyf, Hyt. cbn [mbind result_bind py_eq_str]. rewrite Hcmp.
    change (String.eqb "papers_by_field" "papers_by_year") with false.
    change (String.eqb "papers_by_field" "papers_by_field") with true.
    cbn [negb]. rewrite Hlv, Hsc, Hk. cbn [mbind result_bind].
    fold doctype. fold pool. rewrite Ha. cbn [mbind result_bind].
    rewrite Hcf, Hcto. cbn [mbind result_bind]. rewrite Hb. cbn [mbind result_bind].
    by rewrite py_slice_to_take.
  - unfold fields, a_map, b_map, count_A in *. intros -> -> ->.
    rewrite (example_ranking _ Hiter).
    split; [done|]. split; [|by vm_compute].
    simpl. rewrite !elem_of_cons, elem_of_nil. intros H. repeat destruct H as [H|H]; done.
  - unfold fields, a_map, b_map in *. intros -> -> ->.
    by rewrite (example_tie _ Hiter).
Qed.

End RankingFacts.

Lemma label_compare_ranking_witness :
  let backend := fun (yf _ _ : Z) (_ : spec_float) (_ : value) (_ : Z) =>
                   if yf =? 2020 then Ok [("x", 10); ("y", 5)] else Ok [("x", 1); ("z", 8)] in
  let plan : dict := {[ "chart_type" := JStr "papers_by_field"; "compare" := JBool true;
                        "year_from" := JInt 2020; "year_to" := JInt 2022;
                        "compare_year_from" := JInt 2023; "compare_year_to" := JInt 2024;
                        "top_k" := JInt 2 ]} in
  data_agent (fun _ _ _ => Ok []) backend elements plan
    = Ok (Payload (JStr "papers_by_field") plan
            [[("group", JStr "A"); ("field", JStr "x"); ("n_papers", JInt 10)];
             [("group", JStr "A"); ("field", JStr "z"); ("n_papers", JInt 0)];
             [("group", JStr "B"); ("field", JStr "x"); ("n_papers", JInt 1)];
             [("group", JStr "B"); ("field", JStr "z"); ("n_papers", JInt 8)]]).
Proof.
  intros backend plan.
  destruct (label_compare_ranking (fun _ _ _ => Ok []) backend elements plan
              2020 2022 2023 2024 1 2 default_score [("x", 10); ("y", 5)] [("x", 1); ("z", 8)])
    as (ranked & keep & _ & _ & _ & Hdata & Hex & _);
    [first [lia | reflexivity | by vm_compute] .. |].
  destruct Hex as (-> & _ & _); [done .. |]. rewrite Hdata. by vm_compute.
Defined.

(** * Further properties of the code *)

(** ** The planner *)

Lemma overridden_none (text : string) (plan : dict) (j : string) :
  _parse_doctype text = None ->
  overridden text None None None None plan j = plan !! j.
Proof.
  intros Hd. unfold overridden. rewrite Hd.
  by_key "doctype"; by_key "field_level"; by_key "field_score_min"; by_key "top_k";
    by_key "compare"; by_key "year_from"; by_key "year_to";
    by_key "compare_year_from"; by_key "compare_year_to".
Qed.

(** A run of the planner on a text without overrides. *)
Lemma planner_run_plain (interp : dict) (text : string) (prev_plan : option dict) :
  no_override text ->
  exists plan1 P,
    (forall j, plan1 !! j = inherited interp prev_plan j) /\
    planner interp text prev_plan = Ok P /\
    (forall j, P !! j = normal (fill_defaults plan1) j).
Proof.
  intros (Ec & Et & Es & El & Ed).
  destruct (planner_run interp text prev_plan)
    as (plan1 & cmp & tk & fs & fl & plan2 & P & L1 & Hc & Ht & Hs & Hl & L2 & HP & HL).
  rewrite Ec in Hc. rewrite Et in Ht. rewrite Es in Hs. rewrite El in Hl.
  injection Hc as <-. injection Ht as <-. injection Hs as <-. injection Hl as <-.
  assert (E : plan2 = fill_defaults plan1).
  { apply map_eq. intros j. rewrite L2. by apply overridden_none. }
  subst plan2. exists plan1, P. done.
Qed.

Lemma planner_never_fails (interp : dict) (text : string) (prev_plan : option dict) :
  exists P, planner interp text prev_plan = Ok P.
Proof.
  destruct (planner_run interp text prev_plan)
    as (_ & _ & _ & _ & _ & _ & P & _ & _ & _ & _ & _ & _ & HP & _).
  by exists P.
Qed.

Lemma not_plan_key (j : string) :
  j ∉ plan_keys ->
  j <> "chart_type" /\ j ∉ inherit_keys.
Proof. intros H. by apply not_elem_of_cons in H. Qed.

Ltac not_key Hk k :=
  cbn [pick];
  lazymatch goal with
  | |- context [String.eqb ?j k] =>
      destruct (String.eqb_spec j k) as [->|_];
      [exfalso; apply (Hk k); [simpl; tauto | reflexivity] |]
  end.

Lemma normal_other (plan : dict) (j : string) :
  j ∉ plan_keys -> normal plan j = plan !! j.
Proof.
  intros Hj. unfold normal. destruct (resolve_compare _ _ _) as [[c f] t].
  assert (Hk : forall k, In k plan_keys -> j <> k).
  { intros k Hk ->. by apply Hj, list_elem_of_In. }
  not_key Hk "compare".
  not_key Hk "compare_year_from".
  not_key Hk "compare_year_to".
  not_key Hk "mark".
  not_key Hk "year_from".
  not_key Hk "year_to".
  not_key Hk "field_level".
  not_key Hk "field_score_min".
  not_key Hk "top_k".
  not_key Hk "doctype".
  not_key Hk "color". done.
Qed.

Lemma overridden_other (text : string) cmp tk fs fl (plan : dict) (j : string) :
  j ∉ plan_keys -> overridden text cmp tk fs fl plan j = plan !! j.
Proof.
  intros Hj. unfold overridden.
  assert (Hk : forall k, In k plan_keys -> j <> k).
  { intros k Hk ->. by apply Hj, list_elem_of_In. }
  not_key Hk "doctype".
  not_key Hk "field_level".
  not_key Hk "field_score_min".
  not_key Hk "top_k".
  not_key Hk "compare".
  not_key Hk "year_from".
  not_key Hk "year_to".
  not_key Hk "compare_year_from".
  not_key Hk "compare_year_to". done.
Qed.

Lemma inherited_other (interp : dict) (prev_plan : option dict) (j : string) :
  j ∉ plan_keys -> inherited interp prev_plan j = interp !! j.
Proof.
  intros Hj. apply not_plan_key in Hj as [Hne Hj]. unfold inherited.
  assert (ensure_chart_type prev_plan interp !! j = interp !! j) as ->.
  { rewrite lookup_ensure_chart_type. cbn [pick].
    by destruct (String.eqb_spec j "chart_type"). }
  destruct (truthy_dict prev_plan); [|done].
  by rewrite bool_decide_eq_false_2.
Qed.

(** X1. The planner neither drops nor alters a key outside the twelve
    fields of a plan, and copies no such key from the previous plan. *)
Theorem planner_keeps_unknown_keys (interp : dict) (user_text : string)
    (prev_plan : option dict) :
  exists P, planner interp user_text prev_plan = Ok P /\
    forall j, j ∉ plan_keys -> P !! j = interp !! j.
Proof.
  destruct (planner_run interp user_text prev_plan)
    as (plan1 & cmp & tk & fs & fl & plan2 & P & L1 & _ & _ & _ & _ & L2 & HP & HL).
  exists P. split; [done|]. intros j Hj.
  rewrite HL, normal_other, L2, overridden_other by done.
  rewrite fill_defaults_other by (by apply not_plan_key in Hj as [_ ?]).
  by rewrite L1, inherited_other.
Qed.

Lemma needs_digit_matched (r : regex) :
  needs_digit r = true ->
  forall w, matched r w -> Exists (fun c => Char.is_digit c = true) w.
Proof.
  induction r as [s | r1 IH1 r2 IH2 | r1 IH1 r2 IH2 | p lo hi g | r IH | | i r IH];
    simpl; intros Hn w Hw; try done.
  - destruct Hw as (w1 & w2 & -> & H1 & H2). apply Exists_app.
    apply orb_true_iff in Hn as [Hn|Hn]; [left | right]; eauto.
  - apply andb_true_iff in Hn as [Hn1 Hn2]. destruct Hw; eauto.
  - destruct p; try done. destruct lo as [|lo]; [done|].
    destruct Hw as (Hd & Hlo & _). destruct w as [|c w]; [simpl in Hlo; lia|].
    apply Exists_cons_hd. by inversion Hd.
  - eauto.
Qed.

Lemma search_at_text (r : regex) (s : chars) :
  forall pv m, search_at r pv s = Some m ->
  exists pre w, s = pre ++ w ++ rest m /\ matched r w.
Proof.
  induction s as [|c s IH]; intros pv m H; cbn [search_at] in H.
  - destruct (run r _ _) as [y|] eqn:E; [|done]. injection H as ->.
    apply run_sound in E as (w & st' & [= ->] & S).
    exists [], w. split; [apply (steps_rest _ _ _ _ S) | apply S].
  - destruct (run r _ _) as [y|] eqn:E.
    + injection H as ->. apply run_sound in E as (w & st' & [= ->] & S).
      exists [], w. split; [apply (steps_rest _ _ _ _ S) | apply S].
    + apply IH in H as (pre & w & -> & Hw). by exists (c :: pre), w.
Qed.

Lemma search_no_digit (r : regex) (text : string) :
  needs_digit r = true -> no_digit text -> search r (py_lower text) = None.
Proof.
  intros Hn Hd. destruct (search r (py_lower text)) as [m|] eqn:E; [|done].
  apply search_at_text in E as (pre & w & Ht & Hw).
  apply (needs_digit_matched r Hn) in Hw. apply Exists_exists in Hw as (c & Hc & Hdc).
  assert (Hall : Forall (fun c => Char.is_digit c = false) (py_lower text)).
  { unfold py_lower. apply Forall_map. eapply Forall_impl; [exact Hd|].
    intros a Ha. simpl. by rewrite is_digit_lower. }
  rewrite Ht in Hall. apply Forall_app in Hall as [_ Hall].
  apply Forall_app in Hall as [Hall _]. rewrite Forall_forall in Hall.
  specialize (Hall c Hc). congruence.
Qed.

(** X2. A text without a decimal digit triggers none of the four numeric
    overrides: neither the compare ranges nor top_k, the score
    threshold or the field level. *)
Theorem no_digit_no_numeric_override (text : string) :
  no_digit text ->
  _parse_compare_ranges text = Ok None /\ _parse_top_k text = Ok None /\
  _parse_field_score_min text = Ok None /\ _parse_field_level text = Ok None.
Proof.
  intros Hd.
  unfold _parse_compare_ranges, _parse_top_k, _parse_field_score_min, _parse_field_level.
  by rewrite !search_no_digit by done.
Qed.

Lemma no_digit_no_numeric_override_witness :
  no_digit "make it a Line chart, in crimson" /\
  _parse_compare_ranges "make it a Line chart, in crimson" = Ok None /\
  _parse_top_k "make it a Line chart, in crimson" = Ok None /\
  _parse_field_score_min "make it a Line chart, in crimson" = Ok None /\
  _parse_field_level "make it a Line chart, in crimson" = Ok None.
Proof.
  assert (H : no_digit "make it a Line chart, in crimson").
  { unfold no_digit. simpl. repeat constructor. }
  split; [exact H|]. exact (no_digit_no_numeric_override _ H).
Defined.

Lemma find_none_iff {A} (f : A -> bool) (l : list A) :
  find f l = None <-> forall x, x ∈ l -> f x = false.
Proof.
  induction l as [|y l IH]; simpl.
  - split; [intros _ x Hx; by apply elem_of_nil in Hx | done].
  - destruct (f y) eqn:E.
    + split; [done|]. intros H. rewrite (H y) in E by apply list_elem_of_here. done.
    + rewrite IH. split.
      * intros H x [->|Hx]%elem_of_cons; auto.
      * intros H x Hx. apply H. by apply list_elem_of_further.
Qed.

(** X3. The doctype matcher returns a word of its vocabulary that the text
    mentions as a whole word, and returns nothing exactly when the text
    mentions none of them. *)
Theorem parse_doctype_sound_complete (text : string) :
  (forall k, _parse_doctype text = Some k -> k ∈ doctype_words /\ contains_word k text) /\
  (_parse_doctype text = None <-> forall k, k ∈ doctype_words -> ~ contains_word k text).
Proof.
  unfold _parse_doctype. split.
  - intros k Hk. apply find_some in Hk as [Hin Hk]. apply list_elem_of_In in Hin.
    split; [done|]. apply bool_decide_eq_true_1 in Hk.
    apply search_word in Hk; [done|]. by apply doctype_words_proper.
  - rewrite find_none_iff. split; intros H k Hk.
    + specialize (H k Hk). apply bool_decide_eq_false_1 in H.
      intros Hc. apply H. apply search_word; [|done]. by apply doctype_words_proper.
    + apply bool_decide_eq_false_2. rewrite search_word by (by apply doctype_words_proper).
      by apply H.
Qed.

(** The pre-normalisation value of an inherited field that the
    interpreted object sets to a non-null value. *)
Lemma inherited_set (interp : dict) (prev_plan : option dict) (k : string) (v : value) :
  k ∈ inherit_keys -> interp !! k = Some v -> v <> JNull ->
  inherited interp prev_plan k = Some v.
Proof.
  intros Hk Hv Hne. unfold inherited.
  assert (ensure_chart_type prev_plan interp !! k = Some v) as ->.
  { rewrite lookup_ensure_chart_type. cbn [pick].
    destruct (String.eqb_spec k "chart_type") as [->|_]; [|done].
    by apply chart_type_not_inherited in Hk. }
  destruct (truthy_dict prev_plan); [|done].
  rewrite bool_decide_eq_true_2 by done. by destruct v.
Qed.

Lemma is_mark_cases (v : value) :
  is_mark v = true -> v = JStr "bar" \/ v = JStr "line" \/ v = JStr "area".
Proof.
  destruct v as [| | | |s| |]; try done. unfold is_mark, py_eq_str.
  destruct (String.eqb_spec s "bar") as [->|_]; [auto|].
  destruct (String.eqb_spec s "line") as [->|_]; [auto|].
  destruct (String.eqb_spec s "area") as [->|_]; [auto | done].
Qed.

Lemma mark_is_inherit_key : "mark" ∈ inherit_keys.
Proof. apply list_elem_of_In. simpl. tauto. Qed.

(** X4. An interpreted mark that is not null decides the resolved mark,
    whatever the previous plan and the text say: it is kept when it is
    one of the three tokens and replaced by ["bar"] otherwise, so a bad
    interpreted mark is not repaired from a previous plan's mark. *)
Theorem planner_interpreted_mark (interp : dict) (user_text : string)
    (prev_plan : option dict) (v : value) :
  interp !! "mark" = Some v -> v <> JNull ->
  exists P, planner interp user_text prev_plan = Ok P /\
    P !! "mark" = Some (if is_mark v then v else JStr "bar").
Proof.
  intros Hv Hne.
  destruct (planner_run interp user_text prev_plan)
    as (plan1 & cmp & tk & fs & fl & plan2 & P & L1 & _ & _ & _ & _ & L2 & HP & HL).
  exists P. split; [done|]. rewrite HL. unfold normal.
  destruct (resolve_compare _ _ _) as [[c f] t]. key_eval.
  assert (py_get plan2 "mark" = v) as ->; [|done].
  unfold py_get. rewrite L2. unfold overridden. key_eval.
  erewrite fill_defaults_keeps; [done|].
  rewrite L1. by apply inherited_set; [apply mark_is_inherit_key | |].
Qed.

Lemma planner_interpreted_mark_witness :
  exists P, planner {[ "mark" := JStr "pie" ]} "as a pie chart"
              (Some {[ "chart_type" := JStr "papers_by_year"; "mark" := JStr "line" ]}) = Ok P /\
    P !! "mark" = Some (JStr "bar").
Proof.
  apply (planner_interpreted_mark {[ "mark" := JStr "pie" ]} "as a pie chart"
           (Some {[ "chart_type" := JStr "papers_by_year"; "mark" := JStr "line" ]})
           (JStr "pie")); [reflexivity | discriminate].
Defined.

Lemma chart_type_run (interp : dict) (user_text : string) (prev_plan : option dict) (P : dict) :
  planner interp user_text prev_plan = Ok P ->
  P !! "chart_type" = Some (chart_type_of interp prev_plan).
Proof.
  destruct (planner_run interp user_text prev_plan)
    as (plan1 & cmp & tk & fs & fl & plan2 & P' & L1 & _ & _ & _ & _ & L2 & HP & HL).
  rewrite HP. intros [= <-].
  rewrite HL. unfold normal. destruct (resolve_compare _ _ _) as [[c f] t]. key_eval.
  rewrite L2. unfold overridden. key_eval.
  rewrite fill_defaults_other by apply chart_type_not_inherited.
  rewrite L1. unfold inherited.
  assert (ensure_chart_type prev_plan interp !! "chart_type" =
          Some (chart_type_of interp prev_plan)) as ->.
  { rewrite lookup_ensure_chart_type. key_eval. unfold chart_type_of, py_get.
    destruct (interp !! "chart_type") as [x|]; simpl.
    - destruct (py_bool x); [done|]. f_equal.
      destruct prev_plan as [p|]; [|done]. simpl.
      destruct (decide (p = ∅)) as [->|Hp]; [done|].
      destruct (Nat.eqb_spec (size p) 0) as [E|_]; [|done].
      by apply map_size_empty_iff in E.
    - f_equal. destruct prev_plan as [p|]; [|done]. simpl.
      destruct (decide (p = ∅)) as [->|Hp]; [done|].
      destruct (Nat.eqb_spec (size p) 0) as [E|_]; [|done].
      by apply map_size_empty_iff in E. }
  destruct (truthy_dict prev_plan); [|done].
  by rewrite bool_decide_eq_false_2 by apply chart_type_not_inherited.
Qed.

(** X5. The planner does not validate the chart type. A true-ish interpreted
    value is kept as it is; otherwise the value is the previous plan's
    (null when a non-empty previous plan has none), and
    ["papers_by_year"] when the previous plan is absent or empty. *)
Theorem planner_chart_type (interp : dict) (user_text : string) (prev_plan : option dict) :
  exists P, planner interp user_text prev_plan = Ok P /\
    P !! "chart_type" =
      Some (if py_bool (py_get interp "chart_type") then py_get interp "chart_type"
            else match prev_plan with
                 | Some p => if decide (p = ∅) then JStr "papers_by_year"
                             else py_get p "chart_type"
                 | None => JStr "papers_by_year"
                 end).
Proof.
  destruct (planner_never_fails interp user_text prev_plan) as [P HP].
  exists P. split; [done|]. by apply (chart_type_run _ user_text).
Qed.

Lemma fill_defaults_lookup (plan : dict) (j : string) :
  fill_defaults plan !! j =
  match plan !! j with
  | Some x => Some x
  | None => pick j [("year_from", Some (JInt 2020)); ("year_to", Some (JInt 2024));
                    ("doctype", Some JNull); ("field_level", Some (JInt 1));
                    ("field_score_min", Some (JFloat default_score));
                    ("top_k", Some (JInt 25)); ("color", Some JNull);
                    ("mark", Some (JStr "bar")); ("compare", Some (JBool false));
                    ("compare_year_from", Some JNull); ("compare_year_to", Some JNull)] None
  end.
Proof.
  unfold fill_defaults. cbn zeta. rewrite !lookup_setdefault.
  destruct (plan !! j); [done|].
  by_key "year_from"; by_key "year_to"; by_key "doctype"; by_key "field_level";
    by_key "field_score_min"; by_key "top_k"; by_key "color"; by_key "mark";
    by_key "compare"; by_key "compare_year_from"; by_key "compare_year_to".
Qed.

Lemma truthy_no_prev (prev_plan : option dict) : no_prev prev_plan -> truthy_dict prev_plan = None.
Proof. by intros [-> | ->]. Qed.

Lemma resolve_compare_null_from (c t : value) :
  resolve_compare c JNull t = (JBool false, JNull, JNull).
Proof. unfold resolve_compare. by destruct (py_bool c). Qed.

Lemma resolve_compare_null_to (c f : value) :
  resolve_compare c f JNull = (JBool false, JNull, JNull).
Proof.
  unfold resolve_compare.
  by destruct (py_bool c), (is_none (_to_int f JNull)).
Qed.

Lemma resolve_compare_false (c f t : value) :
  py_bool c = false -> resolve_compare c f t = (JBool false, JNull, JNull).
Proof. intros H. unfold resolve_compare. by rewrite H. Qed.

(** A field that the interpreted object leaves unset, in a request
    without previous plan and without override in the text. *)
Lemma unset_fill (interp : dict) (prev_plan : option dict) (plan1 : dict) (k : string) :
  (forall j, plan1 !! j = inherited interp prev_plan j) ->
  no_prev prev_plan -> unset interp k -> k ∈ inherit_keys ->
  fill_defaults plan1 !! k = Some JNull \/
  fill_defaults plan1 !! k =
    pick k [("year_from", Some (JInt 2020)); ("year_to", Some (JInt 2024));
            ("doctype", Some JNull); ("field_level", Some (JInt 1));
            ("field_score_min", Some (JFloat default_score));
            ("top_k", Some (JInt 25)); ("color", Some JNull);
            ("mark", Some (JStr "bar")); ("compare", Some (JBool false));
            ("compare_year_from", Some JNull); ("compare_year_to", Some JNull)] None.
Proof.
  intros L1 Hp Hu Hk. rewrite fill_defaults_lookup, L1. unfold inherited.
  rewrite (truthy_no_prev _ Hp), lookup_ensure_chart_type. cbn [pick].
  destruct (String.eqb_spec k "chart_type") as [->|_];
    [by apply chart_type_not_inherited in Hk|].
  destruct Hu as [-> | ->]; auto.
Qed.

(** X6. With no previous plan (absent or empty) and no override in the
    text, every field that the interpreted object leaves out or sets to
    null gets its default. *)
Theorem planner_defaults (interp : dict) (user_text : string) (prev_plan : option dict)
    (k : string) (v : value) :
  no_prev prev_plan -> no_override user_text -> unset interp k ->
  (k, v) ∈ default_plan ->
  exists P, planner interp user_text prev_plan = Ok P /\ P !! k = Some v.
Proof.
  intros Hp Ho Hu Hin.
  destruct (planner_run_plain interp user_text prev_plan Ho) as (plan1 & P & L1 & HP & HL).
  exists P. split; [done|].
  unfold default_plan in Hin. rewrite !elem_of_cons, elem_of_nil in Hin.
  destruct Hin as [Hin|Hin].
  { injection Hin as -> ->. rewrite (chart_type_run _ _ _ _ HP). unfold chart_type_of, py_get.
    f_equal. destruct Hu as [-> | ->]; simpl; by destruct Hp as [-> | ->]. }
  assert (Hk : k ∈ inherit_keys).
  { unfold inherit_keys. rewrite !elem_of_cons, elem_of_nil.
    repeat destruct Hin as [Hin|Hin]; try done; injection Hin as -> _;
      repeat first [left; reflexivity | right]. }
  pose proof (unset_fill interp prev_plan plan1 k L1 Hp Hu Hk) as Hf.
  rewrite HL. unfold normal.
  repeat destruct Hin as [Hin|Hin]; try done; injection Hin as -> ->;
    key_eval_in Hf;
    (destruct Hf as [Hf | Hf];
     [assert (Hg : py_get (fill_defaults plan1) _ = JNull) by (unfold py_get; by rewrite Hf)
     |match type of Hf with
      | _ !! ?k = Some ?x =>
          assert (Hg : py_get (fill_defaults plan1) k = x) by (unfold py_get; by rewrite Hf)
      end]);
    rewrite ?Hg;
    rewrite ?resolve_compare_null_from, ?resolve_compare_null_to,
      ?resolve_compare_false by done;
    try (destruct (resolve_compare _ _ _) as [[c f] t]); key_eval;
    rewrite ?Hf; done.
Qed.
Lemma planner_defaults_witness :
  exists P, planner {[ "mark" := JStr "line"; "top_k" := JNull ]} "show the trend" (Some ∅) = Ok P /\
    P !! "top_k" = Some (JInt 25).
Proof.
  apply (planner_defaults {[ "mark" := JStr "line"; "top_k" := JNull ]} "show the trend"
           (Some ∅) "top_k" (JInt 25)).
  - by right.
  - repeat split; by vm_compute.
  - right. by vm_compute.
  - unfold default_plan. rewrite !elem_of_cons. do 6 right. by left.
Defined.

(** X7. An interpreted value of an integer field, when the text has no
    override, is read with [int()]; a value that cannot be read falls
    back to the field's default, not to the previous plan's value. *)
Theorem planner_interpreted_int (interp : dict) (user_text : string)
    (prev_plan : option dict) (k : string) (d : Z) (v : value) :
  no_override user_text -> (k, d) ∈ int_fields ->
  interp !! k = Some v -> v <> JNull ->
  exists P, planner interp user_text prev_plan = Ok P /\
    P !! k = Some (_to_int v (JInt d)).
Proof.
  intros Ho Hin Hv Hne.
  destruct (planner_run_plain interp user_text prev_plan Ho) as (plan1 & P & L1 & HP & HL).
  exists P. split; [done|].
  assert (Hk : k ∈ inherit_keys).
  { unfold int_fields in Hin. unfold inherit_keys.
    rewrite !elem_of_cons, elem_of_nil in Hin. rewrite !elem_of_cons.
    repeat destruct Hin as [Hin|Hin]; try done; injection Hin as -> _;
      repeat first [left; reflexivity | right]. }
  assert (Hg : py_get (fill_defaults plan1) k = v).
  { unfold py_get. erewrite fill_defaults_keeps; [done|].
    rewrite L1. by apply inherited_set. }
  rewrite HL. unfold normal. destruct (resolve_compare _ _ _) as [[c f] t].
  unfold int_fields in Hin. rewrite !elem_of_cons, elem_of_nil in Hin.
  repeat destruct Hin as [Hin|Hin]; try done; injection Hin as -> ->;
    key_eval; by rewrite Hg.
Qed.

Lemma planner_interpreted_int_witness :
  exists P, planner {[ "top_k" := JStr "many" ]} "show more fields"
              (Some {[ "chart_type" := JStr "papers_by_field"; "top_k" := JInt 50 ]}) = Ok P /\
    P !! "top_k" = Some (JInt 25).
Proof.
  apply (planner_interpreted_int {[ "top_k" := JStr "many" ]} "show more fields"
           (Some {[ "chart_type" := JStr "papers_by_field"; "top_k" := JInt 50 ]})
           "top_k" 25 (JStr "many")).
  - repeat split; by vm_compute.
  - unfold int_fields. rewrite !elem_of_cons. do 3 right. by left.
  - by vm_compute.
  - discriminate.
Defined.

(** ** Follow-up requests *)

Lemma normal_style_indep (Q : dict) (m c : value) (k : string) :
  k ∉ style_keys ->
  normal (<["mark" := m]> (<["color" := c]> Q)) k = normal Q k.
Proof.
  intros Hk. unfold normal. rewrite ?py_get_insert. key_eval.
  destruct (resolve_compare _ _ _) as [[cc f] t].
  assert (Hs : forall s, In s style_keys -> k <> s).
  { intros s Hs ->. by apply Hk, list_elem_of_In. }
  by_key "compare"; by_key "compare_year_from"; by_key "compare_year_to".
  not_key Hs "mark".
  by_key "year_from"; by_key "year_to"; by_key "field_level";
    by_key "field_score_min"; by_key "top_k".
  cbn [pick]. destruct (String.eqb_spec k "doctype") as [->|_].
  { rewrite !lookup_insert_eqb. by key_eval. }
  not_key Hs "color". rewrite !lookup_insert_eqb.
  - destruct (String.eqb_spec k "mark") as [->|_];
      [exfalso; apply (Hs "mark"); [simpl; tauto | reflexivity]|].
    destruct (String.eqb_spec k "color") as [->|_];
      [exfalso; apply (Hs "color"); [simpl; tauto | reflexivity]|].
    done.
Qed.

Lemma resolved_nonempty (P : dict) : resolved P -> truthy_dict (Some P) = Some P.
Proof.
  intros HR. unfold truthy_dict. destruct (Nat.eqb_spec (size P) 0) as [E|]; [|done].
  apply map_size_empty_iff in E. subst P.
  destruct (res_chart_type _ HR) as [? E]. by rewrite lookup_empty in E.
Qed.

(** What a follow-up request inherits from a resolved plan: every field
    that the interpreted object leaves unset. *)
Lemma inherited_unset (P interp : dict) (k : string) :
  resolved P -> k ∈ plan_keys -> unset interp k ->
  inherited interp (Some P) k = P !! k.
Proof.
  intros HR Hk Hu. unfold inherited. rewrite (resolved_nonempty P HR).
  rewrite lookup_ensure_chart_type, (resolved_nonempty P HR).
  destruct (resolved_present P k HR Hk) as [v Hv].
  apply elem_of_cons in Hk as [-> | Hk].
  - rewrite bool_decide_eq_false_2 by apply chart_type_not_inherited. key_eval.
    unfold py_get. rewrite Hv. by destruct Hu as [-> | ->].
  - rewrite bool_decide_eq_true_2 by done. cbn [pick].
    destruct (String.eqb_spec k "chart_type") as [->|_];
      [by apply chart_type_not_inherited in Hk|].
    unfold inherit, py_get. rewrite Hv. by destruct Hu as [-> | ->].
Qed.

Lemma follow_up (P interp : dict) (text : string) :
  resolved P -> no_override text ->
  (forall k, k ∈ plan_keys -> k ∉ style_keys -> unset interp k) ->
  exists P', planner interp text (Some P) = Ok P' /\
    forall k, k ∈ plan_keys -> k ∉ style_keys -> P' !! k = P !! k.
Proof.
  intros HR Ho Hu.
  destruct (planner_run_plain interp text (Some P) Ho) as (plan1 & P' & L1 & HP & HL).
  exists P'. split; [done|]. intros k Hk Hs.
  destruct (res_mark _ HR) as (m & Hm & _). destruct (res_color _ HR) as (c & Hc & _).
  set (Q := fill_defaults plan1).
  assert (HQ : forall j, j ∈ plan_keys ->
                 (<["mark" := m]> (<["color" := c]> Q)) !! j = P !! j).
  { intros j Hj. rewrite !lookup_insert_eqb.
    destruct (String.eqb_spec j "mark") as [->|Hnm]; [done|].
    destruct (String.eqb_spec j "color") as [->|Hnc]; [done|].
    destruct (resolved_present P j HR Hj) as [v Hv]. rewrite Hv.
    apply fill_defaults_keeps. rewrite L1, <- Hv. apply inherited_unset; [done..|].
    apply Hu; [done|]. unfold style_keys. rewrite !elem_of_cons, elem_of_nil. tauto. }
  rewrite HL. fold Q. rewrite <- (normal_style_indep Q m c k Hs).
  rewrite normal_fixed by (by apply (resolved_ext P)). by apply HQ.
Qed.

(** X8. A follow-up request that only restyles the chart keeps the data
    fields of the plan it follows: when the text carries no override and
    the interpreted object sets nothing but [mark] and [color], the ten
    other fields of the new plan are those of the previous plan. *)
Theorem restyle_keeps_data_fields (interp0 : dict) (text0 : string) (prev0 : option dict)
    (interp : dict) (user_text : string) :
  no_override user_text ->
  (forall k, k ∈ plan_keys -> k ∉ style_keys -> unset interp k) ->
  exists P P',
    planner interp0 text0 prev0 = Ok P /\
    planner interp user_text (Some P) = Ok P' /\
    forall k, k ∈ plan_keys -> k ∉ style_keys -> P' !! k = P !! k.
Proof.
  intros Ho Hu.
  destruct (planner_never_fails interp0 text0 prev0) as [P HP].
  destruct (follow_up P interp user_text (planner_resolved _ _ _ _ HP) Ho Hu) as (P' & ? & ?).
  by exists P, P'.
Qed.

Lemma restyle_keeps_data_fields_witness :
  exists P P',
    planner {[ "top_k" := JStr "7" ]}
      "compare 2019-2020 vs 2021-2022 for journal articles" None = Ok P /\
    planner {[ "mark" := JStr "line"; "color" := JStr "crimson" ]}
      "make it a line chart, in crimson" (Some P) = Ok P' /\
    forall k, k ∈ plan_keys -> k ∉ style_keys -> P' !! k = P !! k.
Proof.
  apply (restyle_keeps_data_fields {[ "top_k" := JStr "7" ]}
           "compare 2019-2020 vs 2021-2022 for journal articles" None
           {[ "mark" := JStr "line"; "color" := JStr "crimson" ]}
           "make it a line chart, in crimson").
  - repeat split; by vm_compute.
  - intros k Hk Hs. left. unfold plan_keys, inherit_keys in Hk.
    unfold style_keys in Hs. rewrite !elem_of_cons in Hk. rewrite !elem_of_cons in Hs.
    repeat destruct Hk as [-> | Hk]; try (by apply elem_of_nil in Hk);
      try (by vm_compute); exfalso; apply Hs; auto.
Defined.

(** ** The filter overrides *)

(** X9. A field level written in the text is the resolved field level,
    whatever was interpreted or inherited; it has at most two digits. *)
Theorem field_level_override_wins (interp : dict) (user_text : string)
    (prev_plan : option dict) (n : Z) :
  _parse_field_level user_text = Ok (Some n) ->
  exists P, planner interp user_text prev_plan = Ok P /\
    P !! "field_level" = Some (JInt n) /\ 0 <= n < 100.
Proof.
  intros Hn.
  destruct (planner_run interp user_text prev_plan)
    as (plan1 & cmp & tk & fs & fl & plan2 & P & _ & _ & _ & _ & Hl & L2 & HP & HL).
  rewrite Hn in Hl. injection Hl as <-.
  exists P. split; [done|]. split.
  - rewrite HL. unfold normal. destruct (resolve_compare _ _ _) as [[c f] t]. key_eval.
    assert (py_get plan2 "field_level" = JInt n) as ->; [|done].
    unfold py_get. rewrite L2. unfold overridden. by key_eval.
  - destruct (_parse_field_level_ok user_text) as [E | (n' & E & Hn')]; congruence.
Qed.

Lemma field_level_override_wins_witness :
  exists P, planner {[ "field_level" := JInt 0 ]} "top fields at Level = 2"
              (Some {[ "chart_type" := JStr "papers_by_field"; "field_level" := JInt 1 ]}) = Ok P /\
    P !! "field_level" = Some (JInt 2) /\ 0 <= 2 < 100.
Proof.
  apply (field_level_override_wins {[ "field_level" := JInt 0 ]} "top fields at Level = 2"
           (Some {[ "chart_type" := JStr "papers_by_field"; "field_level" := JInt 1 ]}) 2).
  by vm_compute.
Defined.

(** X10. A score threshold written in the text is the resolved threshold,
    whatever was interpreted or inherited. *)
Theorem field_score_override_wins (interp : dict) (user_text : string)
    (prev_plan : option dict) (x : spec_float) :
  _parse_field_score_min user_text = Ok (Some x) ->
  exists P, planner interp user_text prev_plan = Ok P /\
    P !! "field_score_min" = Some (JFloat x).
Proof.
  intros Hx.
  destruct (planner_run interp user_text prev_plan)
    as (plan1 & cmp & tk & fs & fl & plan2 & P & _ & _ & _ & Hs & _ & L2 & HP & HL).
  rewrite Hx in Hs. injection Hs as <-.
  exists P. split; [done|].
  rewrite HL. unfold normal. destruct (resolve_compare _ _ _) as [[c f] t]. key_eval.
  assert (py_get plan2 "field_score_min" = JFloat x) as ->; [|done].
  unfold py_get. rewrite L2. unfold overridden. by key_eval.
Qed.

Lemma field_score_override_wins_witness :
  exists P, planner {[ "field_score_min" := JFloat default_score ]} "with threshold: 0.5"
              None = Ok P /\
    P !! "field_score_min" = Some (JFloat (S754_finite false 4503599627370496 (-53))).
Proof.
  apply (field_score_override_wins {[ "field_score_min" := JFloat default_score ]}
           "with threshold: 0.5" None (S754_finite false 4503599627370496 (-53))).
  by vm_compute.
Defined.

(** ** The pipeline *)

(** What the aggregator reads from a resolved plan. *)
Lemma resolved_reads (P : dict) :
  resolved P ->
  exists ct yf yt lv sc tk,
    P !! "chart_type" = Some ct /\
    py_int (py_get_default P "year_from" (JInt 2020)) = Ok yf /\
    py_int (py_get_default P "year_to" (JInt 2024)) = Ok yt /\
    py_int (py_get_default P "field_level" (JInt 1)) = Ok lv /\
    py_float (py_get_default P "field_score_min" (JFloat default_score)) = Ok sc /\
    py_int (py_get_default P "top_k" (JInt 25)) = Ok tk /\
    (py_bool (py_get_default P "compare" (JBool false)) = true ->
     exists cf cto, py_int (py_get P "compare_year_from") = Ok cf /\
                    py_int (py_get P "compare_year_to") = Ok cto).
Proof.
  intros [[ct Hc] (yf&Hyf) (yt&Hyt) (lv&Hfl) (tk&Htk) (fs&Hfs) _ _ _ Hcmp].
  exists ct, yf, yt, lv, fs, tk. unfold py_get_default, py_get.
  rewrite Hyf, Hyt, Hfl, Hfs, Htk. repeat (split; [done|]).
  destruct Hcmp as [(-> & a & b & -> & ->) | (-> & _)]; [eauto | done].
Qed.

Lemma viz_agent_supported (ct : value) (plan : dict) (data : list odict) :
  supported ct = true ->
  exists out,
    viz_agent (Payload ct plan data) = Ok out /\
    r_plan out = plan /\ r_data out = data /\
    od_get (spec_mark out) "type"
      = Some (if py_bool (py_get plan "mark") then py_get plan "mark" else JStr "bar") /\
    od_get (vegaLiteSpec out) "data" = Some (JDict [("values", JList (JDict <$> data))]).
Proof.
  unfold supported. intros Hs. unfold viz_agent, or_none. cbn [p_chart_type p_plan p_data].
  destruct (py_eq_str ct "papers_by_year") eqn:E1; [|simpl in Hs; rewrite Hs];
    destruct (py_bool (py_get_default plan "compare" (JBool false)));
    destruct (py_bool (py_get plan "color")) eqn:Eb;
    cbn [negb andb py_bool]; rewrite ?Eb; cbn [negb andb];
    (eexists; split; [reflexivity|]); unfold spec_mark; cbn; done.
Qed.

Section PipelineFacts.

Variable papers_by_year : Z -> Z -> value -> result (list (Z * Z)).
Variable papers_by_field :
  Z -> Z -> Z -> spec_float -> value -> Z -> result (list (string * Z)).
Variable set_iter : gset string -> list string.

Lemma raises_year (a b : Z) (d : value) (e : exn) :
  papers_by_year a b d = Raise e -> backend_raises papers_by_year papers_by_field e.
Proof. intros H. left. eauto. Qed.

Lemma raises_field (a b l : Z) (s : spec_float) (d : value) (k : Z) (e : exn) :
  papers_by_field a b l s d k = Raise e -> backend_raises papers_by_year papers_by_field e.
Proof. intros H. right. eauto 8. Qed.

(** The aggregator on a resolved plan: it returns the plan and its chart
    type with the rows, or raises for an unsupported chart type, or
    passes on what a query raised. *)
Lemma data_agent_resolved (P : dict) (ct : value) :
  resolved P -> P !! "chart_type" = Some ct ->
  match data_agent papers_by_year papers_by_field set_iter P with
  | Ok pl => supported ct = true /\ p_chart_type pl = ct /\ p_plan pl = P
  | Raise e => (supported ct = false /\ e = unsupported_chart_type ct) \/
               backend_raises papers_by_year papers_by_field e
  end.
Proof.
  intros HR Hct.
  destruct (resolved_reads P HR) as (ct' & yf & yt & lv & sc & tk & Hct' & Hyf & Hyt & Hlv & Hsc
                                     & Htk & Hcmp).
  rewrite Hct in Hct'. injection Hct' as <-.
  unfold data_agent, py_getitem, supported, _year_rows, _field_rows.
  rewrite Hct. cbn [mbind result_bind]. rewrite Hyf, Hyt. cbn [mbind result_bind].
  destruct (py_eq_str ct "papers_by_year") eqn:E1; cbn [orb].
  - destruct (py_bool (py_get_default P "compare" (JBool false))) eqn:Ec; cbn [negb].
    + destruct (Hcmp eq_refl) as (cf & cto & -> & ->).
      destruct (papers_by_year yf yt _) eqn:Ea; cbn [mbind result_bind];
        [|right; by eapply raises_year].
      destruct (papers_by_year cf cto _) eqn:Eb; cbn [mbind result_bind];
        [done | right; by eapply raises_year].
    + destruct (papers_by_year yf yt _) eqn:Ea; cbn [mbind result_bind];
        [done | right; by eapply raises_year].
  - destruct (py_eq_str ct "papers_by_field") eqn:E2; [|by left].
    rewrite Hlv, Hsc, Htk. cbn [mbind result_bind].
    destruct (py_bool (py_get_default P "compare" (JBool false))) eqn:Ec; cbn [negb].
    + destruct (Hcmp eq_refl) as (cf & cto & -> & ->).
      destruct (papers_by_field yf yt _ _ _ _) eqn:Ea; cbn [mbind result_bind];
        [|right; by eapply raises_field].
      destruct (papers_by_field cf cto _ _ _ _) eqn:Eb; cbn [mbind result_bind];
        [done | right; by eapply raises_field].
    + destruct (papers_by_field yf yt _ _ _ _) eqn:Ea; cbn [mbind result_bind];
        [done | right; by eapply raises_field].
Qed.

(** One run of the pipeline. *)
Lemma pipeline_run (interp : dict) (user_text : string) (prev_plan : option dict) :
  let ct := chart_type_of interp prev_plan in
  exists P, planner interp user_text prev_plan = Ok P /\
    match run_multi_agent papers_by_year papers_by_field set_iter interp user_text prev_plan with
    | Ok out =>
        supported ct = true /\ r_plan out = P /\
        od_get (spec_mark out) "type" = P !! "mark" /\
        od_get (vegaLiteSpec out) "data"
          = Some (JDict [("values", JList (JDict <$> r_data out))])
    | Raise e => (supported ct = false /\ e = unsupported_chart_type ct) \/
                 backend_raises papers_by_year papers_by_field e
    end.
Proof.
  intros ct. destruct (planner_never_fails interp user_text prev_plan) as [P HP].
  exists P. split; [done|].
  pose proof (planner_resolved _ _ _ _ HP) as HR.
  pose proof (chart_type_run _ _ _ _ HP) as Hct. fold ct in Hct.
  pose proof (data_agent_resolved P ct HR Hct) as Hd.
  unfold run_multi_agent. rewrite HP. cbn [mbind result_bind].
  destruct (data_agent _ _ _ P) as [[ct' P' data]|e]; cbn [mbind result_bind]; [|done].
  cbn [p_chart_type p_plan] in Hd. destruct Hd as (Hs & -> & ->).
  destruct (viz_agent_supported ct P data Hs) as (out & -> & <- & <- & Hm & Hv).
  split; [done|]. split; [done|]. split; [|done].
  rewrite Hm. destruct (res_mark _ HR) as (m & Hmk & Hok). unfold py_get. rewrite Hmk.
  simpl default. apply is_mark_cases in Hok as [-> | [-> | ->]]; done.
Qed.

(** X11. A chart type that is not one of the two supported values goes
    through the planner untouched and makes the pipeline raise
    [ValueError("Unsupported chart_type: <value>")] with that value,
    before any query is made. *)
Theorem pipeline_unsupported_raises (interp : dict) (user_text : string)
    (prev_plan : option dict) :
  supported (chart_type_of interp prev_plan) = false ->
  run_multi_agent papers_by_year papers_by_field set_iter interp user_text prev_plan
    = Raise (unsupported_chart_type (chart_type_of interp prev_plan)).
Proof.
  intros Hs.
  destruct (planner_never_fails interp user_text prev_plan) as [P HP].
  pose proof (planner_resolved _ _ _ _ HP) as HR.
  pose proof (chart_type_run _ _ _ _ HP) as Hct.
  destruct (resolved_reads P HR) as (ct' & yf & yt & _ & _ & _ & _ & Hyf & Hyt & _).
  unfold run_multi_agent. rewrite HP. cbn [mbind result_bind].
  unfold data_agent, py_getitem. rewrite Hct. cbn [mbind result_bind].
  rewrite Hyf, Hyt. cbn [mbind result_bind].
  unfold supported in Hs. apply orb_false_iff in Hs as [-> ->]. done.
Qed.


(** X13. With queries that always answer and a supported chart type, the
    pipeline returns; the plan in the answer is the resolved plan, the
    mark of the descriptor is the plan's mark and the descriptor's data
    are the rows of the answer. *)
Theorem pipeline_returns (interp : dict) (user_text : string) (prev_plan : option dict) :
  backend_total papers_by_year papers_by_field ->
  supported (chart_type_of interp prev_plan) = true ->
  exists P out,
    planner interp user_text prev_plan = Ok P /\
    run_multi_agent papers_by_year papers_by_field set_iter interp user_text prev_plan = Ok out /\
    r_plan out = P /\
    od_get (spec_mark out) "type" = P !! "mark" /\
    od_get (vegaLiteSpec out) "data" = Some (JDict [("values", JList (JDict <$> r_data out))]).
Proof.
  intros [Hy Hf] Hs. destruct (pipeline_run interp user_text prev_plan) as (P & HP & H).
  exists P.
  destruct (run_multi_agent _ _ _ interp user_text prev_plan) as [out|e].
  - exists out. destruct H as (_ & ? & ? & ?). done.
  - exfalso. destruct H as [[Hn _] | [(a & b & d & E) | (a & b & l & s & d & k & E)]].
    + congruence.
    + destruct (Hy a b d) as [rows Hr]. congruence.
    + destruct (Hf a b l s d k) as [rows Hr]. congruence.
Qed.

End PipelineFacts.

Lemma pipeline_unsupported_raises_witness :
  run_multi_agent (fun _ _ _ => Raise TypeError) (fun _ _ _ _ _ _ => Raise TypeError) elements
    {[ "chart_type" := JStr "pie"; "year_from" := JStr "soon" ]} "a pie of papers" None
  = Raise (ValueError [FLit "Unsupported chart_type: "; FVal (JStr "pie")]).
Proof.
  refine (eq_trans
    (pipeline_unsupported_raises (fun _ _ _ => Raise TypeError)
       (fun _ _ _ _ _ _ => Raise TypeError) elements
       {[ "chart_type" := JStr "pie"; "year_from" := JStr "soon" ]} "a pie of papers" None _) _);
    by vm_compute.
Defined.


Lemma pipeline_returns_witness :
  let by_year := fun (_ _ : Z) (_ : value) => Ok [(2021, 4)] in
  let by_field := fun (_ _ _ : Z) (_ : spec_float) (_ : value) (_ : Z) => Ok [] in
  exists P out,
    planner {[ "mark" := JStr "area" ]} "papers per year as an area chart" None = Ok P /\
    run_multi_agent by_year by_field elements {[ "mark" := JStr "area" ]}
      "papers per year as an area chart" None = Ok out /\
    r_plan out = P /\
    od_get (spec_mark out) "type" = P !! "mark" /\
    od_get (vegaLiteSpec out) "data" = Some (JDict [("values", JList (JDict <$> r_data out))]).
Proof.
  intros by_year by_field.
  apply (pipeline_returns by_year by_field elements {[ "mark" := JStr "area" ]}
           "papers per year as an area chart" None).
  - split; intros; eexists; reflexivity.
  - by vm_compute.
Defined.

(** ** The aggregator's rows *)

Lemma sorted_app_before {A : Type} (R : A -> A -> Prop) (l1 l2 : list A) :
  StronglySorted R (l1 ++ l2) -> forall x y, x ∈ l1 -> y ∈ l2 -> R x y.
Proof.
  induction l1 as [|a l1 IH]; intros Hs x y Hx Hy; [by apply elem_of_nil in Hx|].
  simpl in Hs. apply StronglySorted_inv in Hs as [Hs Ha].
  apply elem_of_cons in Hx as [-> | Hx]; [|by apply IH].
  rewrite Forall_forall in Ha. apply Ha. apply elem_of_app. by right.
Qed.

Lemma with_group_year_row (g : string) (m : gmap Z Z) (y : Z) :
  with_group g (year_row m y) = group_year_row g m y.
Proof. reflexivity. Qed.

Section RowFacts.

Variable papers_by_year : Z -> Z -> value -> result (list (Z * Z)).
Variable papers_by_field :
  Z -> Z -> Z -> spec_float -> value -> Z -> result (list (string * Z)).
Variable set_iter : gset string -> list string.

(** X14. In compare mode a by-year plan gives the rows of window A, for
    every year of the window, and then the rows of window B likewise;
    both windows use the same doctype filter, each row names its group
    first, and a window whose end lies before its start gives no row. *)
Theorem year_compare_rows (plan : dict) (year_from year_to c_from c_to : Z)
    (a_rows b_rows : list (Z * Z)) :
  let doctype := or_none (py_get plan "doctype") in
  plan !! "chart_type" = Some (JStr "papers_by_year") ->
  py_bool (py_get_default plan "compare" (JBool false)) = true ->
  py_int (py_get_default plan "year_from" (JInt 2020)) = Ok year_from ->
  py_int (py_get_default plan "year_to" (JInt 2024)) = Ok year_to ->
  py_int (py_get plan "compare_year_from") = Ok c_from ->
  py_int (py_get plan "compare_year_to") = Ok c_to ->
  papers_by_year year_from year_to doctype = Ok a_rows ->
  papers_by_year c_from c_to doctype = Ok b_rows ->
  exists data,
    data_agent papers_by_year papers_by_field set_iter plan
      = Ok (Payload (JStr "papers_by_year") plan data) /\
    data = (group_year_row "A" (dict_of_rows a_rows) <$> seqZ year_from (year_to - year_from + 1))
        ++ (group_year_row "B" (dict_of_rows b_rows) <$> seqZ c_from (c_to - c_from + 1)) /\
    length data = (Z.to_nat (year_to - year_from + 1) + Z.to_nat (c_to - c_from + 1))%nat.
Proof.
  intros doctype Hct Hcmp Hyf Hyt Hcf Hcto Ha Hb.
  eexists. split; [|split; [reflexivity|]].
  - unfold data_agent, py_getitem, _year_rows. rewrite Hct. cbn [mbind result_bind].
    rewrite Hyf, Hyt. cbn [mbind result_bind py_eq_str]. rewrite Hcmp.
    change (String.eqb "papers_by_year" "papers_by_year") with true. cbn [negb].
    fold doctype. rewrite Ha. cbn [mbind result_bind]. rewrite Hcf, Hcto.
    cbn [mbind result_bind]. rewrite Hb. cbn [mbind result_bind].
    unfold py_range. rewrite <- !list_fmap_compose.
    replace (year_to + 1 - year_from) with (year_to - year_from + 1) by lia.
    replace (c_to + 1 - c_from) with (c_to - c_from + 1) by lia.
    done.
  - rewrite length_app, !length_fmap, !length_seqZ. done.
Qed.

(** X15. In compare mode a by-field plan keeps the best labels of the union
    of the two windows: the kept labels are distinct labels of the
    union, every kept label ranks at least as high, by
    [(count_A + count_B, count_A, count_B)], as every label left out,
    and each group gets one row per kept label.  There are
    [min top_k (number of labels)] of them; a negative [top_k] is not
    rejected but leaves out the last [-top_k] labels of the ranking. *)
Theorem label_compare_keeps_top (plan : dict) (year_from year_to c_from c_to : Z)
    (field_level top_k : Z) (field_score_min : spec_float)
    (a_rows b_rows : list (string * Z)) :
  let doctype := or_none (py_get plan "doctype") in
  let pool := Z.max (top_k * 5) 200 in
  let a_map := dict_of_rows a_rows in
  let b_map := dict_of_rows b_rows in
  let fields := dom a_map ∪ dom b_map in
  let count_A := fun f => default 0 (a_map !! f) in
  let count_B := fun f => default 0 (b_map !! f) in
  plan !! "chart_type" = Some (JStr "papers_by_field") ->
  py_bool (py_get_default plan "compare" (JBool false)) = true ->
  py_int (py_get_default plan "year_from" (JInt 2020)) = Ok year_from ->
  py_int (py_get_default plan "year_to" (JInt 2024)) = Ok year_to ->
  py_int (py_get plan "compare_year_from") = Ok c_from ->
  py_int (py_get plan "compare_year_to") = Ok c_to ->
  py_int (py_get_default plan "field_level" (JInt 1)) = Ok field_level ->
  py_float (py_get_default plan "field_score_min" (JFloat default_score))
    = Ok field_score_min ->
  py_int (py_get_default plan "top_k" (JInt 25)) = Ok top_k ->
  papers_by_field year_from year_to field_level field_score_min doctype pool = Ok a_rows ->
  papers_by_field c_from c_to field_level field_score_min doctype pool = Ok b_rows ->
  set_iter fields ≡ₚ elements fields ->
  exists keep : list string,
    data_agent papers_by_year papers_by_field set_iter plan
      = Ok (Payload (JStr "papers_by_field") plan
              (((fun f => [("group", JStr "A"); ("field", JStr f);
                           ("n_papers", JInt (count_A f))]) <$> keep) ++
               ((fun f => [("group", JStr "B"); ("field", JStr f);
                           ("n_papers", JInt (count_B f))]) <$> keep))) /\
    NoDup keep /\
    (forall f, f ∈ keep -> f ∈ fields) /\
    length keep = (if 0 <=? top_k then Nat.min (Z.to_nat top_k) (size fields)
                   else (size fields - Z.to_nat (- top_k))%nat) /\
    (forall f g, f ∈ keep -> g ∈ fields -> g ∉ keep ->
       lex_ge (label_rank count_A count_B f) (label_rank count_A count_B g)).
Proof.
  intros doctype pool a_map b_map fields count_A count_B
    Hct Hcmp Hyf Hyt Hcf Hcto Hlv Hsc Hk Ha Hb Hiter.
  set (ranked := py_sorted_desc (rank_key a_map b_map) (set_iter fields)).
  assert (Hperm : ranked ≡ₚ elements fields).
  { unfold ranked. by rewrite py_sorted_desc_perm. }
  assert (Hnd : NoDup ranked) by (rewrite Hperm; apply NoDup_elements).
  assert (Hsize : length ranked = size fields) by (by rewrite Hperm).
  set (k := if 0 <=? top_k then Z.to_nat top_k
            else (length ranked - Z.to_nat (- top_k))%nat).
  assert (Hkeep : py_slice_to ranked top_k = take k ranked).
  { unfold py_slice_to, k. by destruct (0 <=? top_k). }
  assert (Hsplit : ranked = take k ranked ++ drop k ranked) by (by rewrite take_drop).
  exists (take k ranked). split; [|split; [|split; [|split]]].
  - unfold data_agent, py_getitem, _field_rows. rewrite Hct. cbn [mbind result_bind].
    rewrite Hyf, Hyt. cbn [mbind result_bind py_eq_str]. rewrite Hcmp.
    change (String.eqb "papers_by_field" "papers_by_year") with false.
    change (String.eqb "papers_by_field" "papers_by_field") with true.
    cbn [negb]. rewrite Hlv, Hsc, Hk. cbn [mbind result_bind].
    fold doctype. fold pool. rewrite Ha. cbn [mbind result_bind].
    rewrite Hcf, Hcto. cbn [mbind result_bind]. rewrite Hb. cbn [mbind result_bind].
    fold a_map b_map fields ranked. by rewrite Hkeep.
  - rewrite Hsplit in Hnd. by apply NoDup_app in Hnd as [? _].
  - intros f Hf. apply elem_of_elements. rewrite <- Hperm.
    rewrite Hsplit. apply elem_of_app. by left.
  - rewrite length_take, Hsize. unfold k. rewrite Hsize. destruct (0 <=? top_k); lia.
  - intros f g Hf Hg Hng.
    assert (Hgr : g ∈ ranked) by (by rewrite Hperm; apply elem_of_elements).
    rewrite Hsplit in Hgr. apply elem_of_app in Hgr as [Hgr | Hgr]; [done|].
    pose proof (py_sorted_desc_sorted (rank_key a_map b_map) (set_iter fields)) as Hs.
    fold ranked in Hs. rewrite Hsplit in Hs.
    exact (sorted_app_before _ _ _ Hs f g Hf Hgr).
Qed.

Lemma data_agent_ok_inv (plan : dict) (pl : payload) :
  data_agent papers_by_year papers_by_field set_iter plan = Ok pl ->
  let compare := py_bool (py_get_default plan "compare" (JBool false)) in
  p_plan pl = plan /\
  ((py_eq_str (p_chart_type pl) "papers_by_year" = true /\
    ((compare = false /\ exists m ys, p_data pl = year_row m <$> ys) \/
     (compare = true /\ exists m ys m' ys',
        p_data pl = (group_year_row "A" m <$> ys) ++ (group_year_row "B" m' <$> ys')))) \/
   (py_eq_str (p_chart_type pl) "papers_by_year" = false /\
    py_eq_str (p_chart_type pl) "papers_by_field" = true /\
    ((compare = false /\ exists rows, p_data pl = field_row <$> rows) \/
     (compare = true /\ exists m m' keep,
        p_data pl = (group_field_row "A" m <$> keep) ++ (group_field_row "B" m' <$> keep))))).
Proof.
  unfold data_agent, _year_rows, _field_rows. intros H.
  destruct (py_getitem plan "chart_type") as [ct|]; [|done]. cbn [mbind result_bind] in H.
  destruct (py_int (py_get_default plan "year_from" _)) as [yf|]; [|done].
  cbn [mbind result_bind] in H.
  destruct (py_int (py_get_default plan "year_to" _)) as [yt|]; [|done].
  cbn [mbind result_bind] in H.
  destruct (py_eq_str ct "papers_by_year") eqn:E1.
  - destruct (py_bool (py_get_default plan "compare" (JBool false))) eqn:Ec; cbn [negb] in H.
    + destruct (papers_by_year yf yt _) as [a|]; [|done]. cbn [mbind result_bind] in H.
      destruct (py_int (py_get plan "compare_year_from")) as [cf|]; [|done].
      cbn [mbind result_bind] in H.
      destruct (py_int (py_get plan "compare_year_to")) as [cto|]; [|done].
      cbn [mbind result_bind] in H.
      destruct (papers_by_year cf cto _) as [b|]; [|done]. cbn [mbind result_bind] in H.
      injection H as <-. cbn [p_plan p_chart_type p_data]. split; [done|]. left.
      split; [done|]. right. split; [done|]. rewrite <- !list_fmap_compose. eauto 8.
    + destruct (papers_by_year yf yt _) as [a|]; [|done]. cbn [mbind result_bind] in H.
      injection H as <-. cbn [p_plan p_chart_type p_data]. split; [done|]. left.
      split; [done|]. left. eauto.
  - destruct (py_eq_str ct "papers_by_field") eqn:E2; [|done].
    destruct (py_int (py_get_default plan "field_level" _)) as [lv|]; [|done].
    cbn [mbind result_bind] in H.
    destruct (py_float (py_get_default plan "field_score_min" _)) as [sc|]; [|done].
    cbn [mbind result_bind] in H.
    destruct (py_int (py_get_default plan "top_k" _)) as [tk|]; [|done].
    cbn [mbind result_bind] in H.
    destruct (py_bool (py_get_default plan "compare" (JBool false))) eqn:Ec; cbn [negb] in H.
    + destruct (papers_by_field yf yt _ _ _ _) as [a|]; [|done]. cbn [mbind result_bind] in H.
      destruct (py_int (py_get plan "compare_year_from")) as [cf|]; [|done].
      cbn [mbind result_bind] in H.
      destruct (py_int (py_get plan "compare_year_to")) as [cto|]; [|done].
      cbn [mbind result_bind] in H.
      destruct (papers_by_field cf cto _ _ _ _) as [b|]; [|done]. cbn [mbind result_bind] in H.
      injection H as <-. cbn [p_plan p_chart_type p_data]. split; [done|]. right.
      split; [done|]. split; [done|]. right. eauto 8.
    + destruct (papers_by_field yf yt _ _ _ _) as [a|]; [|done]. cbn [mbind result_bind] in H.
      injection H as <-. cbn [p_plan p_chart_type p_data]. split; [done|]. right.
      split; [done|]. split; [done|]. left. eauto.
Qed.

(** X16. The descriptor fits the rows: every field that the chart descriptor
    refers to (in its x, y and colour channels, its tooltip and its
    selection) is a column of every row that the aggregator produced
    for the same plan. *)
Theorem descriptor_fields_are_columns (plan : dict) (pl : payload) (out : rendered) :
  data_agent papers_by_year papers_by_field set_iter plan = Ok pl ->
  viz_agent pl = Ok out ->
  forall row f, row ∈ r_data out -> f ∈ referenced_fields (vegaLiteSpec out) ->
    is_Some (od_get row f).
Proof.
  intros Hd Hv. apply data_agent_ok_inv in Hd as [Hp Hd]. cbv zeta in Hd.
  destruct pl as [ct plan' data]. cbn [p_plan p_chart_type p_data] in *. subst plan'.
  unfold viz_agent, or_none in Hv. cbn [p_plan p_chart_type p_data] in Hv.
  destruct Hd as [[E1 [[Ec (m & ys & ->)] | [Ec (m & ys & m' & ys' & ->)]]]
                 | (E1 & E2 & [[Ec (rows & ->)] | [Ec (m & m' & keep & ->)]])];
    rewrite E1, ?E2, Ec in Hv; cbn [negb andb] in Hv;
    destruct (py_bool (if py_bool (py_get plan "color") then py_get plan "color" else JNull));
    injection Hv as <-; cbn [r_data vegaLiteSpec];
    intros row f Hrow Hf;
    cbn in Hf; rewrite ?elem_of_cons, elem_of_nil in Hf;
    rewrite ?elem_of_app, ?list_elem_of_fmap in Hrow;
    repeat match goal with
           | H : _ \/ _ |- _ => destruct H as [H | H]
           | H : exists _, _ |- _ => destruct H as [? H]
           | H : _ /\ _ |- _ => destruct H as [? H]
           end;
    subst; try done; cbn; eauto.
Qed.

End RowFacts.

Lemma year_compare_rows_witness :
  let backend := fun (yf _ : Z) (_ : value) =>
                   if yf =? 2020 then Ok [(2021, 7)] else Ok [(2023, 2); (2024, 5)] in
  let plan : dict := {[ "chart_type" := JStr "papers_by_year"; "compare" := JBool true;
                        "year_from" := JInt 2020; "year_to" := JInt 2021;
                        "compare_year_from" := JInt 2023; "compare_year_to" := JInt 2022 ]} in
  exists data,
    data_agent backend (fun _ _ _ _ _ _ => Ok []) elements plan
      = Ok (Payload (JStr "papers_by_year") plan data) /\
    data = [[("group", JStr "A"); ("year", JInt 2020); ("n_papers", JInt 0)];
            [("group", JStr "A"); ("year", JInt 2021); ("n_papers", JInt 7)]] /\
    length data = 2%nat.
Proof.
  intros backend plan.
  destruct (year_compare_rows backend (fun _ _ _ _ _ _ => Ok []) elements plan
              2020 2021 2023 2022 [(2021, 7)] [(2023, 2); (2024, 5)])
    as (data & Hd & -> & Hl); [first [reflexivity | by vm_compute] .. |].
  eexists. split; [exact Hd|]. split; by vm_compute.
Defined.

Lemma label_compare_keeps_top_witness :
  let backend := fun (yf _ _ : Z) (_ : spec_float) (_ : value) (_ : Z) =>
                   if yf =? 2020 then Ok [("p", 1); ("q", 9)] else Ok [("p", 9); ("q", 1)] in
  let plan : dict := {[ "chart_type" := JStr "papers_by_field"; "compare" := JBool true;
                        "year_from" := JInt 2020; "year_to" := JInt 2022;
                        "compare_year_from" := JInt 2023; "compare_year_to" := JInt 2024;
                        "top_k" := JInt 1 ]} in
  data_agent (fun _ _ _ => Ok []) backend elements plan
    = Ok (Payload (JStr "papers_by_field") plan
            [[("group", JStr "A"); ("field", JStr "q"); ("n_papers", JInt 9)];
             [("group", JStr "B"); ("field", JStr "q"); ("n_papers", JInt 1)]]).
Proof.
  intros backend plan.
  destruct (label_compare_keeps_top (fun _ _ _ => Ok []) backend elements plan
              2020 2022 2023 2024 1 1 default_score [("p", 1); ("q", 9)] [("p", 9); ("q", 1)])
    as (keep & Hd & Hnd & Hin & Hlen & Hdom); [first [reflexivity | by vm_compute] .. |].
  assert (Hfields : forall f, f ∈ dom (dict_of_rows [("p", 1); ("q", 9)])
                                ∪ dom (dict_of_rows [("p", 9); ("q", 1)]) <->
                              f = "p" \/ f = "q").
  { intros f. unfold dict_of_rows. simpl. rewrite !dom_insert_L, dom_empty_L.
    rewrite !elem_of_union, !elem_of_singleton, elem_of_empty. tauto. }
  assert (Hq : keep = ["q"]).
  { change (length keep = 1%nat) in Hlen.
    destruct keep as [|f [|? ?]]; try done. clear Hlen.
    destruct (proj1 (Hfields f)) as [-> | ->]; [apply Hin, list_elem_of_here | | done].
    exfalso. specialize (Hdom "p" "q").
    assert (Hlex : lex_ge (10, 1, 9) (10, 9, 1)).
    { apply Hdom; [apply list_elem_of_here | apply Hfields; by right |].
      rewrite elem_of_cons, elem_of_nil. intros [? | []]. done. }
    unfold lex_ge in Hlex. simpl in Hlex. lia. }
  rewrite Hd, Hq. reflexivity.
Defined.

Lemma descriptor_fields_are_columns_witness :
  let backend := fun (yf _ : Z) (_ : value) =>
                   if yf =? 2020 then Ok [(2021, 7)] else Ok [(2023, 2)] in
  let plan : dict := {[ "chart_type" := JStr "papers_by_year"; "compare" := JBool true;
                        "year_from" := JInt 2020; "year_to" := JInt 2021;
                        "compare_year_from" := JInt 2023; "compare_year_to" := JInt 2023 ]} in
  exists pl out,
    data_agent backend (fun _ _ _ _ _ _ => Ok []) elements plan = Ok pl /\
    viz_agent pl = Ok out /\
    referenced_fields (vegaLiteSpec out)
      = ["year"; "n_papers"; "group"; "group"; "year"; "n_papers"; "group"; "year"] /\
    forall row f, row ∈ r_data out -> f ∈ referenced_fields (vegaLiteSpec out) ->
      is_Some (od_get row f).
Proof.
  intros backend plan.
  assert (Hd : data_agent backend (fun _ _ _ _ _ _ => Ok []) elements plan
               = Ok (Payload (JStr "papers_by_year") plan
                       [group_year_row "A" ∅ 2020; group_year_row "A" {[ 2021 := 7 ]} 2021;
                        group_year_row "B" {[ 2023 := 2 ]} 2023])) by reflexivity.
  destruct (viz_agent_supported (JStr "papers_by_year") plan
              [group_year_row "A" ∅ 2020; group_year_row "A" {[ 2021 := 7 ]} 2021;
               group_year_row "B" {[ 2023 := 2 ]} 2023] eq_refl) as (out & Hv & _).
  eexists _, out. split; [exact Hd|]. split; [exact Hv|]. split.
  - apply (f_equal (fun r => match r with
                             | Ok o => referenced_fields (vegaLiteSpec o)
                             | Raise _ => []
                             end)) in Hv. symmetry. exact Hv.
  - exact (descriptor_fields_are_columns backend (fun _ _ _ _ _ _ => Ok []) elements
             plan _ out Hd Hv).
Defined.

(** ** The chart endpoints *)

Lemma sorted_years_NoDup (rows : list (Z * Z)) :
  StronglySorted (fun a b : Z * Z => a.1 < b.1) rows -> NoDup rows.*1.
Proof.
  induction 1 as [|r rows Hs IH Hr]; simpl; constructor; [|done].
  intros Hin. apply list_elem_of_fmap in Hin as (r' & E & Hin).
  rewrite Forall_forall in Hr. specialize (Hr r' Hin). lia.
Qed.

(** Dropping the rows with count zero from the dense rows of a window
    gives back the rows of the query. *)
Lemma dense_rows_filter (count : Z -> Z) (n : nat) :
  forall (a : Z) (rows : list (Z * Z)),
    StronglySorted (fun x y : Z * Z => x.1 < y.1) rows ->
    Forall (fun r : Z * Z => a <= r.1 < a + Z.of_nat n /\ r.2 <> 0) rows ->
    (forall y c, (y, c) ∈ rows -> count y = c) ->
    (forall y, a <= y -> y ∉ rows.*1 -> count y = 0) ->
    filter (fun row => nonzero_row row = true)
      ((fun y => [("year", JInt y); ("n_papers", JInt (count y))]) <$> seqZ a (Z.of_nat n))
    = (fun yn : Z * Z => [("year", JInt yn.1); ("n_papers", JInt yn.2)]) <$> rows.
Proof.
  induction n as [|n IH]; intros a rows Hs Hr Hin Hout.
  - destruct rows as [|r rows]; [done|]. apply Forall_cons in Hr as [[? _] _]. lia.
  - rewrite seqZ_cons by lia. cbn [fmap list_fmap].
    replace (Z.pred (Z.of_nat (S n))) with (Z.of_nat n) by lia.
    destruct rows as [|[y c] rows].
    + rewrite filter_cons_False.
      * apply (IH (Z.succ a) []); [constructor | constructor | | ].
        -- intros y c Hy. by apply elem_of_nil in Hy.
        -- intros y Hy _. apply Hout; [lia|]. apply not_elem_of_nil.
      * unfold nonzero_row. cbn. rewrite (Hout a) by (lia || apply not_elem_of_nil). done.
    + apply StronglySorted_inv in Hs as [Hs Hlt]. apply Forall_cons in Hr as [[Hy Hc] Hr].
      cbn [fst snd] in Hy, Hc. pose proof Hlt as Hlt0. rewrite Forall_forall in Hlt.
      destruct (decide (y = a)) as [->|Hne].
      * rewrite filter_cons_True.
        2:{ unfold nonzero_row. cbn. rewrite (Hin a c) by apply list_elem_of_here.
            by destruct c. }
        rewrite (Hin a c) by apply list_elem_of_here. cbn [fmap list_fmap fst snd]. f_equal.
        apply IH; [done | | |].
        -- rewrite Forall_forall in Hr. apply Forall_forall. intros r Hrin.
           specialize (Hr r Hrin). specialize (Hlt r Hrin). cbn [fst] in Hlt. lia.
        -- intros y' c' Hy'. apply Hin. by apply list_elem_of_further.
        -- intros y' Hy' Hnot. apply Hout; [lia|]. cbn [fmap list_fmap fst].
           apply not_elem_of_cons. split; [lia | done].
      * rewrite filter_cons_False.
        2:{ unfold nonzero_row. cbn. rewrite (Hout a); [done | lia |].
            cbn [fmap list_fmap fst]. apply not_elem_of_cons. split; [lia|].
            intros Hin'. apply list_elem_of_fmap in Hin' as (r' & E & Hin').
            specialize (Hlt r' Hin'). cbn [fst] in Hlt. lia. }
        apply (IH (Z.succ a) ((y, c) :: rows)).
        -- by constructor.
        -- constructor; [cbn [fst snd]; split; [lia | done]|].
           rewrite Forall_forall in Hr. apply Forall_forall. intros r Hrin.
           specialize (Hr r Hrin). specialize (Hlt r Hrin). cbn [fst] in Hlt. lia.
        -- done.
        -- intros y' Hy' Hnot. apply Hout; [lia | done].
Qed.

Lemma empty_rows_filter (ys : list Z) :
  filter (fun row => nonzero_row row = true) (year_row (dict_of_rows []) <$> ys) = [].
Proof.
  induction ys as [|y ys IH]; [done|]. cbn [fmap list_fmap].
  rewrite filter_cons_False; [exact IH|].
  unfold nonzero_row, year_row, dict_of_rows. cbn. by rewrite lookup_empty.
Qed.

Section EndpointFacts.

Variable papers_by_year : Z -> Z -> value -> result (list (Z * Z)).
Variable papers_by_field :
  Z -> Z -> Z -> spec_float -> value -> Z -> result (list (string * Z)).
Variable set_iter : gset string -> list string.

(** X17. The by-field endpoint and the agent agree: for a plan without
    compare that carries the request's parameters, the aggregator makes
    the endpoint's query and returns the endpoint's rows (and raises
    what the endpoint raises). *)
Theorem field_endpoint_agrees_with_agent (req : ChartRequest) (plan : dict) :
  plan !! "chart_type" = Some (JStr "papers_by_field") ->
  py_bool (py_get_default plan "compare" (JBool false)) = false ->
  py_int (py_get_default plan "year_from" (JInt 2020)) = Ok (req_year_from req) ->
  py_int (py_get_default plan "year_to" (JInt 2024)) = Ok (req_year_to req) ->
  py_int (py_get_default plan "field_level" (JInt 1)) = Ok (req_field_level req) ->
  py_float (py_get_default plan "field_score_min" (JFloat default_score))
    = Ok (req_field_score_min req) ->
  py_int (py_get_default plan "top_k" (JInt 25)) = Ok (req_top_k req) ->
  or_none (py_get plan "doctype") = opt_str (req_doctype req) ->
  data_agent papers_by_year papers_by_field set_iter plan
  = (resp ← chart_papers_by_field papers_by_field req;
     Ok (Payload (JStr "papers_by_field") plan (c_data resp))).
Proof.
  intros Hct Hcmp Hyf Hyt Hlv Hsc Hk Hdt.
  unfold data_agent, py_getitem, _field_rows, chart_papers_by_field.
  rewrite Hct. cbn [mbind result_bind]. rewrite Hyf, Hyt. cbn [mbind result_bind py_eq_str].
  rewrite Hcmp.
  change (String.eqb "papers_by_field" "papers_by_year") with false.
  change (String.eqb "papers_by_field" "papers_by_field") with true.
  cbn [negb]. rewrite Hlv, Hsc, Hk, Hdt. cbn [mbind result_bind].
  by destruct (papers_by_field _ _ _ _ _ _).
Qed.

(** X18. The by-year endpoint returns the rows of the query as they are,
    while the agent fills the window: on rows as the database returns
    them, the endpoint's rows are the agent's rows without the years
    that have no paper. *)
Theorem year_endpoint_is_agent_without_gaps (req : ChartRequest) (plan : dict)
    (rows : list (Z * Z)) :
  plan !! "chart_type" = Some (JStr "papers_by_year") ->
  py_bool (py_get_default plan "compare" (JBool false)) = false ->
  py_int (py_get_default plan "year_from" (JInt 2020)) = Ok (req_year_from req) ->
  py_int (py_get_default plan "year_to" (JInt 2024)) = Ok (req_year_to req) ->
  or_none (py_get plan "doctype") = opt_str (req_doctype req) ->
  papers_by_year (req_year_from req) (req_year_to req) (opt_str (req_doctype req)) = Ok rows ->
  year_query_rows (req_year_from req) (req_year_to req) rows ->
  exists resp pl,
    chart_papers_by_year papers_by_year req = Ok resp /\
    data_agent papers_by_year papers_by_field set_iter plan = Ok pl /\
    c_data resp = filter (fun row => nonzero_row row = true) (p_data pl) /\
    (length (c_data resp) <= length (p_data pl))%nat.
Proof.
  intros Hct Hcmp Hyf Hyt Hdt Hrows [Hs Hr].
  assert (Hd : data_agent papers_by_year papers_by_field set_iter plan
               = Ok (Payload (JStr "papers_by_year") plan
                       (year_row (dict_of_rows rows)
                          <$> py_range (req_year_from req) (req_year_to req + 1)))).
  { unfold data_agent, py_getitem, _year_rows. rewrite Hct. cbn [mbind result_bind].
    rewrite Hyf, Hyt. cbn [mbind result_bind py_eq_str]. rewrite Hcmp.
    change (String.eqb "papers_by_year" "papers_by_year") with true. cbn [negb].
    by rewrite Hdt, Hrows. }
  assert (Hf : (fun yn : Z * Z => [("year", JInt yn.1); ("n_papers", JInt yn.2)]) <$> rows
               = filter (fun row => nonzero_row row = true)
                   (year_row (dict_of_rows rows)
                      <$> py_range (req_year_from req) (req_year_to req + 1))).
  { destruct rows as [|r0 rows0]; [symmetry; apply empty_rows_filter|].
    assert (Hle : req_year_from req <= req_year_to req).
    { apply Forall_cons in Hr as [[? _] _]. lia. }
    remember (r0 :: rows0) as rows eqn:Er. clear Er r0 rows0.
    symmetry. unfold py_range.
    replace (req_year_to req + 1 - req_year_from req)
      with (Z.of_nat (Z.to_nat (req_year_to req + 1 - req_year_from req))) by lia.
    apply (dense_rows_filter (fun y => default 0 (dict_of_rows rows !! y))).
    - done.
    - eapply Forall_impl; [exact Hr|]. intros r [? ?]. split; [lia | done].
    - intros y c Hin. rewrite (dict_of_rows_unique rows y c); [done | | done].
      by apply sorted_years_NoDup.
    - intros y _ Hnot. by rewrite dict_of_rows_omitted. }
  unfold chart_papers_by_year. rewrite Hrows. cbn [mbind result_bind].
  eexists _, _. split; [reflexivity|]. split; [exact Hd|].
  cbn [c_data p_data]. split; [exact Hf|]. rewrite Hf. apply length_filter.
Qed.

End EndpointFacts.

Lemma field_endpoint_agrees_with_agent_witness :
  let backend := fun (_ _ _ : Z) (_ : spec_float) (_ : value) (k : Z) =>
                   if k =? 30 then Ok [("Biology", 12); ("Physics", 9)]
                   else Raise (KeyError "limit") in
  let plan : dict := {[ "chart_type" := JStr "papers_by_field"; "top_k" := JStr "30";
                        "doctype" := JStr "" ]} in
  data_agent (fun _ _ _ => Ok []) backend elements plan
  = (resp ← chart_papers_by_field backend default_request;
     Ok (Payload (JStr "papers_by_field") plan (c_data resp))).
Proof.
  intros backend plan.
  apply (field_endpoint_agrees_with_agent (fun _ _ _ => Ok []) backend elements
           default_request plan); by vm_compute.
Defined.

Lemma year_endpoint_is_agent_without_gaps_witness :
  let backend := fun (_ _ : Z) (_ : value) => Ok [(2021, 4); (2023, 1)] in
  let plan : dict := {[ "chart_type" := JStr "papers_by_year" ]} in
  exists resp pl,
    chart_papers_by_year backend default_request = Ok resp /\
    data_agent backend (fun _ _ _ _ _ _ => Ok []) elements plan = Ok pl /\
    c_data resp = filter (fun row => nonzero_row row = true) (p_data pl) /\
    (length (c_data resp) <= length (p_data pl))%nat.
Proof.
  intros backend plan.
  apply (year_endpoint_is_agent_without_gaps backend (fun _ _ _ _ _ _ => Ok []) elements
           default_request plan [(2021, 4); (2023, 1)]); try (by vm_compute).
  split; repeat constructor; cbn; lia.
Defined.

(** ** [_safe_strip_fences] *)

Lemma rev_reverse {A : Type} (l : list A) : rev l = reverse l.
Proof. by rewrite rev_alt. Qed.

Lemma drop_while_all (p : ascii -> bool) (ws m : chars) :
  Forall (fun c => p c = true) ws -> drop_while p (ws ++ m) = drop_while p m.
Proof. induction 1 as [|c ws Hc _ IH]; simpl; [done | by rewrite Hc]. Qed.

Lemma drop_while_head (p : ascii -> bool) (w : chars) :
  from_option p false (head (drop_while p w)) = false.
Proof. induction w as [|c w IH]; simpl; [done|]. by destruct (p c) eqn:E; simpl. Qed.

Lemma drop_while_last (p : ascii -> bool) (w : chars) :
  from_option p false (last w) = false ->
  from_option p false (last (drop_while p w)) = false.
Proof.
  induction w as [|c w IH]; simpl; [done|]. intros H.
  destruct (p c) eqn:E; [|done]. apply IH. destruct w as [|c' w]; [done|]. exact H.
Qed.

Lemma strip_with_trimmed (p : ascii -> bool) (w : chars) : trimmed p (strip_with p w).
Proof.
  unfold strip_with, trimmed. rewrite !rev_reverse, head_reverse, last_reverse. split.
  - apply drop_while_last. rewrite last_reverse. apply drop_while_head.
  - apply drop_while_head.
Qed.

Lemma strip_with_id (p : ascii -> bool) (w : chars) : trimmed p w -> strip_with p w = w.
Proof.
  intros [Hh Hl]. unfold strip_with. rewrite (drop_while_id _ w Hh).
  rewrite drop_while_id; [apply rev_involutive |].
  by rewrite rev_reverse, head_reverse.
Qed.

Lemma strip_with_pad (p : ascii -> bool) (ws m ws' : chars) :
  Forall (fun c => p c = true) ws -> Forall (fun c => p c = true) ws' ->
  trimmed p m -> strip_with p (ws ++ m ++ ws') = m.
Proof.
  intros Hws Hws' [Hh Hl]. unfold strip_with. rewrite drop_while_all by done.
  destruct m as [|c m].
  - rewrite app_nil_l. rewrite <- (app_nil_r ws') at 1.
    rewrite drop_while_all by done. done.
  - simpl in Hh. cbn [app drop_while]. rewrite Hh.
    change (c :: m ++ ws') with ((c :: m) ++ ws'). rewrite rev_app_distr.
    rewrite drop_while_all by (by apply Forall_rev).
    rewrite drop_while_id; [apply rev_involutive|].
    by rewrite rev_reverse, head_reverse.
Qed.

Lemma trimmed_app (p : ascii -> bool) (u v : chars) :
  u <> [] -> v <> [] ->
  from_option p false (head u) = false -> from_option p false (last v) = false ->
  trimmed p (u ++ v).
Proof.
  intros Hu Hv Hh Hl. split.
  - destruct u; [done | exact Hh].
  - rewrite last_app. destruct (last v) eqn:E; [done|].
    apply last_None in E. done.
Qed.

Lemma chars_roundtrip (w : chars) : list_ascii_of_string (string_of_list_ascii w) = w.
Proof. apply list_ascii_of_string_of_list_ascii. Qed.

(** X19. The result never starts or ends with white space. *)
Theorem strip_fences_trimmed (raw : string) :
  trimmed Char.is_space (list_ascii_of_string (_safe_strip_fences raw)).
Proof.
  unfold _safe_strip_fences. cbv zeta.
  destruct (startswith _ (py_strip _)); [destruct (startswith _ (map _ _))|];
    rewrite chars_roundtrip; apply strip_with_trimmed.
Qed.

(** X20. A reply without fence comes back with its surrounding white space
    removed and is otherwise untouched. *)
Theorem strip_fences_plain_text (ws0 body ws1 : chars) :
  blank ws0 -> blank ws1 -> trimmed Char.is_space body ->
  startswith fence body = false ->
  _safe_strip_fences (string_of_list_ascii (ws0 ++ body ++ ws1)) = string_of_list_ascii body.
Proof.
  intros H0 H1 Hb Hf. unfold _safe_strip_fences. cbv zeta.
  rewrite chars_roundtrip.
  assert (Hs : py_strip (ws0 ++ body ++ ws1) = body) by (by apply strip_with_pad).
  rewrite !Hs. change (list_ascii_of_string "```") with fence. by rewrite Hf.
Qed.

Lemma strip_fences_plain_text_witness :
  _safe_strip_fences "  {`a`: 1} " = "{`a`: 1}".
Proof.
  apply (strip_fences_plain_text (list_ascii_of_string "  ")
           (list_ascii_of_string "{`a`: 1}") (list_ascii_of_string " "));
    first [by vm_compute | repeat constructor].
Defined.

Lemma space_not_backtick (c : ascii) : Char.is_space c = true -> is_backtick c = false.
Proof. by destruct c as [[] [] [] [] [] [] [] []]. Qed.

Lemma blank_no_backtick (ws : chars) :
  blank ws -> Forall (fun c => is_backtick c = false) ws.
Proof. intros H. eapply Forall_impl; [exact H|]. exact space_not_backtick. Qed.

Lemma head_pad (q : ascii -> bool) (ws m : chars) :
  Forall (fun c => q c = false) ws ->
  from_option q false (head m) = false -> from_option q false (head (ws ++ m)) = false.
Proof. intros Hws Hm. destruct Hws as [|c ws Hc _]; [exact Hm | exact Hc]. Qed.

Lemma last_pad (q : ascii -> bool) (m ws : chars) :
  Forall (fun c => q c = false) ws ->
  from_option q false (last m) = false -> from_option q false (last (m ++ ws)) = false.
Proof.
  intros Hws Hm. rewrite last_app. destruct (last ws) as [c|] eqn:E; [|exact Hm].
  rewrite Forall_forall in Hws. apply Hws. apply last_Some_elem_of in E. done.
Qed.

Lemma startswith_app (w s : chars) : startswith w (w ++ s) = true.
Proof. induction w as [|c w IH]; simpl; [done|]. by rewrite Ascii.eqb_refl. Qed.

Lemma fence_backticks : Forall (fun c => is_backtick c = true) fence.
Proof. by repeat constructor. Qed.

(** X21. A reply wrapped in a code fence, with or without the [json] tag in
    any letter case and with any white space around the parts, comes
    back as the text between the fences. *)
Theorem strip_fences_json_block (ws0 lang ws1 body ws2 ws3 : chars) :
  blank ws0 -> blank ws1 -> blank ws2 -> blank ws3 ->
  body <> [] -> trimmed Char.is_space body -> trimmed is_backtick body ->
  (lang = [] /\ startswith (list_ascii_of_string "json") (map Char.lower body) = false) \/
  map Char.lower lang = list_ascii_of_string "json" ->
  _safe_strip_fences
    (string_of_list_ascii (ws0 ++ (fence ++ (lang ++ ws1 ++ body ++ ws2) ++ fence) ++ ws3))
  = string_of_list_ascii body.
Proof.
  intros H0 H1 H2 H3 Hne [Hsh Hsl] [Hbh Hbl] Hlang.
  unfold _safe_strip_fences. cbv zeta. rewrite chars_roundtrip.
  assert (Hs : py_strip (ws0 ++ (fence ++ (lang ++ ws1 ++ body ++ ws2) ++ fence) ++ ws3)
               = fence ++ (lang ++ ws1 ++ body ++ ws2) ++ fence).
  { apply strip_with_pad; [done | done |]. split; [done|].
    rewrite app_assoc, last_app. done. }
  rewrite !Hs. change (list_ascii_of_string "```") with fence. rewrite startswith_app.
  assert (Hinner : trimmed is_backtick (ws1 ++ body ++ ws2)).
  { split.
    - apply head_pad; [by apply blank_no_backtick|]. by destruct body.
    - rewrite app_assoc. apply last_pad; [by apply blank_no_backtick|].
      rewrite last_app. destruct (last body) eqn:E; [done|]. by apply last_None in E. }
  assert (Hpad : py_strip (ws1 ++ body ++ ws2) = body) by (by apply strip_with_pad).
  destruct Hlang as [[-> Hnj] | Hj].
  - rewrite app_nil_l.
    rewrite (strip_with_pad is_backtick fence (ws1 ++ body ++ ws2) fence)
      by (done || apply fence_backticks).
    rewrite !Hpad. by rewrite Hnj.
  - destruct lang as [|j [|s [|o [|n [|? ?]]]]]; try done.
    injection Hj as Ej Es Eo En.
    set (M := [j; s; o; n] ++ ws1 ++ body).
    assert (HM : [j; s; o; n] ++ ws1 ++ body ++ ws2 = M ++ ws2)
      by (unfold M; by rewrite <- !app_assoc).
    rewrite HM in *.
    assert (Hlast : last M = last body).
    { unfold M. rewrite !last_app. destruct (last body) eqn:E; [done|].
      by apply last_None in E. }
    assert (Hjb : is_backtick j = false /\ Char.is_space j = false).
    { clear -Ej. by destruct j as [[] [] [] [] [] [] [] []]. }
    destruct Hjb as [Hjb Hjs].
    assert (Hl : trimmed is_backtick (M ++ ws2)).
    { split; [exact Hjb|]. apply last_pad; [by apply blank_no_backtick|]. by rewrite Hlast. }
    rewrite (strip_with_pad is_backtick fence (M ++ ws2) fence)
      by (done || apply fence_backticks).
    assert (Hst : py_strip (M ++ ws2) = M).
    { change (py_strip (M ++ ws2)) with (strip_with Char.is_space ([] ++ M ++ ws2)).
      apply strip_with_pad; [constructor | done |]. split; [exact Hjs | by rewrite Hlast]. }
    rewrite !Hst. unfold M. cbn [app map startswith]. rewrite Ej, Es, Eo, En.
    cbn [Ascii.eqb Bool.eqb andb list_ascii_of_string startswith drop].
    assert (Hfin : py_strip (ws1 ++ body) = body).
    { rewrite <- (app_nil_r body) at 1. by apply strip_with_pad; [|constructor|]. }
    rewrite drop_0. by rewrite Hfin.
Qed.

Lemma strip_fences_json_block_witness :
  _safe_strip_fences "```Json  {`a`: 1}  ``` " = "{`a`: 1}".
Proof.
  apply (strip_fences_json_block [] (list_ascii_of_string "Json")
           (list_ascii_of_string "  ") (list_ascii_of_string "{`a`: 1}")
           (list_ascii_of_string "  ") (list_ascii_of_string " "));
    first [by vm_compute | by right | repeat constructor].
Defined.

(** ** The pattern matchers *)

(** X22. The four numeric matchers never raise, on any text: what they
    capture is always a literal that [int()] or [float()] reads, and the
    integers they return are within the digits the patterns allow. *)
Theorem pattern_matchers_total (text : string) :
  (exists o, _parse_compare_ranges text = Ok o /\
     forall a1 a2 b1 b2, o = Some (a1, a2, b1, b2) ->
       0 <= a1 < 10000 /\ 0 <= a2 < 10000 /\ 0 <= b1 < 10000 /\ 0 <= b2 < 10000) /\
  (exists o, _parse_top_k text = Ok o /\ forall n, o = Some n -> 0 <= n < 10000) /\
  (exists o, _parse_field_score_min text = Ok o) /\
  (exists o, _parse_field_level text = Ok o /\ forall n, o = Some n -> 0 <= n < 100).
Proof.
  split; [|split; [|split]].
  - destruct (_parse_compare_ranges_ok text) as [-> | (a1 & a2 & b1 & b2 & -> & H)].
    + eexists. split; [done|]. intros; done.
    + eexists. split; [done|]. by intros ? ? ? ? [= <- <- <- <-].
  - destruct (_parse_top_k_ok text) as [-> | (n & -> & H)].
    + eexists. split; [done|]. intros; done.
    + eexists. split; [done|]. by intros ? [= <-].
  - apply _parse_field_score_min_ok.
  - destruct (_parse_field_level_ok text) as [-> | (n & -> & H)].
    + eexists. split; [done|]. intros; done.
    + eexists. split; [done|]. by intros ? [= <-].
Qed.

(** ** Inheritance *)

(** X23. An integer field that the interpreted object leaves unset, when the
    text has no override and there is a previous plan, is the previous
    plan's value read with [int()]; a previous value that cannot be
    read, or that is missing, gives the field's default. *)
Theorem planner_inherits_int (interp : dict) (user_text : string) (p : dict)
    (k : string) (d : Z) :
  no_override user_text -> p <> ∅ -> (k, d) ∈ int_fields -> unset interp k ->
  exists P, planner interp user_text (Some p) = Ok P /\
    P !! k = Some (_to_int (py_get p k) (JInt d)).
Proof.
  intros Ho Hp Hin Hu.
  destruct (planner_run_plain interp user_text (Some p) Ho) as (plan1 & P & L1 & HP & HL).
  exists P. split; [done|].
  assert (Hk : k ∈ inherit_keys).
  { unfold int_fields in Hin. unfold inherit_keys.
    rewrite !elem_of_cons, elem_of_nil in Hin. rewrite !elem_of_cons.
    repeat destruct Hin as [Hin|Hin]; try done; injection Hin as -> _;
      repeat first [left; reflexivity | right]. }
  assert (Hg : py_get (fill_defaults plan1) k = py_get p k).
  { unfold py_get at 1. erewrite fill_defaults_keeps; [done|].
    rewrite L1. unfold inherited, truthy_dict.
    destruct (Nat.eqb_spec (size p) 0) as [E|_]; [by apply map_size_empty_iff in E|].
    rewrite bool_decide_eq_true_2 by done. rewrite lookup_ensure_chart_type. cbn [pick].
    destruct (String.eqb_spec k "chart_type") as [->|_];
      [by apply chart_type_not_inherited in Hk|].
    by destruct Hu as [-> | ->]. }
  rewrite HL. unfold normal. destruct (resolve_compare _ _ _) as [[c f] t].
  unfold int_fields in Hin. rewrite !elem_of_cons, elem_of_nil in Hin.
  repeat destruct Hin as [Hin|Hin]; try done; injection Hin as -> ->;
    key_eval; by rewrite Hg.
Qed.

Lemma planner_inherits_int_witness :
  exists P, planner {[ "mark" := JStr "line" ]} "as a line chart"
              (Some {[ "chart_type" := JStr "papers_by_field"; "top_k" := JStr " 12 " ]}) = Ok P /\
    P !! "top_k" = Some (JInt 12).
Proof.
  destruct (planner_inherits_int {[ "mark" := JStr "line" ]} "as a line chart"
              {[ "chart_type" := JStr "papers_by_field"; "top_k" := JStr " 12 " ]} "top_k" 25)
    as (P & HP & Hk).
  - repeat split; by vm_compute.
  - intros H. apply (f_equal (fun m : dict => m !! "top_k")) in H. by vm_compute in H.
  - unfold int_fields. rewrite !elem_of_cons. do 3 right. by left.
  - left. by vm_compute.
  - exists P. split; [exact HP|]. rewrite Hk. by vm_compute.
Defined.

Section WindowFacts.

Variable papers_by_year : Z -> Z -> value -> result (list (Z * Z)).
Variable papers_by_field :
  Z -> Z -> Z -> spec_float -> value -> Z -> result (list (string * Z)).
Variable set_iter : gset string -> list string.

(** X24. A window whose end lies before its start is not rejected: the
    query is still made, and the by-year data are empty whatever the
    query returned. *)
Theorem reversed_window_no_rows (plan : dict) (year_from year_to : Z) (rows : list (Z * Z)) :
  plan !! "chart_type" = Some (JStr "papers_by_year") ->
  py_bool (py_get_default plan "compare" (JBool false)) = false ->
  py_int (py_get_default plan "year_from" (JInt 2020)) = Ok year_from ->
  py_int (py_get_default plan "year_to" (JInt 2024)) = Ok year_to ->
  year_to < year_from ->
  (papers_by_year year_from year_to (or_none (py_get plan "doctype")) = Ok rows ->
   data_agent papers_by_year papers_by_field set_iter plan
     = Ok (Payload (JStr "papers_by_year") plan [])) /\
  (forall e, papers_by_year year_from year_to (or_none (py_get plan "doctype")) = Raise e ->
   data_agent papers_by_year papers_by_field set_iter plan = Raise e).
Proof.
  intros Hct Hcmp Hyf Hyt Hlt.
  unfold data_agent, py_getitem, _year_rows. rewrite Hct. cbn [mbind result_bind].
  rewrite Hyf, Hyt. cbn [mbind result_bind py_eq_str]. rewrite Hcmp.
  change (String.eqb "papers_by_year" "papers_by_year") with true. cbn [negb].
  split.
  - intros ->. cbn [mbind result_bind]. unfold py_range, seqZ.
    replace (Z.to_nat (year_to + 1 - year_from)) with 0%nat by lia. done.
  - by intros e ->.
Qed.

End WindowFacts.

Lemma reversed_window_no_rows_witness :
  let backend := fun (_ _ : Z) (_ : value) => Ok [(2021, 4)] in
  let plan : dict := {[ "chart_type" := JStr "papers_by_year";
                        "year_from" := JInt 2024; "year_to" := JInt 2020 ]} in
  data_agent backend (fun _ _ _ _ _ _ => Ok []) elements plan
    = Ok (Payload (JStr "papers_by_year") plan []).
Proof.
  intros backend plan.
  apply (reversed_window_no_rows backend (fun _ _ _ _ _ _ => Ok []) elements plan
           2024 2020 [(2021, 4)]); first [lia | reflexivity | by vm_compute].
Defined.
